(** * ticket-enhancer: a shallow embedding of the Jira ticket enhancer

    The development follows the two source files of the repository:

    - [jira_issue_enhancer.py]: [LlamaJiraEnhancer] (prompt construction,
      the generation call, extraction of the enhanced description) and
      [JiraIssueEnhancer] (preview and apply on top of the tracker client),
      and the entry points [load_from_env], [enhance_specific_issue],
      [preview_specific_issue] and [batch_enhance_project];
    - [jira_connect_app.py]: [JiraConnectApp] (the tenant registry with its
      install and uninstall callbacks, the [jwt_required] gate, the
      [/enhance], [/demo] and [/health] endpoints, and the response headers
      set by [after_request] and [handle_options]).

    Conventions of the embedding.

    - Python values that come from JSON are [pyval]s; JSON numbers are kept
      to integers (no field the code reads is a float).
    - A text is a Python [str] written as its UTF-8 bytes.  Concatenation,
      comparison, [in], [startswith] and [split] at an ASCII separator
      act on the bytes as they act on the characters; [len], [strip],
      [upper] and [isupper] work on the characters.  The white space of
      [strip] is Python's, ASCII and beyond; the case of the ASCII
      letters is built in, and the case of every other character is what
      the character database of the environment says.
    - A computation that may raise returns an [outcome]; a computation that
      also talks to the outside world (tracker, generation endpoint, token
      library, clock, standard output, the tenants file) runs in the monad
      [M], which threads a [state] holding the log of those interactions,
      the tenants file and the in-memory registry.  What the outside world
      answers is given by an [env], each answer a function of the
      interactions so far.
    - The registry is a dict in insertion order that remembers its key
      objects; the tenants file holds what [json.load] reads from it,
      where every key is a str, and a write of the file may fail. *)

From Stdlib Require Import ZArith QArith Ascii String List Lia DecimalString.
From stdpp Require Import base option gmap strings list.

Set Warnings "-register-all".
Local Open Scope string_scope.

(** ** Python's [str] methods used by the code *)

Module PyStr.

(** The line feed, ['\n']. *)
Definition nl : string := String "010"%char EmptyString.

(** The double quote, for messages that contain one. *)
Definition dq : string := String "034"%char EmptyString.

(** *** Characters

    A text is split into its characters at the bytes that are not
    continuation bytes (128 to 191): every character starts with one,
    and the continuation bytes that follow belong to it. *)

Definition is_ascii_byte (c : ascii) : bool := (nat_of_ascii c <? 128)%nat.

Definition is_continuation (c : ascii) : bool :=
  let n := nat_of_ascii c in (128 <=? n)%nat && (n <? 192)%nat.

(** The text starts in the middle of a character. *)
Definition continues (s : string) : bool :=
  match s with
  | String c _ => is_continuation c
  | EmptyString => false
  end.

(** The characters of a text, in their order. *)
Fixpoint chars (s : string) : list string :=
  match s with
  | EmptyString => []
  | String c s' =>
      match chars s' with
      | h :: t =>
          if continues h then String c h :: t
          else String c EmptyString :: h :: t
      | [] => [String c EmptyString]
      end
  end.

(** Putting characters together again. *)
Definition cat (l : list string) : string :=
  List.fold_right String.append EmptyString l.

(** A byte with continuation bytes after it, and a whole character: one
    whose first byte is not a continuation byte. *)
Fixpoint all_continuation (s : string) : bool :=
  match s with
  | EmptyString => true
  | String c s' => is_continuation c && all_continuation s'
  end.

Definition is_piece (ch : string) : bool :=
  match ch with
  | String _ r => all_continuation r
  | EmptyString => false
  end.

Definition is_char (ch : string) : bool :=
  match ch with
  | String c r => negb (is_continuation c) && all_continuation r
  | EmptyString => false
  end.

(** [len(s)]: the number of characters. *)
Definition len (s : string) : nat := length (chars s).

(** [chr(n)]: the character with code point [n], in UTF-8. *)
Definition chr (n : N) : string :=
  let byte (k : N) : ascii := ascii_of_N k in
  (if n <? 128 then String (byte n) EmptyString
   else if n <? 2048 then
     String (byte (192 + n / 64)) (String (byte (128 + n mod 64)) EmptyString)
   else if n <? 65536 then
     String (byte (224 + n / 4096))
       (String (byte (128 + (n / 64) mod 64))
          (String (byte (128 + n mod 64)) EmptyString))
   else
     String (byte (240 + n / 262144))
       (String (byte (128 + (n / 4096) mod 64))
          (String (byte (128 + (n / 64) mod 64))
             (String (byte (128 + n mod 64)) EmptyString))))%N.

(** The white space of [str.strip()] and [str.isspace()]: tab to carriage
    return, the separators 0x1c to 0x1f, the space, the next-line
    control, the no-break space, and the space characters beyond
    Latin-1. *)
Definition whitespace : list string :=
  List.map chr
    [0x09; 0x0a; 0x0b; 0x0c; 0x0d; 0x1c; 0x1d; 0x1e; 0x1f; 0x20; 0x85; 0xa0;
     0x1680; 0x2000; 0x2001; 0x2002; 0x2003; 0x2004; 0x2005; 0x2006; 0x2007;
     0x2008; 0x2009; 0x200a; 0x2028; 0x2029; 0x202f; 0x205f; 0x3000]%N.

(** [c.isspace()] of a character. *)
Definition is_space (ch : string) : bool := existsb (String.eqb ch) whitespace.

(** Case of the ASCII letters, on their bytes. *)
Definition is_upper_char (c : ascii) : bool :=
  let n := nat_of_ascii c in (65 <=? n)%nat && (n <=? 90)%nat.

Definition is_lower_char (c : ascii) : bool :=
  let n := nat_of_ascii c in (97 <=? n)%nat && (n <=? 122)%nat.

Definition upper_char (c : ascii) : ascii :=
  if is_lower_char c then ascii_of_nat (nat_of_ascii c - 32) else c.

Fixpoint string_map (f : ascii -> ascii) (s : string) : string :=
  match s with
  | EmptyString => EmptyString
  | String c s' => String (f c) (string_map f s')
  end.

(** What the interpreter's character database says of a character that
    is not ASCII: its upper-case form (one character or several),
    whether it counts as upper-case, lower-case or title-case, and
    whether [repr] shows it as it is. *)
Record unicode : Type := mk_unicode {
  toupper : string -> string;
  is_uppercase : string -> bool;
  is_lowercase : string -> bool;
  is_titlecase : string -> bool;
  is_printable : string -> bool
}.

(** A database in which no character beyond ASCII has a case and all of
    them are printable: enough for a text that is ASCII. *)
Definition caseless : unicode :=
  mk_unicode (fun ch => ch) (fun _ => false) (fun _ => false) (fun _ => false)
    (fun _ => true).

(** [ord(c)]: the code point of a character, from its UTF-8 bytes. *)
Definition ord (ch : string) : N :=
  match ch with
  | EmptyString => 0%N
  | String b rest =>
      let n := N_of_ascii b in
      let lead :=
        (if n <? 128 then n
         else if n <? 192 then n - 128
         else if n <? 224 then n - 192
         else if n <? 240 then n - 224
         else n - 240)%N in
      List.fold_left (fun acc c => (acc * 64 + (N_of_ascii c - 128))%N)
        (list_ascii_of_string rest) lead
  end.

(** The ASCII character a character is, if it is one. *)
Definition ascii_of (ch : string) : option ascii :=
  match ch with
  | String c EmptyString => if is_ascii_byte c then Some c else None
  | _ => None
  end.

Section Case.

Variable U : unicode.

Definition char_upper (ch : string) : string :=
  match ascii_of ch with
  | Some c => String (upper_char c) EmptyString
  | None => toupper U ch
  end.

Definition char_isupper (ch : string) : bool :=
  match ascii_of ch with
  | Some c => is_upper_char c
  | None => is_uppercase U ch
  end.

Definition char_islower (ch : string) : bool :=
  match ascii_of ch with
  | Some c => is_lower_char c
  | None => is_lowercase U ch
  end.

Definition char_istitle (ch : string) : bool :=
  match ascii_of ch with
  | Some _ => false
  | None => is_titlecase U ch
  end.

(** [s.upper()]: every character by its upper-case form. *)
Definition upper (s : string) : string :=
  cat (List.map char_upper (chars s)).

(** The loop of [s.isupper()]: a lower-case or title-case character
    answers [False]; otherwise the answer is whether an upper-case
    character was seen. *)
Fixpoint isupper_loop (l : list string) (cased : bool) : bool :=
  match l with
  | [] => cased
  | ch :: l' =>
      if char_islower ch || char_istitle ch then false
      else isupper_loop l' (cased || char_isupper ch)
  end.

(** [s.isupper()], with its shortcut for a text of one character. *)
Definition isupper (s : string) : bool :=
  match chars s with
  | [ch] => char_isupper ch
  | l => isupper_loop l false
  end.

End Case.

(** [s.lstrip()], [s.rstrip()] and [s.strip()], on the characters. *)
Fixpoint lstrip_chars (l : list string) : list string :=
  match l with
  | [] => []
  | ch :: l' => if is_space ch then lstrip_chars l' else l
  end.

Fixpoint rstrip_chars (l : list string) : list string :=
  match l with
  | [] => []
  | ch :: l' =>
      match rstrip_chars l' with
      | [] => if is_space ch then [] else [ch]
      | r => ch :: r
      end
  end.

Definition strip (s : string) : string :=
  cat (rstrip_chars (lstrip_chars (chars s))).

(** [s.startswith(p)]. *)
Fixpoint startswith (p s : string) : bool :=
  match p, s with
  | EmptyString, _ => true
  | String a p', String b s' => if Ascii.eqb a b then startswith p' s' else false
  | String _ _, EmptyString => false
  end.

(** [needle in s]. *)
Fixpoint contains (needle s : string) : bool :=
  startswith needle s ||
  match s with
  | EmptyString => false
  | String _ s' => contains needle s'
  end.

(** [s.split(sep)] for a one-character ASCII separator: never empty. *)
Fixpoint split (sep : ascii) (s : string) : list string :=
  match s with
  | EmptyString => [EmptyString]
  | String c s' =>
      if Ascii.eqb c sep then EmptyString :: split sep s'
      else match split sep s' with
           | h :: t => String c h :: t
           | [] => [String c EmptyString]
           end
  end.

(** [s.split(sep, 1)] for a one-character ASCII separator: one piece when
    [sep] does not occur, otherwise the text before the first [sep] and
    the text after it. *)
Fixpoint split1 (sep : ascii) (s : string) : list string :=
  match s with
  | EmptyString => [EmptyString]
  | String c s' =>
      if Ascii.eqb c sep then [EmptyString; s']
      else match split1 sep s' with
           | h :: t => String c h :: t
           | [] => [String c EmptyString]
           end
  end.

(** [sep.join(l)] for a list of strings. *)
Definition join (sep : string) (l : list string) : string := String.concat sep l.

(** [s[n:]] for a text whose first [n] characters are ASCII. *)
Fixpoint drop (n : nat) (s : string) : string :=
  match n, s with
  | O, _ => s
  | S n', String _ s' => drop n' s'
  | S _, EmptyString => EmptyString
  end.

(** [c * n] for a one-character ASCII string. *)
Fixpoint repeat (c : ascii) (n : nat) : string :=
  match n with
  | O => EmptyString
  | S n' => String c (repeat c n')
  end.

(** The number of positions of [s] at which [needle] starts. *)
Fixpoint occurrences (needle s : string) : nat :=
  (if startswith needle s then 1 else 0) +
  match s with
  | EmptyString => 0
  | String _ s' => occurrences needle s'
  end.

(** [str(n)] for an integer. *)
Definition of_Z (n : Z) : string := NilZero.string_of_int (Z.to_int n).

Definition of_nat (n : nat) : string := of_Z (Z.of_nat n).

End PyStr.

(** ** Response extraction: [LlamaJiraEnhancer._extract_description_from_output] *)

Definition marker : string := "ENHANCED DESCRIPTION:".

Section ExtractionLoop.

Variable U : PyStr.unicode.

(** The test of the [if] branch: ['ENHANCED DESCRIPTION:' in line.upper()]. *)
Definition is_marker_line (line : string) : bool :=
  PyStr.contains marker (PyStr.upper U line).

(** The test that stops the scan:
    [line.strip().isupper() and ':' in line and len(line.strip()) < 50]. *)
Definition is_section_header (line : string) : bool :=
  PyStr.isupper U (PyStr.strip line) && PyStr.contains ":" line
  && (PyStr.len (PyStr.strip line) <? 50)%nat.

(** What the marker branch appends: [after_header = line.split(':', 1)],
    then [after_header[1].strip()] when there is a second piece and its
    trimmed form is not empty. *)
Definition after_header_lines (line : string) : list string :=
  let after_header := PyStr.split1 ":" line in
  match after_header with
  | _ :: after :: _ =>
      match PyStr.strip after with
      | EmptyString => []
      | trimmed => [trimmed]
      end
  | _ => []
  end.

(** The [for] loop over the lines, with its two variables; [break] returns
    the lines accumulated so far. *)
Fixpoint extract_loop (lines : list string) (in_description : bool)
    (description_lines : list string) : list string :=
  match lines with
  | [] => description_lines
  | line :: rest =>
      if is_marker_line line then
        extract_loop rest true (description_lines ++ after_header_lines line)
      else if in_description then
        if is_section_header line then description_lines
        else extract_loop rest true (description_lines ++ [line])
      else extract_loop rest in_description description_lines
  end.

(** The body of the method on a [str] argument. *)
Definition extract_description (llama_output : string) : string :=
  let lines := PyStr.split "010" llama_output in
  PyStr.strip (PyStr.join PyStr.nl (extract_loop lines false [])).

End ExtractionLoop.

(** ** Python values, exceptions and outcomes *)

(** A value decoded from JSON: [None], a bool, an int, a str, a list or a
    dict with string keys (in insertion order; a lookup takes the first
    binding of a key). *)
Inductive pyval : Type :=
| PNone
| PBool (b : bool)
| PInt (n : Z)
| PStr (s : string)
| PList (l : list pyval)
| PDict (d : list (string * pyval)).

(** The exception classes the code raises or catches by name; everything
    else is an [OtherException].  [ExpiredSignatureError] is a subclass of
    [InvalidTokenError] in the token library. *)
Inductive exc_class : Type :=
| KeyError
| AttributeError
| TypeError
| ValueError
| HTTPError
| ExpiredSignatureError
| InvalidTokenError
| OtherException.

(** An exception with its class and [str(e)]. *)
Record exception : Type := mk_exception {
  exc_class_of : exc_class;
  exc_str : string
}.

Inductive outcome (A : Type) : Type :=
| Ok (a : A)
| Raise (e : exception).

Arguments Ok {A} a.
Arguments Raise {A} e.

#[global] Instance outcome_ret : MRet outcome := λ A a, Ok a.

#[global] Instance outcome_bind : MBind outcome :=
  λ A B f m, match m with Ok a => f a | Raise e => Raise e end.

Definition raise {A : Type} (c : exc_class) (msg : string) : outcome A :=
  Raise (mk_exception c msg).

Module Py.

(** [type(v).__name__]. *)
Definition type_name (v : pyval) : string :=
  match v with
  | PNone => "NoneType"
  | PBool _ => "bool"
  | PInt _ => "int"
  | PStr _ => "str"
  | PList _ => "list"
  | PDict _ => "dict"
  end.

(** [bool(v)]. *)
Definition truthy (v : pyval) : bool :=
  match v with
  | PNone => false
  | PBool b => b
  | PInt n => negb (n =? 0)%Z
  | PStr s => negb (String.eqb s "")
  | PList l => match l with [] => false | _ => true end
  | PDict d => match d with [] => false | _ => true end
  end.

Fixpoint assoc (k : string) (d : list (string * pyval)) : option pyval :=
  match d with
  | [] => None
  | (k', v) :: d' => if String.eqb k k' then Some v else assoc k d'
  end.

(** [repr(s)] of a str: single quotes unless the text has a single quote
    and no double quote; backslash, the chosen quote and the characters
    that are not printable are escaped. *)
Definition hex_digit (n : N) : ascii :=
  if (n <? 10)%N then ascii_of_N (48 + n) else ascii_of_N (87 + n).

(** The last [width] hexadecimal digits of [n]. *)
Fixpoint hex (width : nat) (n : N) : string :=
  match width with
  | O => EmptyString
  | S w => hex w (n / 16)%N ++ String (hex_digit (n mod 16)%N) EmptyString
  end.

Section Repr.

Variable U : PyStr.unicode.

Definition repr_char (quote : ascii) (ch : string) : string :=
  match PyStr.ascii_of ch with
  | Some c =>
      let n := N_of_ascii c in
      if Ascii.eqb c "\"%char then "\\"
      else if Ascii.eqb c quote then String "\"%char (String quote EmptyString)
      else if (n =? 10)%N then "\n"
      else if (n =? 13)%N then "\r"
      else if (n =? 9)%N then "\t"
      else if (n <? 32)%N || (n =? 127)%N then "\x" ++ hex 2 n
      else ch
  | None =>
      if PyStr.is_printable U ch then ch
      else
        let n := PyStr.ord ch in
        if (n <? 256)%N then "\x" ++ hex 2 n
        else if (n <? 65536)%N then "\u" ++ hex 4 n
        else "\U" ++ hex 8 n
  end.

Definition repr_chars (quote : ascii) (s : string) : string :=
  PyStr.cat (List.map (repr_char quote) (PyStr.chars s)).

Definition repr_str (s : string) : string :=
  let quote : ascii :=
    if PyStr.contains "'" s && negb (PyStr.contains PyStr.dq s)
    then "034"%char else "'"%char in
  String quote (repr_chars quote s ++ String quote EmptyString).

(** [repr(v)]. *)
Fixpoint repr (v : pyval) : string :=
  match v with
  | PNone => "None"
  | PBool b => if b then "True" else "False"
  | PInt n => PyStr.of_Z n
  | PStr s => repr_str s
  | PList l => "[" ++ PyStr.join ", " (List.map repr l) ++ "]"
  | PDict d =>
      "{" ++ PyStr.join ", "
               (List.map (fun kv => repr_str (fst kv) ++ ": " ++ repr (snd kv)) d)
          ++ "}"
  end.

(** [str(v)], which is also what an f-string field [{v}] renders. *)
Definition str (v : pyval) : string :=
  match v with
  | PStr s => s
  | _ => repr v
  end.

End Repr.

(** [repr(k)] of a key written in the code: an ASCII text. *)
Definition repr_key (k : string) : string := repr_str PyStr.caseless k.

(** [v[k]] for a string key [k]. *)
Definition getitem (v : pyval) (k : string) : outcome pyval :=
  match v with
  | PDict d =>
      match assoc k d with
      | Some x => Ok x
      | None => raise KeyError (repr_key k)
      end
  | PStr _ => raise TypeError "string indices must be integers, not 'str'"
  | PList _ => raise TypeError "list indices must be integers or slices, not str"
  | _ => raise TypeError ("'" ++ type_name v ++ "' object is not subscriptable")
  end.

(** [v.get(k, default)]. *)
Definition get (v : pyval) (k : string) (default : pyval) : outcome pyval :=
  match v with
  | PDict d =>
      match assoc k d with
      | Some x => Ok x
      | None => Ok default
      end
  | _ => raise AttributeError ("'" ++ type_name v ++ "' object has no attribute 'get'")
  end.

(** [len(v)]. *)
Definition len (v : pyval) : outcome nat :=
  match v with
  | PStr s => Ok (PyStr.len s)
  | PList l => Ok (length l)
  | PDict d => Ok (length d)
  | _ => raise TypeError ("object of type '" ++ type_name v ++ "' has no len()")
  end.

(** [s + v] for a str [s]. *)
Definition concat_str (s : string) (v : pyval) : outcome string :=
  match v with
  | PStr t => Ok (s ++ t)
  | _ =>
      raise TypeError
        ("can only concatenate str (not " ++ PyStr.dq ++ type_name v ++ PyStr.dq
           ++ ") to str")
  end.

(** The elements a [for] or a comprehension walks through. *)
Definition iter (v : pyval) : outcome (list pyval) :=
  match v with
  | PList l => Ok l
  | PStr s => Ok (List.map PStr (PyStr.chars s))
  | PDict d => Ok (List.map (fun kv => PStr (fst kv)) d)
  | _ => raise TypeError ("'" ++ type_name v ++ "' object is not iterable")
  end.

(** The check [sep.join] makes on each item of the sequence, with its
    position. *)
Fixpoint join_items (i : nat) (l : list pyval) : outcome (list string) :=
  match l with
  | [] => Ok []
  | PStr s :: l' => rest ← join_items (S i) l'; mret (s :: rest)
  | v :: _ =>
      raise TypeError
        ("sequence item " ++ PyStr.of_nat i ++ ": expected str instance, "
           ++ type_name v ++ " found")
  end.

(** [sep.join(v)]. *)
Definition join (sep : string) (v : pyval) : outcome string :=
  match v with
  | PList _ | PStr _ | PDict _ =>
      items ← iter v; strs ← join_items 0 items; mret (PyStr.join sep strs)
  | _ => raise TypeError "can only join an iterable"
  end.

(** [[f(c) for c in l]]. *)
Fixpoint comprehension (f : pyval -> outcome pyval) (l : list pyval)
  : outcome (list pyval) :=
  match l with
  | [] => Ok []
  | c :: l' => x ← f c; rest ← comprehension f l'; mret (x :: rest)
  end.

End Py.

(** ** The outside world and the program state *)

Record generate_options : Type := mk_generate_options {
  temperature : Q;
  top_p : Q;
  num_ctx : Z
}.

(** The [payload] dict of [_call_model]. *)
Record generate_payload : Type := mk_generate_payload {
  model : string;
  prompt : string;
  stream : bool;
  options : generate_options
}.

(** What [requests.post] returns, as far as the code looks at it; [json] is
    the result of [response.json()]. *)
Record http_response : Type := mk_http_response {
  status_code : Z;
  reason : string;
  url : string;
  json : outcome pyval
}.

(** One interaction with the outside world. *)
Inductive event : Type :=
| Jira_issue (key : string)
| Jira_issue_update (issue_key : pyval) (fields : pyval)
| Requests_post (target : string) (body : generate_payload) (timeout : Z)
| Time_time
| Printed (text : string)
| Jwt_decode_unverified (token : string)
| Jwt_decode (token : string) (key : pyval) (algorithms : list string).

(** What becomes of [tenants.json] when a write of it fails: [open]
    raised and the file is as it was, or the write broke off after the
    file was emptied and [json.load] fails on what is left, or the whole
    text got there before the failure. *)
Inductive file_after : Type :=
| As_before
| Cut_short (load_error : exception)
| Whole.

(** The outcome of [open('tenants.json', 'w')] with [json.dump]. *)
Inductive write_result : Type :=
| Written
| Write_failed (e : exception) (after : file_after).

(** The answers of the outside world, each given the interactions that came
    before: the tracker client ([Jira.issue], [Jira.issue_update]), the
    generation endpoint behind [requests.post], the clock ([time.time()],
    in a unit of the clock's choice), the token library ([jwt.decode]
    without and with signature verification), the variables of the
    process environment ([os.getenv]), the interpreter's character
    database, and the file system under [tenants.json]. *)
Record env : Type := mk_env {
  jira_issue : list event -> string -> outcome pyval;
  jira_issue_update : list event -> pyval -> pyval -> outcome unit;
  requests_post : list event -> string -> generate_payload -> Z -> outcome http_response;
  time_time : list event -> Z;
  jwt_decode_unverified : list event -> string -> outcome pyval;
  jwt_decode : list event -> string -> pyval -> list string -> outcome pyval;
  os_getenv : string -> option string;
  unicode_data : PyStr.unicode;
  write_tenants : list event -> write_result
}.

(** A key of a Python dict: [None], a number ([True] and [False] are the
    keys [1] and [0]) or a str. *)
Inductive pykey : Type :=
| KNone
| KInt (n : Z)
| KStr (s : string).

#[global] Instance pykey_eq_dec : EqDecision pykey.
Proof. solve_decision. Defined.

Definition pykey_encode (k : pykey) : unit + (Z + string) :=
  match k with
  | KNone => inl tt
  | KInt n => inr (inl n)
  | KStr s => inr (inr s)
  end.

Definition pykey_decode (x : unit + (Z + string)) : pykey :=
  match x with
  | inl _ => KNone
  | inr (inl n) => KInt n
  | inr (inr s) => KStr s
  end.

#[global] Instance pykey_countable : Countable pykey.
Proof.
  apply (inj_countable' pykey_encode pykey_decode).
  intros []; reflexivity.
Defined.

(** [hash(v)] as far as a dict needs it: lists and dicts are unhashable. *)
Definition hash_key (v : pyval) : outcome pykey :=
  match v with
  | PNone => Ok KNone
  | PBool b => Ok (KInt (if b then 1 else 0))
  | PInt n => Ok (KInt n)
  | PStr s => Ok (KStr s)
  | PList _ | PDict _ =>
      raise TypeError ("unhashable type: '" ++ Py.type_name v ++ "'")
  end.

(** A value of [installed_tenants]. *)
Record TenantRecord : Type := mk_TenantRecord {
  shared_secret : pyval;
  base_url : pyval;
  installed_at : Z
}.

(** One entry of the [installed_tenants] dict: its place in the insertion
    order, the key object as it was first given ([True] and [1] are the
    same key, kept as the one that came first), and the value. *)
Record slot : Type := mk_slot {
  position : nat;
  key_object : pyval;
  slot_record : TenantRecord
}.

(** The [installed_tenants] dict: its entries by key, and the place the
    next new key gets. *)
Record registry : Type := mk_registry {
  slots : gmap pykey slot;
  next_position : nat
}.

#[global] Instance registry_empty : Empty registry := mk_registry ∅ 0.

(** [d[key]] and [key in d]. *)
#[global] Instance registry_lookup : Lookup pykey TenantRecord registry :=
  λ k r, slot_record <$> slots r !! k.

(** [len(d)]. *)
#[global] Instance registry_size : Size registry := λ r, size (slots r).

(** [d[key] = value] for a key object whose hash is [k]: a key the dict
    has keeps its place and its key object, a new key goes last. *)
Definition setitem (key : pyval) (k : pykey) (v : TenantRecord) (r : registry)
  : registry :=
  match slots r !! k with
  | Some sl =>
      mk_registry (<[k := mk_slot (position sl) (key_object sl) v]> (slots r))
        (next_position r)
  | None =>
      mk_registry (<[k := mk_slot (next_position r) key v]> (slots r))
        (S (next_position r))
  end.

(** [del d[key]]. *)
Definition delitem (k : pykey) (r : registry) : registry :=
  mk_registry (delete k (slots r)) (next_position r).

(** The entries in insertion order. *)
Fixpoint insert_slot (x : slot) (l : list slot) : list slot :=
  match l with
  | [] => [x]
  | y :: l' =>
      if (position x <=? position y)%nat then x :: l else y :: insert_slot x l'
  end.

Definition in_order (r : registry) : list slot :=
  foldr insert_slot [] (snd <$> map_to_list (slots r)).

(** The name [json.dump] writes for a key: a str as it is, [None] as
    [null], a bool as [true] or [false], an int by its digits.  (A list
    or a dict is never a key.) *)
Definition json_key (key : pyval) : string :=
  match key with
  | PStr s => s
  | PNone => "null"
  | PBool b => if b then "true" else "false"
  | PInt n => PyStr.of_Z n
  | PList _ | PDict _ => ""
  end.

(** What [json.load] makes of the text [json.dump] writes for the dict:
    every key is a str, and of two entries that were written under the
    same name the later one stays, at the place of the first. *)
Definition json_roundtrip (r : registry) : registry :=
  foldl (fun acc sl =>
           let name := json_key (key_object sl) in
           setitem (PStr name) (KStr name) (slot_record sl) acc)
    ∅ (in_order r).

(** The file [tenants.json]: not there, holding a text that [json.load]
    reads as a dict, or holding a text on which [json.load] raises. *)
Inductive tenants_file : Type :=
| No_file
| Holds (r : registry)
| Damaged (load_error : exception).

(** The state a run threads: the interactions so far, the file
    [tenants.json], the [installed_tenants] dict of the [JiraConnectApp]
    object, and the [jwt_payload] attribute the gate sets on the
    request. *)
Record state : Type := mk_state {
  log : list event;
  tenants_json : tenants_file;
  installed_tenants : registry;
  jwt_payload : option pyval
}.

Definition M (A : Type) : Type := state -> outcome A * state.

#[global] Instance M_ret : MRet M := λ A a s, (Ok a, s).

#[global] Instance M_bind : MBind M :=
  λ A B f m s, match m s with
               | (Ok a, s') => f a s'
               | (Raise e, s') => (Raise e, s')
               end.

(** A pure computation that may raise, run inside [M]. *)
Definition lift {A : Type} (o : outcome A) : M A := fun s => (o, s).

(** [try: body except Exception as e: handler(e)]. *)
Definition try_except {A : Type} (body : M A) (handler : exception -> M A) : M A :=
  fun s => match body s with
           | (Ok a, s') => (Ok a, s')
           | (Raise e, s') => handler e s'
           end.

Definition with_log (s : state) (l : list event) : state :=
  mk_state l (tenants_json s) (installed_tenants s) (jwt_payload s).

(** An interaction: the world answers from the log so far, and the
    interaction is appended to the log. *)
Definition call {A : Type} (ev : event) (answer : list event -> outcome A) : M A :=
  fun s => (answer (log s), with_log s (log s ++ [ev])).

(** [print(text)]. *)
Definition print (text : string) : M unit := call (Printed text) (fun _ => Ok tt).

(** ** [LlamaJiraEnhancer] *)

(** The attributes [__init__] sets. *)
Record LlamaJiraEnhancer : Type := mk_LlamaJiraEnhancer {
  llama_base_url : string;
  model_name : string;
  policy_rules : string
}.

Definition _load_default_policy : string :=
  "
JIRA TICKET ENHANCEMENT POLICY:

1. MANDATORY FIELDS:
   - All tickets must have clear, descriptive titles
   - Descriptions must include specific details, not vague statements
   - Priority must be set (Critical, High, Medium, Low)
   - Issue type must be specified (Bug, Story, Task, Epic)

2. BUG TICKETS:
   - Must include reproduction steps
   - Must specify expected vs actual behavior
   - Should include environment details (browser, OS, version)
   - Must have severity assessment

3. STORY/FEATURE TICKETS:
   - Must include acceptance criteria
   - Should have user story format: " ++ PyStr.dq ++ "As a [user], I want [goal] so that [benefit]" ++ PyStr.dq ++ "
   - Must include definition of done

4. TASK TICKETS:
   - Must have clear action items
   - Should include estimated effort
   - Must specify deliverables

5. GENERAL RULES:
   - Use professional, clear language
   - Remove duplicate information
   - Add relevant labels and components
   - Suggest appropriate assignee if obvious
   - Flag missing critical information
".

(** [LlamaJiraEnhancer(ollama_host, ollama_port, model_name)]. *)
Definition LlamaJiraEnhancer_init (ollama_host : string) (ollama_port : Z)
    (model_name : string) : LlamaJiraEnhancer :=
  mk_LlamaJiraEnhancer
    ("http://" ++ ollama_host ++ ":" ++ PyStr.of_Z ollama_port)
    model_name _load_default_policy.

(** [LlamaJiraEnhancer()], with the defaults of the signature. *)
Definition LlamaJiraEnhancer_default : LlamaJiraEnhancer :=
  LlamaJiraEnhancer_init "localhost" 11434 "llama3:8b".

(** The pattern of four lines of the ticket block:
    [fields.get(k, {}).get(attr, placeholder) if fields.get(k) else placeholder]. *)
Definition render_attr (U : PyStr.unicode) (fields : pyval)
    (k attr placeholder : string) : outcome string :=
  cond ← Py.get fields k PNone;
  if Py.truthy cond then
    inner ← Py.get fields k (PDict []);
    v ← Py.get inner attr (PStr placeholder);
    mret (Py.str U v)
  else mret placeholder.

(** [', '.join(fields.get('labels', [])) if fields.get('labels') else 'None']. *)
Definition render_labels (fields : pyval) : outcome string :=
  cond ← Py.get fields "labels" PNone;
  if Py.truthy cond then
    labels ← Py.get fields "labels" (PList []);
    Py.join ", " labels
  else mret "None".

(** [', '.join([c['name'] for c in fields.get('components', [])])
     if fields.get('components') else 'None']. *)
Definition render_components (fields : pyval) : outcome string :=
  cond ← Py.get fields "components" PNone;
  if Py.truthy cond then
    components ← Py.get fields "components" (PList []);
    cs ← Py.iter components;
    names ← Py.comprehension (fun c => Py.getitem c "name") cs;
    Py.join ", " (PList names)
  else mret "None".

(** The [issue_info] f-string. *)
Definition issue_info (U : PyStr.unicode) (issue fields : pyval)
  : outcome string :=
  key ← Py.getitem issue "key";
  summary ← Py.get fields "summary" (PStr "No title");
  description ← Py.get fields "description" (PStr "No description");
  priority ← render_attr U fields "priority" "name" "Not set";
  issuetype ← render_attr U fields "issuetype" "name" "Not set";
  assignee ← render_attr U fields "assignee" "displayName" "Unassigned";
  status ← render_attr U fields "status" "name" "Unknown";
  labels ← render_labels fields;
  components ← render_components fields;
  mret ("
CURRENT TICKET:
Key: " ++ Py.str U key ++ "
Title: " ++ Py.str U summary ++ "
Description: " ++ Py.str U description ++ "
Priority: " ++ priority ++ "
Issue Type: " ++ issuetype ++ "
Assignee: " ++ assignee ++ "
Status: " ++ status ++ "
Labels: " ++ labels ++ "
Components: " ++ components ++ "
").

(** The fixed task instruction that ends the prompt. *)
Definition task_instruction : string :=
  "TASK: Analyze the current ticket and provide an enhanced description that follows the policy rules above. 
Focus ONLY on improving the description field while maintaining all the important information.

Provide your response in the following format:

ENHANCED DESCRIPTION:
[Your enhanced description here - be detailed, structured, and professional]

Please enhance this ticket description now:".

Definition _build_prompt (U : PyStr.unicode) (self : LlamaJiraEnhancer)
    (issue : pyval) (custom_instructions : string) : outcome string :=
  fields ← Py.getitem issue "fields";
  info ← issue_info U issue fields;
  mret (policy_rules self ++ "

" ++ info ++ "

" ++ custom_instructions ++ "

" ++ task_instruction).

(** The dict [enhance_ticket] returns, by its two shapes: with
    ["success": True] it carries [enhanced_description] and
    [full_response], with ["success": False] it carries [error]. *)
Inductive EnhancementResult : Type :=
| EnhancementSuccess (enhanced_description : string) (full_response : pyval)
    (original_issue : pyval) (timestamp : Z)
| EnhancementFailure (error : string) (original_issue : pyval) (timestamp : Z).

(** [result['success']]. *)
Definition success (r : EnhancementResult) : bool :=
  match r with
  | EnhancementSuccess _ _ _ _ => true
  | EnhancementFailure _ _ _ => false
  end.

(** [response.raise_for_status()] of the HTTP library: it raises on the
    status codes 400 to 599, and on no other. *)
Definition raise_for_status (r : http_response) : outcome unit :=
  if (400 <=? status_code r)%Z && (status_code r <? 500)%Z then
    raise HTTPError
      (PyStr.of_Z (status_code r) ++ " Client Error: " ++ reason r
         ++ " for url: " ++ url r)
  else if (500 <=? status_code r)%Z && (status_code r <? 600)%Z then
    raise HTTPError
      (PyStr.of_Z (status_code r) ++ " Server Error: " ++ reason r
         ++ " for url: " ++ url r)
  else Ok tt.

(** The method on any argument: [llama_output.split] exists on a [str]
    only. *)
Definition _extract_description_from_output (U : PyStr.unicode)
    (llama_output : pyval) : outcome string :=
  match llama_output with
  | PStr s => Ok (extract_description U s)
  | v =>
      raise AttributeError
        ("'" ++ Py.type_name v ++ "' object has no attribute 'split'")
  end.

Section Program.

Variable E : env.

(** [time.time()]. *)
Definition now : M Z := call Time_time (fun l => Ok (time_time E l)).

Definition _call_model (self : LlamaJiraEnhancer) (prompt : string) : M pyval :=
  let target := llama_base_url self ++ "/api/generate" in
  let payload :=
    mk_generate_payload (model_name self) prompt false
      (mk_generate_options 0.1 0.9 4096) in
  response ← call (Requests_post target payload 60)
                  (fun l => requests_post E l target payload 60);
  _ ← lift (raise_for_status response);
  result ← lift (json response);
  lift (Py.get result "response" (PStr "")).

Definition enhance_ticket (self : LlamaJiraEnhancer) (issue : pyval)
    (custom_instructions : string) : M EnhancementResult :=
  prompt ← lift (_build_prompt (unicode_data E) self issue custom_instructions);
  try_except
    (response ← _call_model self prompt;
     enhanced_description ←
       lift (_extract_description_from_output (unicode_data E) response);
     t ← now;
     mret (EnhancementSuccess enhanced_description response issue t))
    (fun e =>
       t ← now;
       mret (EnhancementFailure (exc_str e) issue t)).

(** ** [JiraIssueEnhancer] *)

(** The object holds the tracker client, whose calls go through [E], and
    the [LlamaJiraEnhancer()] that [__init__] creates. *)
Record JiraIssueEnhancer : Type := mk_JiraIssueEnhancer {
  llama_enhancer : LlamaJiraEnhancer
}.

Definition JiraIssueEnhancer_init : JiraIssueEnhancer :=
  mk_JiraIssueEnhancer LlamaJiraEnhancer_default.

Definition get_issue (self : JiraIssueEnhancer) (ticket_key : string) : M pyval :=
  call (Jira_issue ticket_key) (fun l => jira_issue E l ticket_key).

Definition enhance_issue_description (self : JiraIssueEnhancer) (issue : pyval)
    (custom_instructions : string) : M EnhancementResult :=
  issue ← match issue with
          | PStr key => get_issue self key
          | _ => mret issue
          end;
  enhance_ticket (llama_enhancer self) issue custom_instructions.

(** [to_string]: the text [enhance_and_update_issue] prints first. *)
Definition to_string (self : JiraIssueEnhancer) (issue : pyval) : M string :=
  issue ← match issue with
          | PStr key => get_issue self key
          | _ => mret issue
          end;
  lift (
    fields ← Py.getitem issue "fields";
    original_desc ← Py.get fields "description" (PStr "");
    enhanced_desc ← Py.get fields "enhanced_description" (PStr "");
    key ← Py.getitem issue "key";
    let result := "
🎫 ISSUE " ++ Py.str (unicode_data E) key ++ "
" in
    let result := result ++ PyStr.repeat "=" 50 ++ PyStr.nl in
    summary ← Py.get fields "summary" (PStr "No title");
    let result := result ++ "📋 Title: " ++ Py.str (unicode_data E) summary ++ PyStr.nl in
    issuetype ← Py.get fields "issuetype" (PDict []);
    issuetype_name ← Py.get issuetype "name" (PStr "Unknown");
    let result :=
      result ++ "🏷️  Type: " ++ Py.str (unicode_data E) issuetype_name ++ PyStr.nl in
    priority ← render_attr (unicode_data E) fields "priority" "name" "Not set";
    let result := result ++ "⚡ Priority: " ++ priority ++ PyStr.nl in
    n ← Py.len original_desc;
    let result := result ++ "
📝 DESCRIPTION (" ++ PyStr.of_nat n ++ " chars):
" in
    let result := result ++ PyStr.repeat "-" 30 ++ PyStr.nl in
    result ← Py.concat_str result original_desc;
    if Py.truthy enhanced_desc then
      m ← Py.len enhanced_desc;
      let result := result ++ "
📝 ENHANCED DESCRIPTION (" ++ PyStr.of_nat m ++ " chars):
" in
      Py.concat_str result enhanced_desc
    else mret result).

(** The first lines of [update_issue_description] and of
    [enhance_and_update_issue]: the key and the issue object of a ticket
    reference. *)
Definition key_and_issue (self : JiraIssueEnhancer) (issue : pyval)
  : M (pyval * pyval) :=
  match issue with
  | PStr key => i ← get_issue self key; mret (issue, i)
  | _ => k ← lift (Py.getitem issue "key"); mret (k, issue)
  end.

Definition update_issue_description (self : JiraIssueEnhancer) (issue : pyval)
    (enhanced_description : string) : M (bool * string) :=
  '(issue_key, issue) ← key_and_issue self issue;
  let fields := PDict [("description", PStr enhanced_description)] in
  try_except
    (_ ← call (Jira_issue_update issue_key fields)
              (fun l => jira_issue_update E l issue_key fields);
     mret (true, "✅ Successfully updated description for " ++ Py.str (unicode_data E) issue_key))
    (fun e =>
       mret (false,
             "❌ Failed to update " ++ Py.str (unicode_data E) issue_key ++ ": "
               ++ exc_str e)).

Definition enhance_and_update_issue (self : JiraIssueEnhancer) (issue : pyval)
    (custom_instructions : string) : M (bool * string) :=
  '(issue_key, issue) ← key_and_issue self issue;
  text ← to_string self issue;
  _ ← print text;
  enhancement_result ← enhance_issue_description self issue custom_instructions;
  match enhancement_result with
  | EnhancementFailure error _ _ =>
      mret (false,
            "❌ Enhancement failed for " ++ Py.str (unicode_data E) issue_key ++ ": "
              ++ error)
  | EnhancementSuccess enhanced_description _ _ _ =>
      update_issue_description self issue enhanced_description
  end.

End Program.

(** ** [JiraConnectApp] *)

(** The request as the handlers read it: [request.get_json()],
    [request.headers.get('Authorization')] and [request.args.get(name)]. *)
Record request : Type := mk_request {
  get_json : outcome pyval;
  authorization : option string;
  args : string -> option string
}.

(** What a handler returns: a body (the empty text, or the dict given to
    [jsonify]) and a status code. *)
Record response : Type := mk_response {
  body : pyval;
  status : Z
}.

(** [return '', 204]. *)
Definition no_content : response := mk_response (PStr "") 204.

(** [return jsonify({'error': msg}), code]. *)
Definition error_response (msg : string) (code : Z) : response :=
  mk_response (PDict [("error", PStr msg)]) code.

Definition get_tenants : M registry := fun s => (Ok (installed_tenants s), s).

Definition set_tenants (r : registry) : M unit :=
  fun s => (Ok tt, mk_state (log s) (tenants_json s) r (jwt_payload s)).

(** [load_tenants]: what [json.load] reads from the file, or [{}] when
    there is no file. *)
Definition load_tenants : M registry :=
  fun s => match tenants_json s with
           | No_file => (Ok ∅, s)
           | Holds r => (Ok r, s)
           | Damaged e => (Raise e, s)
           end.

Definition set_file (f : tenants_file) : M unit :=
  fun s => (Ok tt, mk_state (log s) f (installed_tenants s) (jwt_payload s)).

(** [save_tenants]: the file is rewritten with the whole dict, or the
    write fails and raises. *)
Definition save_tenants (E : env) : M unit :=
  fun s =>
    let dumped := Holds (json_roundtrip (installed_tenants s)) in
    match write_tenants E (log s) with
    | Written => set_file dumped s
    | Write_failed e after =>
        (Raise e,
         snd (set_file match after with
                       | As_before => tenants_json s
                       | Cut_short load_error => Damaged load_error
                       | Whole => dumped
                       end s))
    end.

(** The part of [__init__] that touches the state. *)
Definition JiraConnectApp_init : M unit :=
  tenants ← load_tenants; set_tenants tenants.

(** [request.jwt_payload = payload]. *)
Definition set_jwt_payload (payload : pyval) : M unit :=
  fun s => (Ok tt, mk_state (log s) (tenants_json s) (installed_tenants s)
                     (Some payload)).

Section Handlers.

Variable E : env.

Definition serve_installed (req : request) : M response :=
  try_except
    (data ← lift (get_json req);
     client_key ← lift (Py.get data "clientKey" PNone);
     secret ← lift (Py.get data "sharedSecret" PNone);
     tenant_url ← lift (Py.get data "baseUrl" PNone);
     t ← now E;
     k ← lift (hash_key client_key);
     tenants ← get_tenants;
     _ ← set_tenants (setitem client_key k (mk_TenantRecord secret tenant_url t)
                        tenants);
     _ ← save_tenants E;
     _ ← print ("✅ App installed for tenant: " ++ Py.str (unicode_data E) client_key);
     mret no_content)
    (fun e =>
       _ ← print ("❌ Installation failed: " ++ exc_str e);
       mret (error_response (exc_str e) 400)).

Definition serve_uninstalled (req : request) : M response :=
  try_except
    (data ← lift (get_json req);
     client_key ← lift (Py.get data "clientKey" PNone);
     k ← lift (hash_key client_key);
     tenants ← get_tenants;
     _ ← match tenants !! k with
         | Some _ =>
             _ ← set_tenants (delitem k tenants);
             print ("✅ App uninstalled for tenant: " ++ Py.str (unicode_data E) client_key)
         | None => mret tt
         end;
     mret no_content)
    (fun e =>
       _ ← print ("❌ Uninstallation failed: " ++ exc_str e);
       mret (error_response (exc_str e) 400)).

(** The three [except] clauses of the gate, in their order. *)
Definition jwt_handler (e : exception) : M response :=
  match exc_class_of e with
  | ExpiredSignatureError => mret (error_response "Token expired" 401)
  | InvalidTokenError => mret (error_response "Invalid token" 401)
  | _ => mret (error_response ("Authentication error: " ++ exc_str e) 401)
  end.

(** [jwt_required(f)]: the decorated function. *)
Definition jwt_required (f : M response) (req : request) : M response :=
  try_except
    (let auth_header := default "" (authorization req) in
     if negb (PyStr.startswith "JWT " auth_header) then
       mret (error_response "Missing or invalid JWT token" 401)
     else
       let token := PyStr.drop 4 auth_header in
       unverified ← call (Jwt_decode_unverified token)
                         (fun l => jwt_decode_unverified E l token);
       client_key ← lift (Py.get unverified "iss" PNone);
       k ← lift (hash_key client_key);
       tenants ← get_tenants;
       match tenants !! k with
       | None => mret (error_response "App not installed for this tenant" 401)
       | Some tenant =>
           let secret := shared_secret tenant in
           payload ← call (Jwt_decode token secret ["HS256"])
                          (fun l => jwt_decode E l token secret ["HS256"]);
           _ ← set_jwt_payload payload;
           f
       end)
    jwt_handler.

(** [jsonify(result)] of an enhancement result. *)
Definition result_json (r : EnhancementResult) : pyval :=
  match r with
  | EnhancementSuccess enhanced_description full_response original_issue t =>
      PDict [("success", PBool true);
             ("enhanced_description", PStr enhanced_description);
             ("full_response", full_response);
             ("original_issue", original_issue);
             ("timestamp", PInt t)]
  | EnhancementFailure error original_issue t =>
      PDict [("success", PBool false);
             ("error", PStr error);
             ("original_issue", original_issue);
             ("timestamp", PInt t)]
  end.

(** [return jsonify({'success': False, 'error': msg}), code]. *)
Definition failure_response (msg : string) (code : Z) : response :=
  mk_response (PDict [("success", PBool false); ("error", PStr msg)]) code.

(** [bool(v)] of a str that may be [None]. *)
Definition given (v : option string) : bool :=
  match v with
  | Some s => negb (String.eqb s "")
  | None => false
  end.

Definition _create_enhancer_for_tenant (tenant_url : option string)
  : outcome JiraIssueEnhancer :=
  let server_url := tenant_url in
  let username := os_getenv E "JIRA_SERVICE_ACCOUNT_EMAIL" in
  let api_token := os_getenv E "JIRA_SERVICE_ACCOUNT_TOKEN" in
  if negb (given server_url && given username && given api_token) then
    raise ValueError "Missing Jira credentials for tenant"
  else Ok JiraIssueEnhancer_init.

Definition serve_enhance (req : request) : M response :=
  try_except
    (let action := default "preview" (args req "action") in
     _ ← print ("serve_enhance - action: " ++ action);
     let issue_key := args req "issueKey" in
     let custom_instructions := default "" (args req "instructions") in
     if negb (given issue_key) then mret (failure_response "Issue key required" 400)
     else
       let tenant_url := os_getenv E "JIRA_SERVER_URL" in
       enhancer ← lift (_create_enhancer_for_tenant tenant_url);
       if String.eqb action "preview" then
         result ← enhance_issue_description E enhancer
                    (PStr (default "" issue_key)) custom_instructions;
         mret (mk_response (result_json result) 200)
       else if String.eqb action "apply" then
         '(done, message) ← enhance_and_update_issue E enhancer
                              (PStr (default "" issue_key)) custom_instructions;
         mret (mk_response
                 (PDict [("success", PBool done); ("message", PStr message)]) 200)
       else mret (failure_response "Invalid action" 400))
    (fun e =>
       _ ← print ("serve_enhance - failed: " ++ exc_str e);
       mret (failure_response (exc_str e) 500)).

End Handlers.

(** ** Definitions used to state the properties *)

(** [response.ok] of the HTTP library: [raise_for_status] does not raise. *)
Definition ok (r : http_response) : bool :=
  match raise_for_status r with
  | Ok _ => true
  | Raise _ => false
  end.

(** The tracker writes among a list of interactions. *)
Definition is_update (ev : event) : bool :=
  match ev with
  | Jira_issue_update _ _ => true
  | _ => false
  end.

Definition updates (l : list event) : list event := List.filter is_update l.

(** The spec's TicketSnapshot: the key, and the fields a ticket may or may
    not have. *)
Record TicketSnapshot : Type := mk_TicketSnapshot {
  ticket_key : string;
  title : option string;
  description : option string;
  priority_name : option string;
  issue_type_name : option string;
  assignee_display_name : option string;
  status_name : option string;
  labels : list string;
  components : list string
}.

(** How the tracker's JSON shows a field the ticket does not have: the key
    is left out, or it is there with [null], or it is there with [null]
    but for the labels and the components, which are there with the empty
    list. *)
Inductive missing : Type :=
| Absent
| Null
| Empty.

Definition entry (k : string) (v : option pyval) : list (string * pyval) :=
  match v with
  | Some x => [(k, x)]
  | None => []
  end.

(** What [fields] holds for a field that may be missing. *)
Definition shown (how : missing) (v : option pyval) : option pyval :=
  match v, how with
  | Some x, _ => Some x
  | None, Absent => None
  | None, (Null | Empty) => Some PNone
  end.

(** What [fields] holds for a list field. *)
Definition shown_list (how : missing) (items : list pyval) : option pyval :=
  match items, how with
  | [], Absent => None
  | [], Null => Some PNone
  | _, _ => Some (PList items)
  end.

Definition entry_or (how : missing) (k : string) (v : option pyval)
  : list (string * pyval) :=
  entry k (shown how v).

Definition named (attr : string) (name : option string) : option pyval :=
  (fun n => PDict [(attr, PStr n)]) <$> name.

Definition str_list (l : list string) : list pyval := List.map PStr l.

Definition component_list (l : list string) : list pyval :=
  List.map (fun n => PDict [("name", PStr n)]) l.

(** The [fields] dict of a snapshot.  A missing title or description is
    left out; every other missing field is shown as [how] says. *)
Definition snapshot_fields (how : missing) (t : TicketSnapshot)
  : list (string * pyval) :=
  (entry "summary" (PStr <$> title t)
   ++ entry "description" (PStr <$> description t)
   ++ entry_or how "priority" (named "name" (priority_name t))
   ++ entry_or how "issuetype" (named "name" (issue_type_name t))
   ++ entry_or how "assignee" (named "displayName" (assignee_display_name t))
   ++ entry_or how "status" (named "name" (status_name t))
   ++ entry "labels" (shown_list how (str_list (labels t)))
   ++ entry "components" (shown_list how (component_list (components t))))%list.

(** The issue object of a snapshot. *)
Definition snapshot_issue (how : missing) (t : TicketSnapshot) : pyval :=
  PDict [("key", PStr (ticket_key t)); ("fields", PDict (snapshot_fields how t))].

(** A list field of the ticket block as the spec words it: [None] when
    empty, otherwise the items joined by a comma and a space. *)
Definition render_list (l : list string) : string :=
  match l with
  | [] => "None"
  | _ => PyStr.join ", " l
  end.

(** The ticket block as the spec words it: one [label: value] line per
    field, a missing field shown by its placeholder. *)
Definition ticket_block (t : TicketSnapshot) : string :=
  PyStr.nl ++ "CURRENT TICKET:" ++ PyStr.nl
  ++ "Key: " ++ ticket_key t ++ PyStr.nl
  ++ "Title: " ++ default "No title" (title t) ++ PyStr.nl
  ++ "Description: " ++ default "No description" (description t) ++ PyStr.nl
  ++ "Priority: " ++ default "Not set" (priority_name t) ++ PyStr.nl
  ++ "Issue Type: " ++ default "Not set" (issue_type_name t) ++ PyStr.nl
  ++ "Assignee: " ++ default "Unassigned" (assignee_display_name t) ++ PyStr.nl
  ++ "Status: " ++ default "Unknown" (status_name t) ++ PyStr.nl
  ++ "Labels: " ++ render_list (labels t) ++ PyStr.nl
  ++ "Components: " ++ render_list (components t) ++ PyStr.nl.

(** The prompt as the spec words it: the policy, the ticket block, the
    caller's instructions and the task instruction, two line feeds
    between them. *)
Definition prompt_layout (policy : string) (t : TicketSnapshot)
    (custom_instructions : string) : string :=
  policy ++ PyStr.nl ++ PyStr.nl ++ ticket_block t ++ PyStr.nl ++ PyStr.nl
  ++ custom_instructions ++ PyStr.nl ++ PyStr.nl ++ task_instruction.

(** ** Sample worlds and tickets, for the concrete runs *)

(** A few entries of the character database, enough for the sample
    texts: the dotless i and the long s, whose upper-case forms are the
    ASCII letters [I] and [S]; the sharp s, whose upper-case form is [SS];
    the Cyrillic letters from U+0410 to U+044F, capitals in the first
    half and their small letters 32 places further; and the white space
    beyond ASCII, which is not printable. *)
Definition cyrillic_capital (ch : string) : bool :=
  existsb (fun n => String.eqb ch (PyStr.chr (0x410 + N.of_nat n))) (seq 0 32).

Definition cyrillic_small (ch : string) : bool :=
  existsb (fun n => String.eqb ch (PyStr.chr (0x430 + N.of_nat n))) (seq 0 32).

Definition cyrillic_upper (ch : string) : string :=
  default ch
    (List.find (fun up => String.eqb ch (snd up))
       (List.map (fun n => (PyStr.chr (0x410 + N.of_nat n),
                            PyStr.chr (0x430 + N.of_nat n)))
          (seq 0 32))
     ≫= fun up => Some (fst up)).

Definition sample_unicode : PyStr.unicode :=
  PyStr.mk_unicode
    (fun ch =>
       if String.eqb ch (PyStr.chr 0x131) then "I"
       else if String.eqb ch (PyStr.chr 0x17f) then "S"
       else if String.eqb ch (PyStr.chr 0xdf) then "SS"
       else cyrillic_upper ch)
    cyrillic_capital
    (fun ch =>
       String.eqb ch (PyStr.chr 0x131) || String.eqb ch (PyStr.chr 0x17f)
       || String.eqb ch (PyStr.chr 0xdf) || cyrillic_small ch)
    (fun _ => false)
    (fun ch => negb (PyStr.is_space ch)).

(** A world whose tracker answers every lookup with [tracker], accepts
    every update, whose generation endpoint answers every request with
    [post], whose clock counts the interactions, and whose token library
    rejects every token. *)
Definition world (tracker : outcome pyval) (post : outcome http_response) : env :=
  mk_env
    (fun _ _ => tracker)
    (fun _ _ _ => Ok tt)
    (fun _ _ _ _ => post)
    (fun l => Z.of_nat (length l))
    (fun _ _ => raise InvalidTokenError "Not enough segments")
    (fun _ _ _ _ => raise InvalidTokenError "Not enough segments")
    (fun _ => Some "set")
    sample_unicode
    (fun _ => Written).

(** The state of a fresh process: nothing logged, no tenants file, no
    tenant. *)
Definition fresh : state := mk_state [] No_file ∅ None.

Definition sample_issue : pyval :=
  PDict
    [("key", PStr "DIGI-894");
     ("fields",
      PDict
        [("summary", PStr "Login page fails");
         ("description", PStr "It fails.");
         ("priority", PDict [("name", PStr "High")]);
         ("issuetype", PDict [("name", PStr "Bug")]);
         ("assignee", PNone);
         ("status", PDict [("name", PStr "Open")]);
         ("labels", PList [PStr "web"; PStr "login"]);
         ("components", PList [])])].

(** The tracker's "no such issue" answer. *)
Definition issue_not_found : exception :=
  mk_exception OtherException
    "Issue does not exist or you do not have permission to see it.".

(** A generation endpoint that answers with status 500. *)
Definition server_error : http_response :=
  mk_http_response 500 "Internal Server Error"
    "http://localhost:11434/api/generate"
    (Ok (PDict [("error", PStr "model not loaded")])).

(** A generation endpoint that answers with status 300 and a body. *)
Definition redirect_answer : http_response :=
  mk_http_response 300 "Multiple Choices" "http://localhost:11434/api/generate"
    (Ok (PDict [("response", PStr "ENHANCED DESCRIPTION: Use the new page.")])).

(** A generation endpoint that answers with the given body. *)
Definition generated (answer : pyval) : http_response :=
  mk_http_response 200 "OK" "http://localhost:11434/api/generate" (Ok answer).

(** A computation that leaves the tracker writes in the log as they were. *)
Definition no_update {A : Type} (m : M A) : Prop :=
  forall s : state, updates (log (snd (m s))) = updates (log s).

(** A world whose token library decodes every token to [claims], with and
    without signature verification, whatever the key. *)
Definition token_world (claims : pyval) : env :=
  mk_env
    (fun _ _ => Raise issue_not_found)
    (fun _ _ _ => Ok tt)
    (fun _ _ _ _ => Ok server_error)
    (fun l => Z.of_nat (length l))
    (fun _ _ => Ok claims)
    (fun _ _ _ _ => Ok claims)
    (fun _ => Some "set")
    sample_unicode
    (fun _ => Written).

(** The install callback of a tenant, and its uninstall callback. *)
Definition install_request : request :=
  mk_request
    (Ok (PDict [("clientKey", PStr "tenant-1");
                ("sharedSecret", PStr "s3cret");
                ("baseUrl", PStr "https://one.atlassian.net")]))
    None (fun _ => None).

Definition uninstall_request : request :=
  mk_request (Ok (PDict [("clientKey", PStr "tenant-1")])) None (fun _ => None).

(** The state after the install callback in a fresh process, and after the
    uninstall callback that follows it. *)
Definition after_install : state :=
  snd (serve_installed (token_world PNone) install_request fresh).

Definition after_uninstall : state :=
  snd (serve_uninstalled (token_world PNone) uninstall_request after_install).

(** ** The rest of [jira_issue_enhancer.py] *)

(** One entry of the list [batch_enhance_project] returns: the dict with
    the keys [issue], [success] and [message]. *)
Record BatchResult : Type := mk_BatchResult {
  batch_issue : pyval;
  batch_success : bool;
  batch_message : string
}.

Section MoreProgram.

Variable E : env.

(** [Jira.jql(jql, limit=max_results)] of the tracker client: a read,
    answered from the interactions so far; it leaves no entry of its own
    in the log. *)
Variable jira_jql : list event -> string -> Z -> outcome pyval.

Definition search_project_issues (self : JiraIssueEnhancer) (project_key : string)
    (max_results : Z) : M pyval :=
  let jql := "project = " ++ project_key ++ " ORDER BY created DESC" in
  result ← (fun s => (jira_jql (log s) jql max_results, s));
  lift (Py.getitem result "issues").

(** The sign that the last line of the summary puts before the change:
    ['+' if len(enhanced_desc) > len(original_desc) else '']. *)
Definition change_sign (enhanced original : nat) : string :=
  if (original <? enhanced)%nat then "+" else "".

Definition preview_enhancement (self : JiraIssueEnhancer) (issue : pyval)
    (custom_instructions : string) : M unit :=
  issue ← match issue with
          | PStr key => get_issue E self key
          | _ => mret issue
          end;
  text ← to_string E self issue;
  _ ← print text;
  _ ← print "
🤖 ENHANCING WITH LLAMA...";
  enhancement_result ← enhance_issue_description E self issue custom_instructions;
  match enhancement_result with
  | EnhancementSuccess enhanced_desc _ _ _ =>
      fields ← lift (Py.getitem issue "fields");
      original_desc ← lift (Py.get fields "description" (PStr ""));
      let n := PyStr.len enhanced_desc in
      _ ← print ("
✨ ENHANCED DESCRIPTION (" ++ PyStr.of_nat n ++ " chars):");
      _ ← print (PyStr.repeat "-" 30);
      _ ← print enhanced_desc;
      _ ← print "
📊 ENHANCEMENT SUMMARY:";
      m ← lift (Py.len original_desc);
      _ ← print ("   • Original length: " ++ PyStr.of_nat m ++ " characters");
      _ ← print ("   • Enhanced length: " ++ PyStr.of_nat n ++ " characters");
      m' ← lift (Py.len original_desc);
      m'' ← lift (Py.len original_desc);
      print ("   • Change: " ++ change_sign n m'
               ++ PyStr.of_Z (Z.of_nat n - Z.of_nat m'') ++ " characters")
  | EnhancementFailure error _ _ =>
      print ("
❌ Enhancement failed: " ++ error)
  end.

(** The variables [load_from_env] requires, in its order. *)
Definition required_vars : list string :=
  ["JIRA_SERVER_URL"; "JIRA_SERVICE_ACCOUNT_EMAIL"; "JIRA_SERVICE_ACCOUNT_TOKEN"].

Definition load_from_env : outcome JiraIssueEnhancer :=
  let missing :=
    List.filter (fun var => negb (given (os_getenv E var))) required_vars in
  match missing with
  | [] => Ok JiraIssueEnhancer_init
  | _ =>
      raise ValueError
        ("Missing environment variables: " ++ PyStr.join ", " missing)
  end.

Definition enhance_specific_issue (ticket_key : string) : M bool :=
  enhancer ← lift load_from_env;
  '(done, message) ← enhance_and_update_issue E enhancer (PStr ticket_key) "";
  _ ← print message;
  mret done.

Definition preview_specific_issue (ticket_key : string) : M unit :=
  enhancer ← lift load_from_env;
  preview_enhancement enhancer (PStr ticket_key) "".

(** The [for] loop of [batch_enhance_project], with its [results] list. *)
Fixpoint batch_loop (enhancer : JiraIssueEnhancer) (issues : list pyval)
    (results : list BatchResult) : M (list BatchResult) :=
  match issues with
  | [] => mret results
  | issue :: rest =>
      issue_key ← lift (Py.getitem issue "key");
      _ ← print ("Processing " ++ Py.str (unicode_data E) issue_key ++ "...");
      '(done, message) ← enhance_and_update_issue E enhancer issue "";
      batch_loop enhancer rest (results ++ [mk_BatchResult issue_key done message])
  end.

Definition batch_enhance_project (project_key : string) (max_issues : Z)
  : M (list BatchResult) :=
  enhancer ← lift load_from_env;
  issues ← search_project_issues enhancer project_key max_issues;
  items ← lift (Py.iter issues);
  batch_loop enhancer items [].

End MoreProgram.

(** ** The rest of [jira_connect_app.py] *)

Section MoreHandlers.

Variable E : env.

Definition serve_health : M response :=
  tenants ← get_tenants;
  let count := Z.of_nat (size tenants) in
  t ← now E;
  mret (mk_response
          (PDict [("status", PStr "healthy");
                  ("installed_tenants", PInt count);
                  ("timestamp", PInt t)])
          200).

Definition serve_demo : M response :=
  try_except
    (let server_url := os_getenv E "JIRA_SERVER_URL" in
     enhancer ← lift (_create_enhancer_for_tenant E server_url);
     let ticket_key := "DIGI-894" in
     result ← enhance_issue_description E enhancer (PStr ticket_key) "";
     match result with
     | EnhancementSuccess enhanced_description _ _ _ =>
         mret (mk_response
                 (PDict [("success", PBool true);
                         ("ticket_key", PStr ticket_key);
                         ("enhanced_description", PStr enhanced_description)])
                 200)
     | EnhancementFailure error _ _ => mret (failure_response error 500)
     end)
    (fun e => mret (failure_response (exc_str e) 500)).

End MoreHandlers.

(** The header list of a response, with the operations of the web
    framework's header table that the code uses: names compare without
    regard to case; [remove] drops every entry of a name; [set] replaces
    the first entry of the name, drops its other entries, and appends when
    there is none. *)
Module Headers.

Definition lower_char (c : ascii) : ascii :=
  if PyStr.is_upper_char c then ascii_of_nat (nat_of_ascii c + 32) else c.

Definition lower (s : string) : string := PyStr.string_map lower_char s.

Definition same_name (a b : string) : bool := String.eqb (lower a) (lower b).

(** The entries of a name, in their order. *)
Definition entries (h : list (string * string)) (name : string)
  : list (string * string) :=
  List.filter (fun kv => same_name (fst kv) name) h.

Definition remove (name : string) (h : list (string * string))
  : list (string * string) :=
  List.filter (fun kv => negb (same_name (fst kv) name)) h.

(** [headers.pop(name, None)], the value dropped. *)
Definition pop (name : string) (h : list (string * string))
  : list (string * string) :=
  remove name h.

(** [headers[name] = value]. *)
Fixpoint set (name value : string) (h : list (string * string))
  : list (string * string) :=
  match h with
  | [] => [(name, value)]
  | (k, v) :: h' =>
      if same_name k name then (name, value) :: remove name h'
      else (k, v) :: set name value h'
  end.

End Headers.

(** A response with its headers. *)
Record flask_response : Type := mk_flask_response {
  content : response;
  headers : list (string * string)
}.

Definition content_security_policy : string :=
  "default-src * 'unsafe-inline' 'unsafe-eval' data: blob:; "
  ++ "frame-ancestors *; "
  ++ "script-src * 'unsafe-inline' 'unsafe-eval'; "
  ++ "style-src * 'unsafe-inline'; "
  ++ "img-src * data: blob:; "
  ++ "connect-src *;".

Definition after_request (r : flask_response) : flask_response :=
  let h := headers r in
  let h := Headers.pop "X-Frame-Options" h in
  let h := Headers.set "Access-Control-Allow-Origin" "*" h in
  let h := Headers.set "Access-Control-Allow-Methods"
             "GET, POST, PUT, DELETE, OPTIONS" h in
  let h := Headers.set "Access-Control-Allow-Headers" "*" h in
  let h := Headers.set "Access-Control-Expose-Headers" "*" h in
  let h := Headers.set "Access-Control-Allow-Credentials" "true" h in
  let h := Headers.set "Content-Security-Policy" content_security_policy h in
  let h := Headers.pop "X-Content-Type-Options" h in
  let h := Headers.pop "Strict-Transport-Security" h in
  let h := Headers.pop "Referrer-Policy" h in
  mk_flask_response (content r) h.

(** [handle_options]; [made] is what [make_response('', 200)] gives. *)
Definition handle_options (made : flask_response) : flask_response :=
  let h := headers made in
  let h := Headers.set "Access-Control-Allow-Origin" "*" h in
  let h := Headers.set "Access-Control-Allow-Methods"
             "GET, POST, PUT, DELETE, OPTIONS" h in
  let h := Headers.set "Access-Control-Allow-Headers" "*" h in
  let h := Headers.set "Access-Control-Max-Age" "3600" h in
  mk_flask_response (content made) h.

(** The names [after_request] removes, and the headers it sets. *)
Definition removed_headers : list string :=
  ["X-Frame-Options"; "X-Content-Type-Options"; "Strict-Transport-Security";
   "Referrer-Policy"].

Definition fixed_headers : list (string * string) :=
  [("Access-Control-Allow-Origin", "*");
   ("Access-Control-Allow-Methods", "GET, POST, PUT, DELETE, OPTIONS");
   ("Access-Control-Allow-Headers", "*");
   ("Access-Control-Expose-Headers", "*");
   ("Access-Control-Allow-Credentials", "true");
   ("Content-Security-Policy", content_security_policy)].

(** ** More sample worlds *)

(** A world like [world], but with no variable set in the environment. *)
Definition unconfigured : env :=
  mk_env
    (fun _ _ => Raise issue_not_found)
    (fun _ _ _ => Ok tt)
    (fun _ _ _ _ => Ok server_error)
    (fun l => Z.of_nat (length l))
    (fun _ _ => raise InvalidTokenError "Not enough segments")
    (fun _ _ _ _ => raise InvalidTokenError "Not enough segments")
    (fun _ => None)
    sample_unicode
    (fun _ => Written).

(** A world like [token_world PNone], but where the tenants file cannot
    be opened for writing. *)
Definition read_only_world : env :=
  mk_env
    (fun _ _ => Raise issue_not_found)
    (fun _ _ _ => Ok tt)
    (fun _ _ _ _ => Ok server_error)
    (fun l => Z.of_nat (length l))
    (fun _ _ => Ok PNone)
    (fun _ _ _ _ => Ok PNone)
    (fun _ => Some "set")
    sample_unicode
    (fun _ =>
       Write_failed
         (mk_exception OtherException "[Errno 13] Permission denied: 'tenants.json'")
         As_before).

(** A search that finds the sample ticket. *)
Definition sample_search (l : list event) (jql : string) (limit : Z)
  : outcome pyval :=
  Ok (PDict [("issues", PList [sample_issue])]).

(** The install callback of the same tenant again, with a new secret. *)
Definition reinstall_request : request :=
  mk_request
    (Ok (PDict [("clientKey", PStr "tenant-1");
                ("sharedSecret", PStr "n3w");
                ("baseUrl", PStr "https://one.atlassian.net")]))
    None (fun _ => None).

(** A ticket that has neither a title nor a description. *)
Definition bare_ticket : TicketSnapshot :=
  mk_TicketSnapshot "DIGI-7" None None (Some "Low") None None None [] [].

(** * Properties *)

(** ** Facts about the string functions *)

Section StringFacts.


Lemma startswith_app (p s : string) :
  PyStr.startswith p s = true -> exists r, s = (p ++ r)%string.
Proof.
  revert s. induction p as [|a p IH]; intros s H.
  - exists s. reflexivity.
  - destruct s as [|b s]; [discriminate|]. simpl in H.
    destruct (Ascii.eqb_spec a b) as [->|]; [|discriminate].
    destruct (IH _ H) as [r ->]. exists r. reflexivity.
Qed.






(** The pieces [chars] cuts are well formed: the first is a byte with
    continuation bytes, every later one is a whole character. *)
Lemma is_char_piece (ch : string) : PyStr.is_char ch = true -> PyStr.is_piece ch = true.
Proof.
  destruct ch as [|c r]; [discriminate|]. cbn. intros H.
  apply andb_true_iff in H as [_ H]. exact H.
Qed.

Lemma is_char_continues (ch : string) :
  PyStr.is_char ch = true -> PyStr.continues ch = false.
Proof.
  destruct ch as [|c r]; [discriminate|]. cbn. intros H.
  apply andb_true_iff in H as [H _]. apply negb_true_iff in H. exact H.
Qed.

Lemma chars_pieces (s : string) :
  match PyStr.chars s with
  | [] => True
  | h :: t => PyStr.is_piece h = true /\ Forall (fun ch => PyStr.is_char ch = true) t
  end.
Proof.
  induction s as [|c s IH]; [exact I|].
  cbn [PyStr.chars]. destruct (PyStr.chars s) as [|h t].
  - split; [reflexivity|constructor].
  - destruct IH as [Hh Ht]. destruct (PyStr.continues h) eqn:Hc.
    + split; [|exact Ht]. destruct h as [|c' r]; [discriminate|].
      cbn in *. rewrite Hc, Hh. reflexivity.
    + split; [reflexivity|]. constructor; [|exact Ht].
      destruct h as [|c' r]; [discriminate|]. cbn in *. rewrite Hc, Hh. reflexivity.
Qed.

Lemma chars_String_piece (c : ascii) (r rest : string) (t : list string) :
  PyStr.all_continuation r = true ->
  PyStr.chars rest = t ->
  Forall (fun ch => PyStr.is_char ch = true) t ->
  PyStr.chars (String c (r ++ rest)) = String c r :: t.
Proof.
  intros Hr Hrest Ht. revert c. induction r as [|c' r IH]; intros c.
  - change (String c (EmptyString ++ rest)) with (String c rest).
    cbn [PyStr.chars]. rewrite Hrest.
    destruct Ht as [|h t Hh Ht]; [reflexivity|].
    rewrite (is_char_continues h Hh). reflexivity.
  - cbn in Hr. apply andb_true_iff in Hr as [Hc' Hr].
    change (PyStr.chars (String c (String c' r ++ rest)))
      with (match PyStr.chars (String c' (r ++ rest)) with
            | h :: t' =>
                if PyStr.continues h then String c h :: t'
                else String c EmptyString :: h :: t'
            | [] => [String c EmptyString]
            end).
    rewrite (IH Hr c'). cbn [PyStr.continues]. rewrite Hc'. reflexivity.
Qed.

Lemma chars_cat_chars (t : list string) :
  Forall (fun ch => PyStr.is_char ch = true) t -> PyStr.chars (PyStr.cat t) = t.
Proof.
  induction 1 as [|h t Hh Ht IH]; [reflexivity|].
  destruct h as [|c r]; [discriminate|].
  cbn in Hh. apply andb_true_iff in Hh as [_ Hr].
  apply (chars_String_piece c r (PyStr.cat t) t Hr IH Ht).
Qed.

Lemma chars_cat_pieces (l : list string) :
  match l with
  | [] => True
  | h :: t => PyStr.is_piece h = true /\ Forall (fun ch => PyStr.is_char ch = true) t
  end ->
  PyStr.chars (PyStr.cat l) = l.
Proof.
  destruct l as [|h t]; [reflexivity|]. intros [Hh Ht].
  destruct h as [|c r]; [discriminate|].
  apply (chars_String_piece c r (PyStr.cat t) t Hh (chars_cat_chars t Ht) Ht).
Qed.

(** Trimming keeps a well-formed list of pieces well formed. *)
Lemma lstrip_chars_pieces (l : list string) :
  match l with
  | [] => True
  | h :: t => PyStr.is_piece h = true /\ Forall (fun ch => PyStr.is_char ch = true) t
  end ->
  match PyStr.lstrip_chars l with
  | [] => True
  | h :: t => PyStr.is_piece h = true /\ Forall (fun ch => PyStr.is_char ch = true) t
  end.
Proof.
  destruct l as [|h t]; [intros _; exact I|]. intros [Hh Ht].
  cbn [PyStr.lstrip_chars]. destruct (PyStr.is_space h); [|split; assumption].
  clear Hh h. induction Ht as [|h t Hh Ht IH]; [exact I|].
  cbn [PyStr.lstrip_chars]. destruct (PyStr.is_space h); [exact IH|].
  split; [apply is_char_piece, Hh|exact Ht].
Qed.

Lemma rstrip_chars_all (P : string -> Prop) (l : list string) :
  Forall P l -> Forall P (PyStr.rstrip_chars l).
Proof.
  induction 1 as [|h t Hh Ht IH]; [constructor|].
  cbn [PyStr.rstrip_chars]. destruct (PyStr.rstrip_chars t) as [|h' t'].
  - destruct (PyStr.is_space h); [constructor|]. constructor; [exact Hh|constructor].
  - constructor; assumption.
Qed.

Lemma rstrip_chars_pieces (l : list string) :
  match l with
  | [] => True
  | h :: t => PyStr.is_piece h = true /\ Forall (fun ch => PyStr.is_char ch = true) t
  end ->
  match PyStr.rstrip_chars l with
  | [] => True
  | h :: t => PyStr.is_piece h = true /\ Forall (fun ch => PyStr.is_char ch = true) t
  end.
Proof.
  destruct l as [|h t]; [intros _; exact I|]. intros [Hh Ht].
  cbn [PyStr.rstrip_chars].
  pose proof (rstrip_chars_all _ t Ht) as Hr.
  destruct (PyStr.rstrip_chars t) as [|h' t'].
  - destruct (PyStr.is_space h); [exact I|]. split; [exact Hh|constructor].
  - split; [exact Hh|exact Hr].
Qed.

(** Trimming is idempotent. *)
Lemma rstrip_chars_idempotent (l : list string) :
  PyStr.rstrip_chars (PyStr.rstrip_chars l) = PyStr.rstrip_chars l.
Proof.
  induction l as [|c l IH]; [reflexivity|].
  cbn [PyStr.rstrip_chars]. destruct (PyStr.rstrip_chars l) as [|c' r] eqn:Hr.
  - destruct (PyStr.is_space c) eqn:Hc; [reflexivity|].
    cbn [PyStr.rstrip_chars]. rewrite Hc. reflexivity.
  - change (PyStr.rstrip_chars (c :: c' :: r))
      with (match PyStr.rstrip_chars (c' :: r) with
            | [] => if PyStr.is_space c then [] else [c]
            | r' => c :: r'
            end).
    rewrite IH. reflexivity.
Qed.

Lemma rstrip_chars_keeps_head (c : string) (l : list string) :
  PyStr.is_space c = false ->
  exists r, PyStr.rstrip_chars (c :: l) = c :: r.
Proof.
  intros Hc. cbn [PyStr.rstrip_chars]. destruct (PyStr.rstrip_chars l) as [|c' r].
  - rewrite Hc. eexists. reflexivity.
  - eexists. reflexivity.
Qed.

Lemma lstrip_chars_head (l : list string) :
  PyStr.lstrip_chars l = [] \/
  exists c r, PyStr.lstrip_chars l = c :: r /\ PyStr.is_space c = false.
Proof.
  induction l as [|c l IH]; [left; reflexivity|].
  cbn [PyStr.lstrip_chars]. destruct (PyStr.is_space c) eqn:Hc; [exact IH|].
  right. exists c, l. split; [reflexivity|exact Hc].
Qed.

Lemma strip_chars_idempotent (l : list string) :
  PyStr.rstrip_chars (PyStr.lstrip_chars (PyStr.rstrip_chars (PyStr.lstrip_chars l)))
    = PyStr.rstrip_chars (PyStr.lstrip_chars l).
Proof.
  destruct (lstrip_chars_head l) as [->|(c & r & -> & Hc)]; [reflexivity|].
  destruct (rstrip_chars_keeps_head c r Hc) as [r' Hr]. rewrite Hr.
  cbn [PyStr.lstrip_chars]. rewrite Hc, <- Hr. apply rstrip_chars_idempotent.
Qed.

Lemma strip_idempotent (s : string) : PyStr.strip (PyStr.strip s) = PyStr.strip s.
Proof.
  unfold PyStr.strip at 1. unfold PyStr.strip at 1.
  rewrite chars_cat_pieces.
  - rewrite strip_chars_idempotent. reflexivity.
  - apply rstrip_chars_pieces, lstrip_chars_pieces, chars_pieces.
Qed.




End StringFacts.

(** ** Response extraction *)

Section Extraction.

Variable U : PyStr.unicode.

Lemma extract_loop_before_marker (lines acc : list string) :
  Forall (fun line => is_marker_line U line = false) lines ->
  extract_loop U lines false acc = acc.
Proof.
  induction 1 as [|line lines Hline _ IH]; simpl.
  - reflexivity.
  - rewrite Hline. exact IH.
Qed.

Lemma extract_loop_skips_prefix (before lines acc : list string) :
  Forall (fun line => is_marker_line U line = false) before ->
  extract_loop U (before ++ lines) false acc = extract_loop U lines false acc.
Proof.
  induction 1 as [|line before Hline _ IH]; simpl.
  - reflexivity.
  - rewrite Hline. exact IH.
Qed.

Lemma extract_loop_body (body rest acc : list string) :
  Forall (fun line => is_marker_line U line = false /\ is_section_header U line = false)
    body ->
  extract_loop U (body ++ rest) true acc = extract_loop U rest true (acc ++ body).
Proof.
  intros H. revert acc.
  induction H as [|line body [Hm Hh] _ IH]; intros acc; simpl.
  - rewrite app_nil_r. reflexivity.
  - rewrite Hm, Hh, IH, <- app_assoc. reflexivity.
Qed.




(** C8.  When no line of the text has the marker in its upper-cased form,
    the method returns normally, and what it returns is the empty string. *)
Theorem extraction_without_marker (llama_output : string) :
  Forall (fun line => PyStr.contains marker (PyStr.upper U line) = false)
    (PyStr.split "010" llama_output) ->
  _extract_description_from_output U (PStr llama_output) = Ok "".
Proof.
  intros H. simpl. unfold extract_description.
  rewrite extract_loop_before_marker by exact H. reflexivity.
Qed.


(** C3, amended.  While accumulation is enabled, a line without the marker
    is appended verbatim unless it is a section header (its trimmed form
    upper-case and shorter than 50 characters, a colon in the line); a
    section header is dropped and ends the scan: in a text made of lines
    without the marker, a marker line, body lines that are neither, a
    section header and anything after it, the accumulated lines are what
    the marker line gives and the body.  The spec's example yields
    [Foo]. *)
Theorem accumulation_until_section_header :
  (forall line : string,
      is_section_header U line =
        PyStr.isupper U (PyStr.strip line) && PyStr.contains ":" line
        && (PyStr.len (PyStr.strip line) <? 50)%nat) /\
  (forall (line : string) (rest acc : list string),
      is_marker_line U line = false ->
      extract_loop U (line :: rest) true acc =
        if is_section_header U line then acc
        else extract_loop U rest true (acc ++ [line])) /\
  (forall (before : list string) (m : string) (body : list string)
          (header : string) (rest : list string),
      Forall (fun line => is_marker_line U line = false) before ->
      is_marker_line U m = true ->
      Forall (fun line => is_marker_line U line = false
                          /\ is_section_header U line = false)
        body ->
      is_marker_line U header = false ->
      is_section_header U header = true ->
      extract_loop U (before ++ m :: body ++ header :: rest) false [] =
        (after_header_lines m ++ body)%list) /\
  _extract_description_from_output U (PStr "ENHANCED DESCRIPTION:
Foo
NEXT SECTION:
Bar") = Ok "Foo".
Proof.
  split; [reflexivity|]. split; [|split].
  - intros line rest acc Hm. simpl. rewrite Hm. reflexivity.
  - intros before m body header rest Hbefore Hm Hbody Hh1 Hh2.
    rewrite extract_loop_skips_prefix by exact Hbefore.
    cbn [extract_loop]. rewrite Hm. cbn [app].
    rewrite extract_loop_body by exact Hbody.
    cbn [extract_loop]. rewrite Hh1, Hh2. reflexivity.
  - vm_compute. reflexivity.
Qed.

(** X6.  What the extraction returns is trimmed: trimming it again changes
    nothing.  An already clean answer comes back as it is: the marker
    line, then [Foo] and [Bar], gives [Foo] and [Bar]. *)
Theorem extraction_is_trimmed :
  (forall llama_output : string,
      exists d : string,
        _extract_description_from_output U (PStr llama_output) = Ok d /\
        PyStr.strip d = d) /\
  _extract_description_from_output U (PStr "ENHANCED DESCRIPTION:
Foo
Bar") = Ok "Foo
Bar".
Proof.
  split; [|vm_compute; reflexivity].
  intros llama_output. eexists. split; [reflexivity|].
  unfold extract_description. apply strip_idempotent.
Qed.

End Extraction.

Lemma extraction_without_marker_witness :
  _extract_description_from_output sample_unicode
    (PStr "Here is the improved ticket.
Summary: the login page fails
STEPS: open the page") = Ok "".
Proof.
  apply extraction_without_marker. vm_compute. repeat constructor.
Defined.


(** C3, as stated, fails on a later marker line.  The line
    [enhanced description: bar] is no section header, yet it is not
    appended verbatim; the line [ENHANCED DESCRIPTION:] passes the
    section-header test, yet the scan goes on to the line after it. *)
Lemma later_marker_line_not_verbatim :
  is_section_header sample_unicode "enhanced description: bar" = false /\
  _extract_description_from_output sample_unicode (PStr "ENHANCED DESCRIPTION:
foo
enhanced description: bar") = Ok "foo
bar" /\
  is_section_header sample_unicode "ENHANCED DESCRIPTION:" = true /\
  _extract_description_from_output sample_unicode (PStr "ENHANCED DESCRIPTION:
foo
ENHANCED DESCRIPTION:
bar") = Ok "foo
bar".
Proof. repeat split; vm_compute; reflexivity. Qed.

Lemma accumulation_until_section_header_witness :
  extract_loop sample_unicode
    (["Sure, here it is."] ++ "Enhanced description: Login fails"
       :: ["Steps: open the page"; "observe the error"]
       ++ "NEXT STEPS:" :: ["assign it"])
    false [] =
  (after_header_lines "Enhanced description: Login fails"
     ++ ["Steps: open the page"; "observe the error"])%list.
Proof.
  apply (proj1 (proj2 (proj2 (accumulation_until_section_header sample_unicode))));
    try (vm_compute; reflexivity); repeat constructor.
Defined.

(** The extraction on texts that are not ASCII: a marker written with
    dotless i, whose upper-case form is [I]; a section header in
    Cyrillic capitals; an ideographic space after the marker's colon. *)
Example extraction_beyond_ascii :
  extract_description sample_unicode "Enhanced Descrıptıon: hello" = "hello" /\
  extract_description sample_unicode "ENHANCED DESCRIPTION:
Foo
ИТОГ:
Bar" = "Foo" /\
  extract_description sample_unicode "ENHANCED DESCRIPTION:　 x　
Foo" = "x
Foo".
Proof. repeat split; vm_compute; reflexivity. Qed.

(** ** Prompt construction *)

Section Prompt.

Variable U : PyStr.unicode.

Lemma join_items_strs (l : list string) (i : nat) :
  Py.join_items i (List.map PStr l) = Ok l.
Proof.
  revert i. induction l as [|x l IH]; intros i; simpl.
  - reflexivity.
  - rewrite IH. reflexivity.
Qed.

Lemma join_str_list (sep : string) (l : list string) :
  Py.join sep (PList (List.map PStr l)) = Ok (PyStr.join sep l).
Proof.
  unfold Py.join. simpl. rewrite join_items_strs. reflexivity.
Qed.

Lemma comprehension_names (l : list string) :
  Py.comprehension (fun c => Py.getitem c "name")
    (List.map (fun n => PDict [("name", PStr n)]) l) = Ok (List.map PStr l).
Proof.
  induction l as [|x l IH]; simpl.
  - reflexivity.
  - rewrite IH. reflexivity.
Qed.

(** What [fields.get] finds under each key of a snapshot's [fields]. *)
Lemma snapshot_fields_lookup (how : missing) (t : TicketSnapshot) :
  let d := snapshot_fields how t in
  Py.assoc "summary" d = PStr <$> title t /\
  Py.assoc "description" d = PStr <$> description t /\
  Py.assoc "priority" d = shown how (named "name" (priority_name t)) /\
  Py.assoc "issuetype" d = shown how (named "name" (issue_type_name t)) /\
  Py.assoc "assignee" d = shown how (named "displayName" (assignee_display_name t)) /\
  Py.assoc "status" d = shown how (named "name" (status_name t)) /\
  Py.assoc "labels" d = shown_list how (str_list (labels t)) /\
  Py.assoc "components" d = shown_list how (component_list (components t)).
Proof.
  destruct t as [k [ti|] [de|] [pr|] [it|] [asg|] [st|] [|l ls] [|c cs]];
    destruct how; repeat split; reflexivity.
Qed.

Lemma get_text (d : list (string * pyval)) (k placeholder : string)
    (v : option string) :
  Py.assoc k d = PStr <$> v ->
  Py.get (PDict d) k (PStr placeholder) = Ok (PStr (default placeholder v)).
Proof.
  intros H. unfold Py.get. rewrite H. destruct v; reflexivity.
Qed.

Lemma render_attr_named (d : list (string * pyval)) (how : missing)
    (k attr placeholder : string) (v : option string) :
  Py.assoc k d = shown how (named attr v) ->
  render_attr U (PDict d) k attr placeholder = Ok (default placeholder v).
Proof.
  intros H. unfold render_attr, Py.get. rewrite H.
  destruct v as [n|]; [|destruct how; reflexivity].
  simpl. rewrite String.eqb_refl. reflexivity.
Qed.

Lemma render_labels_snapshot (d : list (string * pyval)) (how : missing)
    (l : list string) :
  Py.assoc "labels" d = shown_list how (str_list l) ->
  render_labels (PDict d) = Ok (render_list l).
Proof.
  intros H. unfold render_labels, Py.get. rewrite H.
  destruct l as [|x l]; [destruct how; reflexivity|].
  change (shown_list how (str_list (x :: l)))
    with (Some (PList (List.map PStr (x :: l)))).
  cbn [mbind outcome_bind Py.truthy List.map].
  apply (join_str_list ", " (x :: l)).
Qed.

Lemma render_components_snapshot (d : list (string * pyval)) (how : missing)
    (l : list string) :
  Py.assoc "components" d = shown_list how (component_list l) ->
  render_components (PDict d) = Ok (render_list l).
Proof.
  intros H. unfold render_components, Py.get. rewrite H.
  destruct l as [|x l]; [destruct how; reflexivity|].
  change (shown_list how (component_list (x :: l)))
    with (Some (PList (List.map (fun n => PDict [("name", PStr n)]) (x :: l)))).
  cbn [mbind outcome_bind Py.truthy List.map Py.iter].
  pose proof (comprehension_names (x :: l)) as Hc. cbn [List.map] in Hc.
  rewrite Hc. cbn [mbind outcome_bind].
  apply (join_str_list ", " (x :: l)).
Qed.

(** C6, as stated, fails: the key or the title may occur more than once in
    the prompt.  A title that quotes the key puts the key on the [Key] line
    and on the [Title] line; the title [Bug] is also a word of the policy. *)
Lemma key_and_title_may_occur_twice :
  (exists p,
      _build_prompt sample_unicode LlamaJiraEnhancer_default
        (snapshot_issue Absent
           (mk_TicketSnapshot "DIGI-894" (Some "Cannot reopen DIGI-894") None None
              None None None [] [])) "" = Ok p /\
      PyStr.occurrences "DIGI-894" p = 2%nat) /\
  (exists p,
      _build_prompt sample_unicode LlamaJiraEnhancer_default
        (snapshot_issue Absent
           (mk_TicketSnapshot "DIGI-7" (Some "Bug") None None None None None [] []))
        "" = Ok p /\
      PyStr.occurrences "Bug" p = 2%nat).
Proof.
  split; eexists; (split; [vm_compute; reflexivity | vm_compute; reflexivity]).
Qed.

(** C6, amended.  For every snapshot the prompt is the policy, the ticket
    block, the caller's instructions and the task instruction.  The ticket
    block has one labelled line per field: the key on the [Key] line, the
    title on the [Title] line, each field the ticket has with its value
    (labels and components joined by a comma and a space), and each
    missing field with its placeholder: [No title], [No description],
    [Not set] for priority and issue type, [Unassigned], [Unknown] for the
    status, [None] for an empty list, whether the tracker leaves the
    field out, shows it as [null], or shows the list as [[]]. *)
Theorem build_prompt_layout (self : LlamaJiraEnhancer) (how : missing)
    (t : TicketSnapshot) (custom_instructions : string) :
  _build_prompt U self (snapshot_issue how t) custom_instructions =
    Ok (prompt_layout (policy_rules self) t custom_instructions).
Proof.
  destruct (snapshot_fields_lookup how t)
    as (Hsum & Hdesc & Hprio & Htype & Hasg & Hst & Hlab & Hcomp).
  unfold _build_prompt, snapshot_issue, issue_info.
  cbn [Py.getitem Py.assoc String.eqb Ascii.eqb Bool.eqb mbind outcome_bind].
  rewrite (get_text _ _ "No title" _ Hsum), (get_text _ _ "No description" _ Hdesc).
  rewrite (render_attr_named _ how _ _ "Not set" _ Hprio).
  rewrite (render_attr_named _ how _ _ "Not set" _ Htype).
  rewrite (render_attr_named _ how _ _ "Unassigned" _ Hasg).
  rewrite (render_attr_named _ how _ _ "Unknown" _ Hst).
  rewrite (render_labels_snapshot _ how _ Hlab).
  rewrite (render_components_snapshot _ how _ Hcomp).
  reflexivity.
Qed.

End Prompt.

(** ** The generation call and the preview *)

(** Unfolds the monad's operations down to matches on outcomes. *)
Ltac run_monad :=
  unfold try_except, now, print, call, lift,
    mbind, mret, M_bind, M_ret, outcome_bind, outcome_ret;
  cbn beta iota.

Section Generation.

Variable E : env.

Lemma ok_false_iff (r : http_response) :
  ok r = false <-> (400 <= status_code r < 600)%Z.
Proof.
  unfold ok, raise_for_status.
  destruct (400 <=? status_code r)%Z eqn:H1; destruct (status_code r <? 500)%Z eqn:H2;
    destruct (500 <=? status_code r)%Z eqn:H3; destruct (status_code r <? 600)%Z eqn:H4;
    simpl; split; intros H; try discriminate; try reflexivity; lia.
Qed.

Lemma raise_for_status_class (r : http_response) (e : exception) :
  raise_for_status r = Raise e -> exc_class_of e = HTTPError.
Proof.
  unfold raise_for_status, raise.
  repeat match goal with |- context [if ?b then _ else _] => destruct b end;
    intros H; inversion H; reflexivity.
Qed.

(** The request [_call_model] sends for a prompt. *)
Lemma call_model_run (self : LlamaJiraEnhancer) (p : string) (s : state) :
  let target := llama_base_url self ++ "/api/generate" in
  let payload :=
    mk_generate_payload (model_name self) p false (mk_generate_options 0.1 0.9 4096) in
  _call_model E self p s =
    (response ← requests_post E (log s) target payload 60;
     _ ← raise_for_status response;
     result ← json response;
     Py.get result "response" (PStr ""),
     with_log s (log s ++ [Requests_post target payload 60])).
Proof.
  intros target payload. unfold _call_model.
  fold target. fold payload. run_monad.
  destruct (requests_post E (log s) target payload 60) as [response|e]; [|reflexivity].
  destruct (raise_for_status response) as [[]|e]; [|reflexivity].
  destruct (json response) as [result|e]; reflexivity.
Qed.

(** What [enhance_ticket] makes of the generation step, once the prompt is
    built. *)
Lemma enhance_ticket_run (self : LlamaJiraEnhancer) (issue : pyval)
    (custom_instructions p : string) (s : state) :
  _build_prompt (unicode_data E) self issue custom_instructions = Ok p ->
  enhance_ticket E self issue custom_instructions s =
    match _call_model E self p s with
    | (Ok response, s1) =>
        match _extract_description_from_output (unicode_data E) response with
        | Ok d =>
            (Ok (EnhancementSuccess d response issue (time_time E (log s1))),
             with_log s1 (log s1 ++ [Time_time]))
        | Raise e =>
            (Ok (EnhancementFailure (exc_str e) issue (time_time E (log s1))),
             with_log s1 (log s1 ++ [Time_time]))
        end
    | (Raise e, s1) =>
        (Ok (EnhancementFailure (exc_str e) issue (time_time E (log s1))),
         with_log s1 (log s1 ++ [Time_time]))
    end.
Proof.
  intros Hp. unfold enhance_ticket. rewrite Hp. run_monad.
  destruct (_call_model E self p s) as [[response|e] s1]; [|reflexivity].
  destruct (_extract_description_from_output (unicode_data E) response) as [d|e]; reflexivity.
Qed.

End Generation.

Section Preview.

Variable E : env.

(** C7, amended.  [_call_model] sends one request, to [/api/generate] of
    the base URL, with a timeout of 60; its body carries the model and the
    prompt, [stream] false, temperature 0.1, top_p 0.9 and num_ctx 4096.
    When the request itself fails the call fails.  When the status of the
    answer is from 400 to 599 (the answer is not [ok], in the HTTP
    library's word) the call raises an [HTTPError], and [enhance_ticket]
    turns it into a result with success false.  With any other status,
    when the body decodes to a dict, the call returns the dict's
    [response] entry, and the empty string when there is none. *)
Theorem generation_call_contract (self : LlamaJiraEnhancer) (p : string) (s : state) :
  exists (target : string) (payload : generate_payload),
    target = llama_base_url self ++ "/api/generate" /\
    model payload = model_name self /\
    prompt payload = p /\
    stream payload = false /\
    temperature (options payload) = 0.1%Q /\
    top_p (options payload) = 0.9%Q /\
    num_ctx (options payload) = 4096%Z /\
    log (snd (_call_model E self p s)) = (log s ++ [Requests_post target payload 60])%list /\
    (forall e : exception,
        requests_post E (log s) target payload 60 = Raise e ->
        fst (_call_model E self p s) = Raise e) /\
    (forall r : http_response,
        requests_post E (log s) target payload 60 = Ok r ->
        (ok r = false <-> (400 <= status_code r < 600)%Z) /\
        (ok r = false ->
         exists e : exception,
           exc_class_of e = HTTPError /\
           fst (_call_model E self p s) = Raise e /\
           forall (issue : pyval) (custom_instructions : string),
             _build_prompt (unicode_data E) self issue custom_instructions = Ok p ->
             exists t : Z,
               fst (enhance_ticket E self issue custom_instructions s) =
                 Ok (EnhancementFailure (exc_str e) issue t)) /\
        (ok r = true ->
         forall d : list (string * pyval),
           json r = Ok (PDict d) ->
           (forall v : pyval,
               Py.assoc "response" d = Some v ->
               fst (_call_model E self p s) = Ok v) /\
           (Py.assoc "response" d = None ->
            fst (_call_model E self p s) = Ok (PStr "")))).
Proof.
  pose proof (call_model_run E self p s) as Hrun. cbv zeta in Hrun.
  exists (llama_base_url self ++ "/api/generate"),
    (mk_generate_payload (model_name self) p false (mk_generate_options 0.1 0.9 4096)).
  repeat (split; [reflexivity|]).
  split; [rewrite Hrun; reflexivity|].
  split.
  - intros e He. rewrite Hrun, He. reflexivity.
  - intros r Hr. split; [apply ok_false_iff|]. split.
    + intros Hok. unfold ok in Hok.
      destruct (raise_for_status r) as [[]|e] eqn:Hst; [discriminate|].
      exists e. split; [exact (raise_for_status_class r e Hst)|].
      assert (Hcall : _call_model E self p s =
                        (Raise e, with_log s (log s ++ [Requests_post
                           (llama_base_url self ++ "/api/generate")
                           (mk_generate_payload (model_name self) p false
                              (mk_generate_options 0.1 0.9 4096)) 60])%list)).
      { rewrite Hrun, Hr. cbn [mbind outcome_bind]. rewrite Hst. reflexivity. }
      split; [rewrite Hcall; reflexivity|].
      intros issue ci Hp. eexists.
      rewrite (enhance_ticket_run E self issue ci p s Hp), Hcall. reflexivity.
    + intros Hok d Hd. unfold ok in Hok.
      destruct (raise_for_status r) as [[]|e] eqn:Hst; [|discriminate].
      split.
      * intros v Hv. rewrite Hrun, Hr. cbn [mbind outcome_bind fst].
        rewrite Hst, Hd. cbn [mbind outcome_bind Py.get]. rewrite Hv. reflexivity.
      * intros Hv. rewrite Hrun, Hr. cbn [mbind outcome_bind fst].
        rewrite Hst, Hd. cbn [mbind outcome_bind Py.get]. rewrite Hv. reflexivity.
Qed.

(** The preview on a ticket key starts with the tracker lookup. *)
Lemma preview_on_key (self : JiraIssueEnhancer) (key : string)
    (custom_instructions : string) (s : state) :
  enhance_issue_description E self (PStr key) custom_instructions s =
    match jira_issue E (log s) key with
    | Ok issue =>
        enhance_ticket E (llama_enhancer self) issue custom_instructions
          (with_log s (log s ++ [Jira_issue key]))
    | Raise e => (Raise e, with_log s (log s ++ [Jira_issue key]))
    end.
Proof.
  unfold enhance_issue_description, get_issue. run_monad.
  destruct (jira_issue E (log s) key); reflexivity.
Qed.

Lemma preview_on_issue_object (self : JiraIssueEnhancer) (issue : pyval)
    (custom_instructions p : string) (s : state) :
  _build_prompt (unicode_data E) (llama_enhancer self) issue custom_instructions = Ok p ->
  enhance_issue_description E self issue custom_instructions s =
    enhance_ticket E (llama_enhancer self) issue custom_instructions s.
Proof.
  intros Hp. destruct issue; try reflexivity. discriminate Hp.
Qed.

(** C1, amended.  On an issue object whose prompt can be built, the preview
    returns a result and does not raise: a failure of the generation call
    or of the extraction is captured with success false and the
    exception's text as error.  On a ticket key the preview first asks the
    tracker: when the tracker answers, the preview goes on with the
    answer; when the lookup raises, the exception reaches the caller. *)
Theorem preview_captures_generation_failures (self : JiraIssueEnhancer)
    (custom_instructions : string) (s : state) :
  (forall (issue : pyval) (p : string),
      _build_prompt (unicode_data E) (llama_enhancer self) issue custom_instructions = Ok p ->
      exists (r : EnhancementResult) (s' : state),
        enhance_issue_description E self issue custom_instructions s = (Ok r, s') /\
        (forall (e : exception) (s1 : state),
            _call_model E (llama_enhancer self) p s = (Raise e, s1) ->
            r = EnhancementFailure (exc_str e) issue (time_time E (log s1))) /\
        (forall (v : pyval) (s1 : state) (e : exception),
            _call_model E (llama_enhancer self) p s = (Ok v, s1) ->
            _extract_description_from_output (unicode_data E) v = Raise e ->
            r = EnhancementFailure (exc_str e) issue (time_time E (log s1))) /\
        (success r = true ->
         exists (v : pyval) (s1 : state) (d : string),
           _call_model E (llama_enhancer self) p s = (Ok v, s1) /\
           _extract_description_from_output (unicode_data E) v = Ok d /\
           r = EnhancementSuccess d v issue (time_time E (log s1)))) /\
  (forall (key : string) (issue : pyval),
      jira_issue E (log s) key = Ok issue ->
      enhance_issue_description E self (PStr key) custom_instructions s =
        enhance_ticket E (llama_enhancer self) issue custom_instructions
          (with_log s (log s ++ [Jira_issue key]))) /\
  (forall (key : string) (e : exception),
      jira_issue E (log s) key = Raise e ->
      enhance_issue_description E self (PStr key) custom_instructions s =
        (Raise e, with_log s (log s ++ [Jira_issue key]))).
Proof.
  split; [|split].
  - intros issue p Hp.
    rewrite (preview_on_issue_object self issue custom_instructions p s Hp).
    rewrite (enhance_ticket_run E _ issue custom_instructions p s Hp).
    destruct (_call_model E (llama_enhancer self) p s) as [[v|e] s1].
    + destruct (_extract_description_from_output (unicode_data E) v) as [d|e] eqn:Hd.
      * eexists _, _. split; [reflexivity|]. repeat split.
        -- intros e s2 H. discriminate H.
        -- intros v' s2 e H He. inversion H; subst. congruence.
        -- intros _. exists v, s1, d. repeat split. exact Hd.
      * eexists _, _. split; [reflexivity|]. repeat split.
        -- intros e' s2 H. discriminate H.
        -- intros v' s2 e' H He. inversion H; subst. congruence.
        -- intros H. discriminate H.
    + eexists _, _. split; [reflexivity|]. repeat split.
      * intros e' s2 H. inversion H; subst. reflexivity.
      * intros v s2 e' H. discriminate H.
      * intros H. discriminate H.
  - intros key issue H. rewrite preview_on_key, H. reflexivity.
  - intros key e H. rewrite preview_on_key, H. reflexivity.
Qed.

End Preview.

(** C7, as stated, fails for a status that is not a success and not an
    error either: an answer with status 300 is not refused, and the text
    of its body becomes the enhanced description of a successful
    result. *)
Lemma redirect_status_is_not_a_failure :
  status_code redirect_answer = 300%Z /\
  fst (_call_model (world (Ok sample_issue) (Ok redirect_answer))
         LlamaJiraEnhancer_default "prompt" fresh) =
    Ok (PStr "ENHANCED DESCRIPTION: Use the new page.") /\
  exists (t : Z) (s' : state),
    enhance_issue_description (world (Ok sample_issue) (Ok redirect_answer))
      JiraIssueEnhancer_init sample_issue "" fresh =
      (Ok (EnhancementSuccess "Use the new page."
             (PStr "ENHANCED DESCRIPTION: Use the new page.") sample_issue t), s').
Proof.
  split; [reflexivity|]. split; [vm_compute; reflexivity|].
  eexists _, _. vm_compute. reflexivity.
Qed.

(** C1, as stated, fails: when the tracker does not know the key, the
    lookup raises, and the preview raises with it. *)
Lemma preview_raises_on_failed_lookup :
  enhance_issue_description
    (world (Raise issue_not_found) (Ok (generated (PDict []))))
    JiraIssueEnhancer_init (PStr "DIGI-404") "" fresh =
  (Raise issue_not_found, with_log fresh [Jira_issue "DIGI-404"]).
Proof. reflexivity. Qed.

Lemma preview_captures_generation_failures_witness :
  exists (r : EnhancementResult) (s' : state),
    enhance_issue_description (world (Ok sample_issue) (Ok server_error))
      JiraIssueEnhancer_init sample_issue "" fresh = (Ok r, s') /\
    success r = false.
Proof.
  destruct (proj1 (preview_captures_generation_failures
                     (world (Ok sample_issue) (Ok server_error))
                     JiraIssueEnhancer_init "" fresh)
              sample_issue
              (prompt_layout _load_default_policy
                 (mk_TicketSnapshot "DIGI-894" (Some "Login page fails")
                    (Some "It fails.") (Some "High") (Some "Bug") None
                    (Some "Open") ["web"; "login"] []) "")
              eq_refl)
    as (r & s' & Hrun & Hcall & _).
  exists r, s'. split; [exact Hrun|].
  rewrite (Hcall _ _ eq_refl). reflexivity.
Defined.

(** ** Apply *)

Section NoUpdate.

Lemma no_update_ret {A : Type} (a : A) : no_update (mret a : M A).
Proof. intros s. reflexivity. Qed.

Lemma no_update_lift {A : Type} (o : outcome A) : no_update (lift o).
Proof. intros s. reflexivity. Qed.

Lemma no_update_call {A : Type} (ev : event) (answer : list event -> outcome A) :
  is_update ev = false -> no_update (call ev answer).
Proof.
  intros Hev s. unfold call, updates. cbn [snd log with_log].
  rewrite List.filter_app. cbn [List.filter]. rewrite Hev. apply app_nil_r.
Qed.

Lemma no_update_bind {A B : Type} (m : M A) (f : A -> M B) :
  no_update m -> (forall a, no_update (f a)) -> no_update (m ≫= f).
Proof.
  intros Hm Hf s. specialize (Hm s). run_monad.
  destruct (m s) as [[a|e] s1]; cbn [snd] in *.
  - rewrite (Hf a s1). exact Hm.
  - exact Hm.
Qed.

Lemma no_update_try {A : Type} (m : M A) (h : exception -> M A) :
  no_update m -> (forall e, no_update (h e)) -> no_update (try_except m h).
Proof.
  intros Hm Hh s. specialize (Hm s). unfold try_except.
  destruct (m s) as [[a|e] s1]; cbn [snd] in *.
  - exact Hm.
  - rewrite (Hh e s1). exact Hm.
Qed.

End NoUpdate.

Create HintDb no_update.

#[local] Hint Resolve no_update_ret no_update_lift no_update_bind no_update_try
  : no_update.
#[local] Hint Extern 1 (no_update (call _ _)) =>
  apply no_update_call; reflexivity : no_update.

Section Apply.

Variable E : env.

Lemma no_update_now : no_update (now E).
Proof. unfold now. auto with no_update. Qed.

Lemma no_update_print (text : string) : no_update (print text).
Proof. unfold print. auto with no_update. Qed.

Lemma no_update_get_issue (self : JiraIssueEnhancer) (key : string) :
  no_update (get_issue E self key).
Proof. unfold get_issue. auto with no_update. Qed.

Lemma no_update_call_model (self : LlamaJiraEnhancer) (p : string) :
  no_update (_call_model E self p).
Proof. unfold _call_model. auto 10 with no_update. Qed.

Lemma no_update_enhance_ticket (self : LlamaJiraEnhancer) (issue : pyval)
    (custom_instructions : string) :
  no_update (enhance_ticket E self issue custom_instructions).
Proof.
  unfold enhance_ticket.
  pose proof no_update_now. pose proof no_update_call_model.
  auto 10 with no_update.
Qed.

Lemma no_update_preview (self : JiraIssueEnhancer) (issue : pyval)
    (custom_instructions : string) :
  no_update (enhance_issue_description E self issue custom_instructions).
Proof.
  unfold enhance_issue_description.
  pose proof no_update_enhance_ticket. pose proof no_update_get_issue.
  apply no_update_bind; [destruct issue|]; auto with no_update.
Qed.

Lemma no_update_key_and_issue (self : JiraIssueEnhancer) (issue : pyval) :
  no_update (key_and_issue E self issue).
Proof.
  pose proof no_update_get_issue.
  unfold key_and_issue. destruct issue; auto with no_update.
Qed.

Lemma no_update_to_string (self : JiraIssueEnhancer) (issue : pyval) :
  no_update (to_string E self issue).
Proof.
  pose proof no_update_get_issue.
  unfold to_string.
  apply no_update_bind; [destruct issue|]; auto with no_update.
Qed.


(** The write-back on an issue object that has a key: one call of
    [issue_update], and the report follows its outcome. *)
Lemma update_issue_description_run (self : JiraIssueEnhancer)
    (issue issue_key : pyval) (enhanced_description : string) (s : state) :
  Py.getitem issue "key" = Ok issue_key ->
  update_issue_description E self issue enhanced_description s =
    (Ok match jira_issue_update E (log s) issue_key
                (PDict [("description", PStr enhanced_description)]) with
        | Ok _ =>
            (true, "✅ Successfully updated description for " ++ Py.str (unicode_data E) issue_key)
        | Raise e =>
            (false, "❌ Failed to update " ++ Py.str (unicode_data E) issue_key ++ ": " ++ exc_str e)
        end,
     with_log s
       (log s ++ [Jira_issue_update issue_key
                    (PDict [("description", PStr enhanced_description)])])).
Proof.
  intros Hkey. unfold update_issue_description, key_and_issue.
  destruct issue; try discriminate Hkey; rewrite Hkey; run_monad;
    destruct (jira_issue_update E (log s) issue_key _) as [[]|e]; reflexivity.
Qed.


End Apply.

(** The spec's example of C5: the generation endpoint answers with status
    500; apply reports the failure and the log has no tracker write. *)
Example apply_on_server_error :
  exists s' : state,
    enhance_and_update_issue (world (Ok sample_issue) (Ok server_error))
      JiraIssueEnhancer_init (PStr "DIGI-894") "" fresh =
    (Ok (false,
         "❌ Enhancement failed for DIGI-894: 500 Server Error: Internal Server Error for url: http://localhost:11434/api/generate"),
     s') /\
    updates (log s') = [].
Proof. eexists. split; vm_compute; reflexivity. Qed.

(** ** The tenant registry and the gate *)

Section RegistryFacts.

Lemma lookup_registry (k : pykey) (r : registry) :
  r !! k = slot_record <$> slots r !! k.
Proof. reflexivity. Qed.

Lemma size_registry (r : registry) : size r = size (slots r).
Proof. reflexivity. Qed.

Lemma lookup_setitem_eq (key : pyval) (k : pykey) (v : TenantRecord) (r : registry) :
  setitem key k v r !! k = Some v.
Proof.
  rewrite lookup_registry. unfold setitem.
  destruct (slots r !! k); cbn [slots]; rewrite lookup_insert_eq; reflexivity.
Qed.

Lemma lookup_setitem_ne (key : pyval) (k k' : pykey) (v : TenantRecord)
    (r : registry) :
  k' <> k -> setitem key k v r !! k' = r !! k'.
Proof.
  intros Hne. rewrite !lookup_registry. unfold setitem.
  destruct (slots r !! k); cbn [slots]; rewrite lookup_insert_ne by congruence;
    reflexivity.
Qed.

Lemma lookup_delitem_eq (k : pykey) (r : registry) : delitem k r !! k = None.
Proof.
  rewrite lookup_registry. unfold delitem. cbn [slots].
  rewrite lookup_delete_eq. reflexivity.
Qed.


Lemma lookup_registry_None (k : pykey) (r : registry) :
  r !! k = None <-> slots r !! k = None.
Proof.
  rewrite lookup_registry. destruct (slots r !! k); cbn; split; congruence.
Qed.

Lemma size_setitem (key : pyval) (k : pykey) (v : TenantRecord) (r : registry) :
  size (setitem key k v r) =
    match r !! k with
    | Some _ => size r
    | None => S (size r)
    end.
Proof.
  rewrite lookup_registry, !size_registry. unfold setitem.
  destruct (slots r !! k) as [sl|] eqn:Hk; cbn [slots fmap option_fmap option_map].
  - apply map_size_insert_Some. eauto.
  - apply map_size_insert_None. exact Hk.
Qed.

Lemma size_delitem (k : pykey) (r : registry) :
  size (delitem k r) =
    match r !! k with
    | Some _ => Nat.pred (size r)
    | None => size r
    end.
Proof.
  rewrite lookup_registry, !size_registry. unfold delitem. cbn [slots].
  rewrite map_size_delete.
  destruct (slots r !! k); reflexivity.
Qed.

Lemma delitem_absent (k : pykey) (r : registry) : r !! k = None -> delitem k r = r.
Proof.
  intros H. apply lookup_registry_None in H. unfold delitem.
  rewrite (delete_id _ _ H). destruct r; reflexivity.
Qed.

End RegistryFacts.

Section Connect.

Variable E : env.

Lemma get_dict (d : list (string * pyval)) (k : string) (dv : pyval) :
  Py.get (PDict d) k dv = Ok (default dv (Py.assoc k d)).
Proof. unfold Py.get. destruct (Py.assoc k d); reflexivity. Qed.

(** The gate on a token that decodes and whose issuer can be a key of the
    registry: the lookup decides between the unknown-tenant answer and the
    signature verification. *)
Lemma jwt_required_run (f : M response) (req : request) (token : string)
    (unverified client_key : pyval) (k : pykey) (s : state) :
  authorization req = Some ("JWT " ++ token) ->
  jwt_decode_unverified E (log s) token = Ok unverified ->
  Py.get unverified "iss" PNone = Ok client_key ->
  hash_key client_key = Ok k ->
  jwt_required E f req s =
    match installed_tenants s !! k with
    | None =>
        (Ok (error_response "App not installed for this tenant" 401),
         with_log s (log s ++ [Jwt_decode_unverified token]))
    | Some tenant =>
        match jwt_decode E (log s ++ [Jwt_decode_unverified token]) token
                (shared_secret tenant) ["HS256"] with
        | Ok payload =>
            try_except f jwt_handler
              (mk_state
                 (log s ++ [Jwt_decode_unverified token;
                            Jwt_decode token (shared_secret tenant) ["HS256"]])
                 (tenants_json s) (installed_tenants s) (Some payload))
        | Raise e =>
            jwt_handler e
              (with_log s
                 (log s ++ [Jwt_decode_unverified token;
                            Jwt_decode token (shared_secret tenant) ["HS256"]]))
        end
    end.
Proof.
  intros Hauth Hdecode Hiss Hhash.
  assert (Hstart : PyStr.startswith "JWT " ("JWT " ++ token) = true) by reflexivity.
  assert (Hdrop : PyStr.drop 4 ("JWT " ++ token) = token) by reflexivity.
  unfold jwt_required, get_tenants, set_jwt_payload.
  rewrite Hauth. cbn [default from_option id]. rewrite Hstart, Hdrop.
  cbn [negb]. run_monad.
  rewrite Hdecode, Hiss, Hhash. cbn [log with_log installed_tenants].
  destruct (installed_tenants s !! k) as [tenant|]; [|reflexivity].
  cbn [tenants_json jwt_payload].
  destruct (jwt_decode E _ token (shared_secret tenant) ["HS256"]) as [payload|e];
    cbn [log with_log tenants_json installed_tenants jwt_payload];
    rewrite <- app_assoc; reflexivity.
Qed.

(** C4.  Take a request whose header carries a token, a token that decodes
    without signature verification, and claims whose issuer can be looked
    up in the registry.  When the registry has no record for the issuer,
    the gate answers 401 with the unknown-tenant error; the only
    interaction is the decoding without verification, so neither the
    verification nor the wrapped handler [f] runs, whatever the token
    library would say of the signature.  When the registry has a record,
    the verification runs next, with that record's [shared_secret] and the
    algorithm HS256. *)
Theorem unknown_issuer_is_rejected (f : M response) (req : request)
    (token : string) (unverified client_key : pyval) (k : pykey) (s : state) :
  authorization req = Some ("JWT " ++ token) ->
  jwt_decode_unverified E (log s) token = Ok unverified ->
  Py.get unverified "iss" PNone = Ok client_key ->
  hash_key client_key = Ok k ->
  (installed_tenants s !! k = None ->
   jwt_required E f req s =
     (Ok (error_response "App not installed for this tenant" 401),
      with_log s (log s ++ [Jwt_decode_unverified token]))) /\
  (forall tenant : TenantRecord,
      installed_tenants s !! k = Some tenant ->
      jwt_required E f req s =
        match jwt_decode E (log s ++ [Jwt_decode_unverified token]) token
                (shared_secret tenant) ["HS256"] with
        | Ok payload =>
            try_except f jwt_handler
              (mk_state
                 (log s ++ [Jwt_decode_unverified token;
                            Jwt_decode token (shared_secret tenant) ["HS256"]])
                 (tenants_json s) (installed_tenants s) (Some payload))
        | Raise e =>
            jwt_handler e
              (with_log s
                 (log s ++ [Jwt_decode_unverified token;
                            Jwt_decode token (shared_secret tenant) ["HS256"]]))
        end).
Proof.
  intros Hauth Hdecode Hiss Hhash.
  rewrite (jwt_required_run f req token unverified client_key k s
             Hauth Hdecode Hiss Hhash).
  split.
  - intros Hnone. rewrite Hnone. reflexivity.
  - intros tenant Hsome. rewrite Hsome. reflexivity.
Qed.

(** What a write of the tenants file leaves in the file. *)
Lemma save_tenants_run (s : state) :
  save_tenants E s =
    match write_tenants E (log s) with
    | Written =>
        (Ok tt,
         mk_state (log s) (Holds (json_roundtrip (installed_tenants s)))
           (installed_tenants s) (jwt_payload s))
    | Write_failed e after =>
        (Raise e,
         mk_state (log s)
           match after with
           | As_before => tenants_json s
           | Cut_short load_error => Damaged load_error
           | Whole => Holds (json_roundtrip (installed_tenants s))
           end
           (installed_tenants s) (jwt_payload s))
    end.
Proof. unfold save_tenants. destruct (write_tenants E (log s)); reflexivity. Qed.

(** The install callback on a JSON object whose [clientKey] can be a key
    of the registry: the record is set, then the file is written, and
    the answer follows the write. *)
Lemma serve_installed_run (req : request) (d : list (string * pyval))
    (k : pykey) (s : state) :
  get_json req = Ok (PDict d) ->
  hash_key (default PNone (Py.assoc "clientKey" d)) = Ok k ->
  serve_installed E req s =
    match write_tenants E (log s ++ [Time_time]) with
    | Written =>
        (Ok no_content,
         mk_state
           (log s ++ [Time_time;
                      Printed ("✅ App installed for tenant: "
                                
                                     ++ Py.str (unicode_data E) (default PNone (Py.assoc "clientKey" d)))])
           (Holds
              (json_roundtrip
                 (setitem (default PNone (Py.assoc "clientKey" d)) k
                    (mk_TenantRecord (default PNone (Py.assoc "sharedSecret" d))
                       (default PNone (Py.assoc "baseUrl" d))
                       (time_time E (log s)))
                    (installed_tenants s))))
           (setitem (default PNone (Py.assoc "clientKey" d)) k
              (mk_TenantRecord (default PNone (Py.assoc "sharedSecret" d))
                 (default PNone (Py.assoc "baseUrl" d))
                 (time_time E (log s)))
              (installed_tenants s))
           (jwt_payload s))
    | Write_failed e after =>
        (Ok (error_response (exc_str e) 400),
         mk_state
           (log s ++ [Time_time; Printed ("❌ Installation failed: " ++ exc_str e)])
           match after with
           | As_before => tenants_json s
           | Cut_short load_error => Damaged load_error
           | Whole =>
               Holds
                 (json_roundtrip
                    (setitem (default PNone (Py.assoc "clientKey" d)) k
                       (mk_TenantRecord (default PNone (Py.assoc "sharedSecret" d))
                          (default PNone (Py.assoc "baseUrl" d))
                          (time_time E (log s)))
                       (installed_tenants s)))
           end
           (setitem (default PNone (Py.assoc "clientKey" d)) k
              (mk_TenantRecord (default PNone (Py.assoc "sharedSecret" d))
                 (default PNone (Py.assoc "baseUrl" d))
                 (time_time E (log s)))
              (installed_tenants s))
           (jwt_payload s))
    end.
Proof.
  intros Hjson Hhash.
  unfold serve_installed, get_tenants, set_tenants.
  rewrite Hjson. run_monad. rewrite !get_dict, Hhash.
  cbn [log with_log installed_tenants tenants_json jwt_payload].
  rewrite save_tenants_run.
  cbn [log with_log installed_tenants tenants_json jwt_payload].
  destruct (write_tenants E (log s ++ [Time_time])) as [|e after];
    cbn [log with_log installed_tenants tenants_json jwt_payload];
    rewrite <- app_assoc; reflexivity.
Qed.

(** Whatever the write does, the registry has the record after the
    install callback. *)
Lemma serve_installed_registry (req : request) (d : list (string * pyval))
    (k : pykey) (s : state) :
  get_json req = Ok (PDict d) ->
  hash_key (default PNone (Py.assoc "clientKey" d)) = Ok k ->
  installed_tenants (snd (serve_installed E req s)) =
    setitem (default PNone (Py.assoc "clientKey" d)) k
      (mk_TenantRecord (default PNone (Py.assoc "sharedSecret" d))
         (default PNone (Py.assoc "baseUrl" d)) (time_time E (log s)))
      (installed_tenants s).
Proof.
  intros Hjson Hhash. rewrite (serve_installed_run req d k s Hjson Hhash).
  destruct (write_tenants E (log s ++ [Time_time])); reflexivity.
Qed.

(** The uninstall callback on a JSON object whose [clientKey] can be a key
    of the registry: the record goes, and nothing else changes but the
    log. *)
Lemma serve_uninstalled_run (req : request) (d : list (string * pyval))
    (k : pykey) (s : state) :
  get_json req = Ok (PDict d) ->
  hash_key (default PNone (Py.assoc "clientKey" d)) = Ok k ->
  exists l : list event,
    serve_uninstalled E req s =
      (Ok no_content,
       mk_state l (tenants_json s) (delitem k (installed_tenants s)) (jwt_payload s)).
Proof.
  intros Hjson Hhash.
  unfold serve_uninstalled, get_tenants, set_tenants.
  rewrite Hjson. run_monad. rewrite !get_dict, Hhash.
  cbn [log with_log installed_tenants tenants_json jwt_payload].
  destruct (installed_tenants s !! k) eqn:Hk.
  - eexists. reflexivity.
  - exists (log s). rewrite (delitem_absent _ _ Hk). destruct s; reflexivity.
Qed.

(** C10, amended.  For a body that is a JSON object whose [clientKey] is
    missing, null, a str, a number or a bool, the install callback does
    not raise; it stores a record under that key (the key [None] when it
    is missing) with the [sharedSecret] and [baseUrl] of the body ([None]
    for a missing one) and the time of the call, every other tenant
    staying as it was, and then writes the registry to the file.  When
    the write succeeds the file holds what [json.load] reads back from
    the dump of the registry, and the answer is 204 with an empty body.
    When the write fails the answer is 400 with the error's text, and the
    record stays in the registry. *)
Theorem install_stores_what_it_is_given (req : request)
    (d : list (string * pyval)) (k : pykey) (s : state) :
  get_json req = Ok (PDict d) ->
  hash_key (default PNone (Py.assoc "clientKey" d)) = Ok k ->
  exists (resp : response) (s' : state),
    serve_installed E req s = (Ok resp, s') /\
    installed_tenants s' !! k =
      Some (mk_TenantRecord (default PNone (Py.assoc "sharedSecret" d))
              (default PNone (Py.assoc "baseUrl" d)) (time_time E (log s))) /\
    (forall k' : pykey, k' <> k ->
       installed_tenants s' !! k' = installed_tenants s !! k') /\
    (Py.assoc "clientKey" d = None -> k = KNone) /\
    match write_tenants E (log s ++ [Time_time]) with
    | Written =>
        resp = no_content /\
        tenants_json s' = Holds (json_roundtrip (installed_tenants s')) /\
        log s' =
          (log s ++ [Time_time;
                     Printed ("✅ App installed for tenant: "
                               
                                    ++ Py.str (unicode_data E) (default PNone (Py.assoc "clientKey" d)))])%list
    | Write_failed e after =>
        resp = error_response (exc_str e) 400 /\
        tenants_json s' =
          match after with
          | As_before => tenants_json s
          | Cut_short load_error => Damaged load_error
          | Whole => Holds (json_roundtrip (installed_tenants s'))
          end /\
        log s' =
          (log s ++ [Time_time;
                     Printed ("❌ Installation failed: " ++ exc_str e)])%list
    end.
Proof.
  intros Hjson Hhash.
  rewrite (serve_installed_run req d k s Hjson Hhash).
  assert (Hnone : Py.assoc "clientKey" d = None -> k = KNone).
  { intros Hnone. rewrite Hnone in Hhash. cbn in Hhash. congruence. }
  destruct (write_tenants E (log s ++ [Time_time])) as [|e after];
    eexists _, _; (split; [reflexivity|]); cbn [installed_tenants tenants_json log];
    (split; [apply lookup_setitem_eq|]);
    (split; [intros k' Hne; apply lookup_setitem_ne, Hne|]);
    (split; [exact Hnone|]); repeat split.
Qed.

(** No run of the uninstall callback touches the tenants file. *)
Lemma uninstall_keeps_file (req : request) (s : state) :
  tenants_json (snd (serve_uninstalled E req s)) = tenants_json s.
Proof.
  unfold serve_uninstalled, get_tenants, set_tenants. run_monad.
  destruct (get_json req) as [data|e]; [|reflexivity].
  destruct (Py.get data "clientKey" PNone) as [client_key|e]; [|reflexivity].
  destruct (hash_key client_key) as [k|e]; [|reflexivity].
  destruct (installed_tenants s !! k); reflexivity.
Qed.

End Connect.

Lemma unknown_issuer_is_rejected_witness :
  jwt_required (token_world (PDict [("iss", PStr "tenant-2")]))
    (mret no_content)
    (mk_request (Raise issue_not_found) (Some "JWT e30.e30.sig") (fun _ => None))
    after_install =
  (Ok (error_response "App not installed for this tenant" 401),
   with_log after_install (log after_install ++ [Jwt_decode_unverified "e30.e30.sig"])).
Proof.
  apply (proj1 (unknown_issuer_is_rejected
                  (token_world (PDict [("iss", PStr "tenant-2")]))
                  (mret no_content)
                  (mk_request (Raise issue_not_found) (Some "JWT e30.e30.sig")
                     (fun _ => None))
                  "e30.e30.sig" (PDict [("iss", PStr "tenant-2")])
                  (PStr "tenant-2") (KStr "tenant-2") after_install
                  eq_refl eq_refl eq_refl eq_refl)).
  vm_compute. reflexivity.
Defined.

(** C10, as stated, fails: a [clientKey] that is a JSON array cannot be a
    key of the registry, and a body that is not a JSON object has no
    fields; the callback answers 400 and stores nothing.  And a body
    that can be stored is still answered 400 when the file cannot be
    written. *)
Lemma install_rejects_some_bodies :
  (exists (msg : string) (s' : state),
      serve_installed (token_world PNone)
        (mk_request
           (Ok (PDict [("clientKey", PList [PStr "tenant-1"]);
                       ("sharedSecret", PStr "s3cret");
                       ("baseUrl", PStr "https://one.atlassian.net")]))
           None (fun _ => None))
        fresh = (Ok (error_response msg 400), s') /\
      installed_tenants s' = ∅ /\ tenants_json s' = No_file) /\
  (exists (msg : string) (s' : state),
      serve_installed (token_world PNone)
        (mk_request (Ok (PList [])) None (fun _ => None)) fresh =
        (Ok (error_response msg 400), s') /\
      installed_tenants s' = ∅ /\ tenants_json s' = No_file) /\
  (exists s' : state,
      serve_installed read_only_world install_request fresh =
        (Ok (error_response "[Errno 13] Permission denied: 'tenants.json'" 400), s') /\
      installed_tenants s' !! KStr "tenant-1" =
        Some (mk_TenantRecord (PStr "s3cret") (PStr "https://one.atlassian.net") 0) /\
      tenants_json s' = No_file).
Proof.
  split; [|split]; [eexists _, _; repeat split ..|].
  eexists. split; [reflexivity|]. split; vm_compute; reflexivity.
Qed.

Lemma install_stores_what_it_is_given_witness :
  exists (resp : response) (s' : state),
    serve_installed (token_world PNone) install_request fresh = (Ok resp, s') /\
    installed_tenants s' !! KStr "tenant-1" =
      Some (mk_TenantRecord (PStr "s3cret") (PStr "https://one.atlassian.net") 0) /\
    (forall k' : pykey, k' <> KStr "tenant-1" ->
       installed_tenants s' !! k' = installed_tenants fresh !! k') /\
    (Py.assoc "clientKey"
       [("clientKey", PStr "tenant-1"); ("sharedSecret", PStr "s3cret");
        ("baseUrl", PStr "https://one.atlassian.net")] = None ->
     KStr "tenant-1" = KNone) /\
    resp = no_content /\
    tenants_json s' = Holds (json_roundtrip (installed_tenants s')) /\
    log s' = [Time_time; Printed "✅ App installed for tenant: tenant-1"].
Proof.
  apply (install_stores_what_it_is_given (token_world PNone) install_request
           [("clientKey", PStr "tenant-1"); ("sharedSecret", PStr "s3cret");
            ("baseUrl", PStr "https://one.atlassian.net")]
           (KStr "tenant-1") fresh eq_refl eq_refl).
Defined.

(** C2: the callback removes the tenant from the registry in memory and
    answers 204, but the tenants file still has the record, and a process
    that starts from the file has the tenant back. *)
Theorem uninstall_does_not_persist :
  fst (serve_uninstalled (token_world PNone) uninstall_request after_install)
    = Ok no_content /\
  installed_tenants after_install !! KStr "tenant-1" =
    Some (mk_TenantRecord (PStr "s3cret") (PStr "https://one.atlassian.net") 0) /\
  installed_tenants after_uninstall !! KStr "tenant-1" = None /\
  tenants_json after_uninstall = tenants_json after_install /\
  (exists on_file : registry,
      tenants_json after_uninstall = Holds on_file /\
      on_file !! KStr "tenant-1" =
        Some (mk_TenantRecord (PStr "s3cret") (PStr "https://one.atlassian.net") 0)) /\
  installed_tenants (snd (JiraConnectApp_init after_uninstall)) !! KStr "tenant-1" =
    Some (mk_TenantRecord (PStr "s3cret") (PStr "https://one.atlassian.net") 0).
Proof.
  split; [vm_compute; reflexivity|]. split; [vm_compute; reflexivity|].
  split; [vm_compute; reflexivity|]. split; [vm_compute; reflexivity|].
  split; [|vm_compute; reflexivity].
  eexists. split; [reflexivity|]. vm_compute. reflexivity.
Qed.

(** ** The enhancement endpoint and further properties *)

Section Endpoint.

Variable E : env.

(** X1.  A request without an issue key is answered 400 before anything
    else happens: the log gains the handler's own print and nothing more, so
    neither the tracker nor the generation endpoint is called. *)
Theorem serve_enhance_requires_issue_key (req : request) (s : state) :
  given (args req "issueKey") = false ->
  serve_enhance E req s =
    (Ok (failure_response "Issue key required" 400),
     with_log s
       (log s ++ [Printed ("serve_enhance - action: "
                             ++ default "preview" (args req "action"))])).
Proof.
  intros Hkey. unfold serve_enhance. run_monad. rewrite Hkey. reflexivity.
Qed.

(** X2.  When the request has an issue key and the credentials of the
    service account are configured, an action other than [preview] and
    [apply] is answered 400 with the error [Invalid action], and neither
    the tracker nor the generation endpoint is called: the log gains the
    handler's own print and nothing more. *)
Theorem serve_enhance_rejects_unknown_action (req : request) (s : state)
    (action : string) (enhancer : JiraIssueEnhancer) :
  args req "action" = Some action ->
  action <> "preview" ->
  action <> "apply" ->
  given (args req "issueKey") = true ->
  _create_enhancer_for_tenant E (os_getenv E "JIRA_SERVER_URL") = Ok enhancer ->
  serve_enhance E req s =
    (Ok (failure_response "Invalid action" 400),
     with_log s (log s ++ [Printed ("serve_enhance - action: " ++ action)])).
Proof.
  intros Haction Hp Ha Hkey Henh. unfold serve_enhance.
  rewrite Haction. cbn [default from_option id]. run_monad.
  rewrite Hkey, Henh. cbn [negb].
  apply String.eqb_neq in Hp, Ha. rewrite Hp, Ha. reflexivity.
Qed.

(** X3.  The endpoint never raises, and an exception of the pipeline
    becomes a 500 answer that carries the exception's text.  Each request
    is answered in one of these ways: 400 when the issue key is missing
    or the action is unknown; 500 with the exception's text, after a
    print of it, when creating the enhancer, the preview or the apply
    raises; 200 with the preview's result, or with the flag and message
    of apply, when they return. *)
Theorem serve_enhance_answers_every_request (req : request) (s : state) :
  exists (resp : response) (s' : state),
    serve_enhance E req s = (Ok resp, s') /\
    (status resp = 200%Z \/ status resp = 400%Z \/ status resp = 500%Z) /\
    let action := default "preview" (args req "action") in
    let issue := PStr (default "" (args req "issueKey")) in
    let custom_instructions := default "" (args req "instructions") in
    let s0 := with_log s (log s ++ [Printed ("serve_enhance - action: " ++ action)]) in
    let failed (e : exception) (s1 : state) :=
      resp = failure_response (exc_str e) 500 /\
      s' = with_log s1 (log s1 ++ [Printed ("serve_enhance - failed: " ++ exc_str e)]) in
    if given (args req "issueKey") then
      match _create_enhancer_for_tenant E (os_getenv E "JIRA_SERVER_URL") with
      | Raise e => failed e s0
      | Ok enhancer =>
          if String.eqb action "preview" then
            match enhance_issue_description E enhancer issue custom_instructions s0 with
            | (Ok r, s1) => resp = mk_response (result_json r) 200 /\ s' = s1
            | (Raise e, s1) => failed e s1
            end
          else if String.eqb action "apply" then
            match enhance_and_update_issue E enhancer issue custom_instructions s0 with
            | (Ok (done, message), s1) =>
                resp = mk_response
                         (PDict [("success", PBool done); ("message", PStr message)])
                         200 /\
                s' = s1
            | (Raise e, s1) => failed e s1
            end
          else resp = failure_response "Invalid action" 400 /\ s' = s0
      end
    else resp = failure_response "Issue key required" 400 /\ s' = s0.
Proof.
  unfold serve_enhance. run_monad. cbn [log with_log].
  destruct (given (args req "issueKey")); cbn [negb];
    [|eexists _, _; split; [reflexivity|]; split; [right; left; reflexivity|];
      split; reflexivity].
  destruct (_create_enhancer_for_tenant E (os_getenv E "JIRA_SERVER_URL"))
    as [enhancer|e];
    [|eexists _, _; split; [reflexivity|]; split; [right; right; reflexivity|];
      split; reflexivity].
  destruct (String.eqb _ "preview").
  - destruct (enhance_issue_description E enhancer _ _ _) as [[r|e] s1];
      eexists _, _; (split; [reflexivity|]);
      (split; [first [left; reflexivity | right; right; reflexivity]|]);
      split; reflexivity.
  - destruct (String.eqb _ "apply").
    + destruct (enhance_and_update_issue E enhancer _ _ _) as [[[done msg]|e] s1];
        eexists _, _; (split; [reflexivity|]);
        (split; [first [left; reflexivity | right; right; reflexivity]|]);
        split; reflexivity.
    + eexists _, _. split; [reflexivity|]. split; [right; left; reflexivity|].
      split; reflexivity.
Qed.

(** X4.  Install, then uninstall with the same client key: the registry has no
    record under the key, and a token that names the key as its issuer is
    answered with the unknown-tenant error. *)
Theorem install_then_uninstall_forgets_tenant (install uninstall gated : request)
    (d d' : list (string * pyval)) (k : pykey) (s : state) (f : M response)
    (token : string) (unverified : pyval) :
  get_json install = Ok (PDict d) ->
  get_json uninstall = Ok (PDict d') ->
  Py.assoc "clientKey" d' = Py.assoc "clientKey" d ->
  hash_key (default PNone (Py.assoc "clientKey" d)) = Ok k ->
  authorization gated = Some ("JWT " ++ token) ->
  (forall l : list event, jwt_decode_unverified E l token = Ok unverified) ->
  Py.get unverified "iss" PNone = Ok (default PNone (Py.assoc "clientKey" d)) ->
  exists s2 : state,
    snd (serve_uninstalled E uninstall (snd (serve_installed E install s))) = s2 /\
    installed_tenants s2 !! k = None /\
    fst (jwt_required E f gated s2) =
      Ok (error_response "App not installed for this tenant" 401).
Proof.
  intros Hin Hun Hsame Hhash Hauth Hdecode Hiss.
  pose proof (serve_installed_registry E install d k s Hin Hhash) as Hreg.
  rewrite <- Hsame in Hhash.
  destruct (serve_uninstalled_run E uninstall d' k (snd (serve_installed E install s))
              Hun Hhash) as [l Hl].
  rewrite Hl. cbn [snd]. eexists. split; [reflexivity|].
  cbn [installed_tenants]. split; [apply lookup_delitem_eq|].
  rewrite Hsame in Hhash.
  rewrite (jwt_required_run E f gated token unverified _ k _ Hauth
             (Hdecode _) Hiss Hhash).
  cbn [installed_tenants]. rewrite lookup_delitem_eq. reflexivity.
Qed.

(** X5.  A ticket whose description is JSON null cannot be printed: [to_string]
    raises on [len(None)], and apply, which prints the ticket first, raises
    with it before the preview and before any tracker write. *)
Theorem to_string_raises_on_null_description (self : JiraIssueEnhancer)
    (key : pyval) (d : list (string * pyval)) (custom_instructions : string)
    (s : state) (type_text : pyval) (priority_text : string) :
  Py.assoc "description" d = Some PNone ->
  Py.get (default (PDict []) (Py.assoc "issuetype" d)) "name" (PStr "Unknown")
    = Ok type_text ->
  render_attr (unicode_data E) (PDict d) "priority" "name" "Not set" = Ok priority_text ->
  to_string E self (PDict [("key", key); ("fields", PDict d)]) s =
    (raise TypeError "object of type 'NoneType' has no len()", s) /\
  enhance_and_update_issue E self (PDict [("key", key); ("fields", PDict d)])
    custom_instructions s =
    (raise TypeError "object of type 'NoneType' has no len()", s).
Proof.
  intros Hdesc Htype Hprio.
  assert (Hto : to_string E self (PDict [("key", key); ("fields", PDict d)]) s =
                  (raise TypeError "object of type 'NoneType' has no len()", s)).
  { unfold to_string. run_monad.
    cbn [Py.getitem Py.assoc String.eqb Ascii.eqb Bool.eqb].
    rewrite !get_dict, Hdesc. cbn [default from_option id].
    rewrite Htype, Hprio. reflexivity. }
  split; [exact Hto|].
  unfold enhance_and_update_issue, key_and_issue. run_monad.
  cbn [Py.getitem Py.assoc String.eqb Ascii.eqb Bool.eqb].
  rewrite Hto. reflexivity.
Qed.

End Endpoint.

Lemma serve_enhance_requires_issue_key_witness :
  serve_enhance (world (Ok sample_issue) (Ok server_error))
    (mk_request (Raise issue_not_found) None (fun _ => None)) fresh =
  (Ok (failure_response "Issue key required" 400),
   with_log fresh [Printed "serve_enhance - action: preview"]).
Proof.
  apply (serve_enhance_requires_issue_key
           (world (Ok sample_issue) (Ok server_error))
           (mk_request (Raise issue_not_found) None (fun _ => None)) fresh).
  reflexivity.
Defined.

Lemma serve_enhance_rejects_unknown_action_witness :
  serve_enhance (world (Ok sample_issue) (Ok server_error))
    (mk_request (Raise issue_not_found) None
       (fun name => if String.eqb name "action" then Some "delete"
                    else Some "DIGI-894"))
    fresh =
  (Ok (failure_response "Invalid action" 400),
   with_log fresh [Printed "serve_enhance - action: delete"]).
Proof.
  apply (serve_enhance_rejects_unknown_action
           (world (Ok sample_issue) (Ok server_error))
           (mk_request (Raise issue_not_found) None
              (fun name => if String.eqb name "action" then Some "delete"
                           else Some "DIGI-894"))
           fresh "delete" JiraIssueEnhancer_init);
    (reflexivity || discriminate).
Defined.

Lemma install_then_uninstall_forgets_tenant_witness :
  exists s2 : state,
    snd (serve_uninstalled (token_world (PDict [("iss", PStr "tenant-1")]))
           uninstall_request
           (snd (serve_installed (token_world (PDict [("iss", PStr "tenant-1")]))
                   install_request fresh))) = s2 /\
    installed_tenants s2 !! KStr "tenant-1" = None /\
    fst (jwt_required (token_world (PDict [("iss", PStr "tenant-1")]))
           (mret no_content)
           (mk_request (Raise issue_not_found) (Some "JWT e30.e30.sig")
              (fun _ => None))
           s2) =
      Ok (error_response "App not installed for this tenant" 401).
Proof.
  apply (install_then_uninstall_forgets_tenant
           (token_world (PDict [("iss", PStr "tenant-1")]))
           install_request uninstall_request
           (mk_request (Raise issue_not_found) (Some "JWT e30.e30.sig")
              (fun _ => None))
           [("clientKey", PStr "tenant-1");
            ("sharedSecret", PStr "s3cret");
            ("baseUrl", PStr "https://one.atlassian.net")]
           [("clientKey", PStr "tenant-1")]
           (KStr "tenant-1") fresh (mret no_content) "e30.e30.sig"
           (PDict [("iss", PStr "tenant-1")]));
    reflexivity.
Defined.

Lemma to_string_raises_on_null_description_witness :
  to_string (world (Ok sample_issue) (Ok server_error)) JiraIssueEnhancer_init
    (PDict [("key", PStr "DIGI-7");
            ("fields", PDict [("summary", PStr "No text yet");
                              ("description", PNone)])])
    fresh =
    (raise TypeError "object of type 'NoneType' has no len()", fresh) /\
  enhance_and_update_issue (world (Ok sample_issue) (Ok server_error))
    JiraIssueEnhancer_init
    (PDict [("key", PStr "DIGI-7");
            ("fields", PDict [("summary", PStr "No text yet");
                              ("description", PNone)])])
    "" fresh =
    (raise TypeError "object of type 'NoneType' has no len()", fresh).
Proof.
  apply (to_string_raises_on_null_description
           (world (Ok sample_issue) (Ok server_error)) JiraIssueEnhancer_init
           (PStr "DIGI-7")
           [("summary", PStr "No text yet"); ("description", PNone)]
           "" fresh (PStr "Unknown") "Not set");
    reflexivity.
Defined.

(** * More of the code *)

(** ** The gate, on every request *)

Section Gate.

Variable E : env.

Lemma startswith_drop (p s : string) :
  PyStr.startswith p s = true -> s = (p ++ PyStr.drop (String.length p) s)%string.
Proof.
  revert s. induction p as [|a p IH]; intros s H.
  - reflexivity.
  - destruct s as [|b s]; [discriminate|]. simpl in H.
    destruct (Ascii.eqb_spec a b) as [->|]; [|discriminate].
    change (String b s = String b (p ++ PyStr.drop (String.length p) s)%string).
    f_equal. exact (IH s H).
Qed.

Lemma jwt_handler_401 (e : exception) (s : state) :
  exists resp : response, jwt_handler e s = (Ok resp, s) /\ status resp = 401%Z.
Proof.
  unfold jwt_handler. destruct (exc_class_of e); eexists; split; reflexivity.
Qed.

(** The gate before the registry lookup: a header without the [JWT ] prefix,
    a token that does not decode, claims without a [get], or an issuer
    that cannot be a key are all answered 401, the same for every wrapped
    handler. *)
Lemma jwt_required_early (req : request) (s : state) :
  (exists (resp : response) (s' : state),
      status resp = 401%Z /\
      installed_tenants s' = installed_tenants s /\
      tenants_json s' = tenants_json s /\
      jwt_payload s' = jwt_payload s /\
      forall f : M response, jwt_required E f req s = (Ok resp, s')) \/
  (exists (token : string) (unverified client_key : pyval) (k : pykey),
      authorization req = Some ("JWT " ++ token) /\
      jwt_decode_unverified E (log s) token = Ok unverified /\
      Py.get unverified "iss" PNone = Ok client_key /\
      hash_key client_key = Ok k).
Proof.
  destruct (PyStr.startswith "JWT " (default "" (authorization req))) eqn:Hstart.
  - assert (Hauth : authorization req
                    = Some ("JWT " ++ PyStr.drop 4 (default "" (authorization req)))).
    { apply startswith_drop in Hstart. cbn [String.length] in Hstart.
      destruct (authorization req) as [h|]; [|discriminate Hstart].
      cbn [default from_option id] in *. congruence. }
    set (token := PyStr.drop 4 (default "" (authorization req))) in *.
    destruct (jwt_decode_unverified E (log s) token) as [unverified|e] eqn:Hdec.
    + destruct (Py.get unverified "iss" PNone) as [client_key|e] eqn:Hiss.
      * destruct (hash_key client_key) as [k|e] eqn:Hhash.
        -- right. exists token, unverified, client_key, k. auto.
        -- left.
           destruct (jwt_handler_401 e (with_log s (log s ++ [Jwt_decode_unverified token])))
             as (resp & Hresp & Hst).
           exists resp, (with_log s (log s ++ [Jwt_decode_unverified token])).
           repeat (split; [first [exact Hst | reflexivity]|]).
           intros f. unfold jwt_required. rewrite Hstart. fold token.
           cbn [negb]. run_monad. rewrite Hdec, Hiss, Hhash. exact Hresp.
      * left.
        destruct (jwt_handler_401 e (with_log s (log s ++ [Jwt_decode_unverified token])))
          as (resp & Hresp & Hst).
        exists resp, (with_log s (log s ++ [Jwt_decode_unverified token])).
        repeat (split; [first [exact Hst | reflexivity]|]).
        intros f. unfold jwt_required. rewrite Hstart. fold token.
        cbn [negb]. run_monad. rewrite Hdec, Hiss. exact Hresp.
    + left.
      destruct (jwt_handler_401 e (with_log s (log s ++ [Jwt_decode_unverified token])))
        as (resp & Hresp & Hst).
      exists resp, (with_log s (log s ++ [Jwt_decode_unverified token])).
      repeat (split; [first [exact Hst | reflexivity]|]).
      intros f. unfold jwt_required. rewrite Hstart. fold token.
      cbn [negb]. run_monad. rewrite Hdec. exact Hresp.
  - left. exists (error_response "Missing or invalid JWT token" 401), s.
    repeat (split; [reflexivity|]).
    intros f. unfold jwt_required. rewrite Hstart. reflexivity.
Qed.

(** X7.  The gate lets the wrapped handler run only after the token's
    signature has been verified with the secret of the issuer's tenant:
    every request is either answered 401 in a way that does not depend on
    the handler and leaves the registry, the tenants file and the request's
    payload as they were, or it is a request whose token decodes, whose
    issuer has a record, and whose verification with that record's secret
    succeeds, and then the gate is the handler run under the gate's
    exception clauses with the verified payload set.  The gate never
    raises, and an answer with a status other than 401 is an answer of the
    handler: an exception of the handler comes out as a 401. *)
Theorem gate_runs_handler_only_when_verified (req : request) (s : state) :
  ((exists (resp : response) (s' : state),
       status resp = 401%Z /\
       installed_tenants s' = installed_tenants s /\
       tenants_json s' = tenants_json s /\
       jwt_payload s' = jwt_payload s /\
       forall f : M response, jwt_required E f req s = (Ok resp, s')) \/
   (exists (token : string) (unverified client_key : pyval) (k : pykey)
           (tenant : TenantRecord) (payload : pyval),
       authorization req = Some ("JWT " ++ token) /\
       jwt_decode_unverified E (log s) token = Ok unverified /\
       Py.get unverified "iss" PNone = Ok client_key /\
       hash_key client_key = Ok k /\
       installed_tenants s !! k = Some tenant /\
       jwt_decode E (log s ++ [Jwt_decode_unverified token]) token
         (shared_secret tenant) ["HS256"] = Ok payload /\
       forall f : M response,
         jwt_required E f req s =
           try_except f jwt_handler
             (mk_state
                (log s ++ [Jwt_decode_unverified token;
                           Jwt_decode token (shared_secret tenant) ["HS256"]])
                (tenants_json s) (installed_tenants s) (Some payload)))) /\
  (forall f : M response,
      exists (resp : response) (s' : state),
        jwt_required E f req s = (Ok resp, s') /\
        (status resp <> 401%Z -> exists s1 : state, f s1 = (Ok resp, s'))).
Proof.
  assert (Hcases :
    (exists (resp : response) (s' : state),
        status resp = 401%Z /\
        installed_tenants s' = installed_tenants s /\
        tenants_json s' = tenants_json s /\
        jwt_payload s' = jwt_payload s /\
        forall f : M response, jwt_required E f req s = (Ok resp, s')) \/
    (exists (token : string) (unverified client_key : pyval) (k : pykey)
            (tenant : TenantRecord) (payload : pyval),
        authorization req = Some ("JWT " ++ token) /\
        jwt_decode_unverified E (log s) token = Ok unverified /\
        Py.get unverified "iss" PNone = Ok client_key /\
        hash_key client_key = Ok k /\
        installed_tenants s !! k = Some tenant /\
        jwt_decode E (log s ++ [Jwt_decode_unverified token]) token
          (shared_secret tenant) ["HS256"] = Ok payload /\
        forall f : M response,
          jwt_required E f req s =
            try_except f jwt_handler
              (mk_state
                 (log s ++ [Jwt_decode_unverified token;
                            Jwt_decode token (shared_secret tenant) ["HS256"]])
                 (tenants_json s) (installed_tenants s) (Some payload)))).
  { destruct (jwt_required_early req s)
      as [Hearly|(token & unverified & client_key & k & Hauth & Hdec & Hiss & Hhash)];
      [left; exact Hearly|].
    pose proof (fun f => jwt_required_run E f req token unverified client_key k s
                           Hauth Hdec Hiss Hhash) as Hrun.
    destruct (installed_tenants s !! k) as [tenant|] eqn:Hk.
    - destruct (jwt_decode E (log s ++ [Jwt_decode_unverified token]) token
                  (shared_secret tenant) ["HS256"]) as [payload|e] eqn:Hver.
      + right. exists token, unverified, client_key, k, tenant, payload.
        repeat (split; [assumption|]). exact Hrun.
      + left.
        destruct (jwt_handler_401 e
                    (with_log s
                       (log s ++ [Jwt_decode_unverified token;
                                  Jwt_decode token (shared_secret tenant) ["HS256"]])))
          as (resp & Hresp & Hst).
        exists resp,
          (with_log s
             (log s ++ [Jwt_decode_unverified token;
                        Jwt_decode token (shared_secret tenant) ["HS256"]])).
        repeat (split; [first [exact Hst | reflexivity]|]).
        intros f. rewrite Hrun. exact Hresp.
    - left. exists (error_response "App not installed for this tenant" 401),
        (with_log s (log s ++ [Jwt_decode_unverified token])).
      repeat (split; [reflexivity|]). exact Hrun. }
  split; [exact Hcases|].
  intros f.
  destruct Hcases as [(resp & s' & Hst & _ & _ & _ & Hrun)|
                      (token & unverified & client_key & k & tenant & payload
                       & _ & _ & _ & _ & _ & _ & Hrun)].
  - exists resp, s'. split; [apply Hrun|]. intros Hne. contradiction.
  - rewrite Hrun. unfold try_except.
    match goal with |- context [f ?s1] => destruct (f s1) as [[r|e] s2] eqn:Hf end.
    + exists r, s2. split; [reflexivity|]. intros _. eexists. exact Hf.
    + destruct (jwt_handler_401 e s2) as (resp & Hresp & Hst).
      exists resp, s2. split; [exact Hresp|]. intros Hne. contradiction.
Qed.

End Gate.

(** ** The registry callbacks, on every request *)

Section Registry.

Variable E : env.





(** X9.  Two installs in a row under the same client key: the record of
    the second install stands, with the time of the second call; every
    other tenant is as before the first; the second install does not
    change the number of tenants; and when the second write succeeds the
    file holds the dump of the registry.  None of this depends on the
    first write. *)
Theorem reinstall_overwrites_one_tenant (first second : request)
    (d1 d2 : list (string * pyval)) (k : pykey) (s : state) :
  get_json first = Ok (PDict d1) ->
  get_json second = Ok (PDict d2) ->
  hash_key (default PNone (Py.assoc "clientKey" d1)) = Ok k ->
  hash_key (default PNone (Py.assoc "clientKey" d2)) = Ok k ->
  exists s1 s2 : state,
    snd (serve_installed E first s) = s1 /\
    snd (serve_installed E second s1) = s2 /\
    installed_tenants s2 !! k =
      Some (mk_TenantRecord (default PNone (Py.assoc "sharedSecret" d2))
              (default PNone (Py.assoc "baseUrl" d2)) (time_time E (log s1))) /\
    (forall k' : pykey, k' <> k ->
       installed_tenants s2 !! k' = installed_tenants s !! k') /\
    size (installed_tenants s2) = size (installed_tenants s1) /\
    (write_tenants E (log s1 ++ [Time_time]) = Written ->
     tenants_json s2 = Holds (json_roundtrip (installed_tenants s2))).
Proof.
  intros H1 H2 Hk1 Hk2.
  pose proof (serve_installed_registry E first d1 k s H1 Hk1) as Hreg1.
  exists (snd (serve_installed E first s)),
    (snd (serve_installed E second (snd (serve_installed E first s)))).
  split; [reflexivity|]. split; [reflexivity|].
  set (s1 := snd (serve_installed E first s)) in *.
  pose proof (serve_installed_registry E second d2 k s1 H2 Hk2) as Hreg2.
  rewrite Hreg2. split; [apply lookup_setitem_eq|]. split; [|split].
  - intros k' Hne. rewrite lookup_setitem_ne by exact Hne.
    rewrite Hreg1. apply lookup_setitem_ne, Hne.
  - rewrite size_setitem, Hreg1, lookup_setitem_eq. reflexivity.
  - intros Hw. rewrite <- Hreg2.
    rewrite (serve_installed_run E second d2 k s1 H2 Hk2), Hw. reflexivity.
Qed.



(** The health endpoint: the count is the size of the registry, and the
    registry and the file are not touched. *)
Lemma serve_health_run (s : state) :
  serve_health E s =
    (Ok (mk_response
           (PDict [("status", PStr "healthy");
                   ("installed_tenants", PInt (Z.of_nat (size (installed_tenants s))));
                   ("timestamp", PInt (time_time E (log s)))])
           200),
     with_log s (log s ++ [Time_time])).
Proof. reflexivity. Qed.

(** X11.  The count the health endpoint reports follows the callbacks: an
    install under a new client key raises it by one, an install under a
    key the registry already has leaves it, and an uninstall of a key the
    registry has lowers it by one. *)
Theorem health_count_follows_callbacks (req : request)
    (d : list (string * pyval)) (k : pykey) (s : state) :
  get_json req = Ok (PDict d) ->
  hash_key (default PNone (Py.assoc "clientKey" d)) = Ok k ->
  (exists (t : Z) (s' : state),
      serve_health E (snd (serve_installed E req s)) =
        (Ok (mk_response
               (PDict [("status", PStr "healthy");
                       ("installed_tenants",
                        PInt (Z.of_nat
                                match installed_tenants s !! k with
                                | Some _ => size (installed_tenants s)
                                | None => S (size (installed_tenants s))
                                end));
                       ("timestamp", PInt t)])
               200), s')) /\
  (exists (t : Z) (s' : state),
      serve_health E (snd (serve_uninstalled E req s)) =
        (Ok (mk_response
               (PDict [("status", PStr "healthy");
                       ("installed_tenants",
                        PInt (Z.of_nat
                                match installed_tenants s !! k with
                                | Some _ => Nat.pred (size (installed_tenants s))
                                | None => size (installed_tenants s)
                                end));
                       ("timestamp", PInt t)])
               200), s')).
Proof.
  intros Hd Hk. split.
  - rewrite serve_health_run.
    rewrite (serve_installed_registry E req d k s Hd Hk), size_setitem.
    eexists _, _. reflexivity.
  - destruct (serve_uninstalled_run E req d k s Hd Hk) as [l Hrun].
    rewrite Hrun. cbn [snd]. rewrite serve_health_run. cbn [installed_tenants].
    rewrite size_delitem. eexists _, _. reflexivity.
Qed.

End Registry.

(** ** What the tenants file holds *)

Section TenantsFile.

Lemma insert_slot_perm (x : slot) (l : list slot) : insert_slot x l ≡ₚ x :: l.
Proof.
  induction l as [|y l IH]; [reflexivity|].
  cbn [insert_slot]. destruct (position x <=? position y)%nat; [reflexivity|].
  rewrite IH. apply Permutation_swap.
Qed.

Lemma in_order_perm (r : registry) : in_order r ≡ₚ (snd <$> map_to_list (slots r)).
Proof.
  unfold in_order. induction (snd <$> map_to_list (slots r)) as [|x l IH];
    [reflexivity|].
  cbn [foldr]. rewrite insert_slot_perm, IH. reflexivity.
Qed.

(** Reading the entries back one after the other: a name that occurs
    once gets the record written under it, and a name that does not
    occur is left as it was. *)
Lemma load_entries_lookup (l : list slot) (acc : registry) (k : pykey) :
  NoDup ((fun sl => json_key (key_object sl)) <$> l) ->
  (forall sl : slot, sl ∈ l -> KStr (json_key (key_object sl)) = k ->
     foldl (fun acc sl =>
              setitem (PStr (json_key (key_object sl)))
                (KStr (json_key (key_object sl))) (slot_record sl) acc)
       acc l !! k = Some (slot_record sl)) /\
  ((forall sl : slot, sl ∈ l -> KStr (json_key (key_object sl)) <> k) ->
   foldl (fun acc sl =>
            setitem (PStr (json_key (key_object sl)))
              (KStr (json_key (key_object sl))) (slot_record sl) acc)
     acc l !! k = acc !! k).
Proof.
  revert acc. induction l as [|x l IH]; intros acc Hnd.
  - split; [intros sl Hin; inversion Hin|reflexivity].
  - rewrite fmap_cons in Hnd. apply NoDup_cons in Hnd as [Hx Hnd].
    cbn [foldl]. split.
    + intros sl Hin Hk. apply elem_of_cons in Hin as [->|Hin].
      * rewrite (proj2 (IH _ Hnd)).
        -- rewrite <- Hk. apply lookup_setitem_eq.
        -- intros sl' Hin' Heq. apply Hx. rewrite <- Hk in Heq.
           injection Heq as Heq. rewrite <- Heq.
           apply (list_elem_of_fmap_2 (fun sl => json_key (key_object sl))), Hin'.
      * apply (proj1 (IH _ Hnd) sl Hin Hk).
    + intros Hne. rewrite (proj2 (IH _ Hnd)).
      * apply lookup_setitem_ne. intros Heq. apply (Hne x); [left|]. congruence.
      * intros sl Hin. apply Hne. right. exact Hin.
Qed.

(** X24.  For a registry all of whose keys are strs, the tenants file
    loses nothing: what [json.load] reads from the dump has, under every
    key, the record the registry has.  A key that is not a str comes
    back as a str: the tenant stored under the number 1 is read back
    under the text [1], and it replaces the tenant that was stored under
    that text. *)
Theorem file_keeps_str_keys :
  (forall r : registry,
      (forall (k : pykey) (sl : slot),
          slots r !! k = Some sl ->
          exists name : string, k = KStr name /\ key_object sl = PStr name) ->
      forall k : pykey, json_roundtrip r !! k = r !! k) /\
  (forall a b : TenantRecord,
      json_roundtrip (setitem (PInt 1) (KInt 1) b (setitem (PStr "1") (KStr "1") a ∅))
        !! KStr "1" = Some b /\
      json_roundtrip (setitem (PInt 1) (KInt 1) b (setitem (PStr "1") (KStr "1") a ∅))
        !! KInt 1 = None).
Proof.
  split; [|intros a b; split; vm_compute; reflexivity].
  intros r Hkeys k.
  assert (Hname : forall (k' : pykey) (sl : slot),
             slots r !! k' = Some sl -> KStr (json_key (key_object sl)) = k').
  { intros k' sl H. destruct (Hkeys k' sl H) as (name & -> & ->). reflexivity. }
  assert (Hnd : NoDup ((fun sl => json_key (key_object sl)) <$> in_order r)).
  { rewrite in_order_perm.
    apply (NoDup_fmap_1 KStr). rewrite <- !list_fmap_compose.
    rewrite (list_fmap_ext _ fst (map_to_list (slots r)));
      [apply NoDup_fst_map_to_list|].
    intros i [k' sl] Hin. cbn. apply Hname.
    apply elem_of_map_to_list, (list_elem_of_lookup_2 _ i), Hin. }
  unfold json_roundtrip. rewrite (lookup_registry k r).
  destruct (slots r !! k) as [sl|] eqn:Hk; cbn [fmap option_fmap option_map].
  - apply (proj1 (load_entries_lookup (in_order r) ∅ k Hnd) sl); [|apply Hname, Hk].
    rewrite in_order_perm. apply list_elem_of_fmap. exists (k, sl).
    split; [reflexivity|]. apply elem_of_map_to_list, Hk.
  - rewrite (proj2 (load_entries_lookup (in_order r) ∅ k Hnd)); [reflexivity|].
    intros sl Hin Heq. rewrite in_order_perm in Hin.
    apply list_elem_of_fmap in Hin as ([k' sl'] & -> & Hin).
    apply elem_of_map_to_list in Hin. cbn in Heq.
    rewrite (Hname k' sl' Hin) in Heq. congruence.
Qed.

End TenantsFile.

(** ** Write-back and apply, on every run *)

Section WriteBack.

Variable E : env.

(** The write-back after its ticket reference has been resolved: one call
    of the tracker's update, and a report that follows its answer. *)
Lemma update_issue_description_cases (self : JiraIssueEnhancer) (issue : pyval)
    (enhanced_description : string) (s : state) :
  (exists (e : exception) (s' : state),
      update_issue_description E self issue enhanced_description s = (Raise e, s') /\
      updates (log s') = updates (log s)) \/
  (exists (issue_key : pyval) (s1 : state),
      updates (log s1) = updates (log s) /\
      update_issue_description E self issue enhanced_description s =
        (Ok match jira_issue_update E (log s1) issue_key
                    (PDict [("description", PStr enhanced_description)]) with
            | Ok _ =>
                (true, "✅ Successfully updated description for "
                    ++ Py.str (unicode_data E) issue_key)
            | Raise e =>
                (false,
                 "❌ Failed to update " ++ Py.str (unicode_data E) issue_key ++ ": " ++ exc_str e)
            end,
         with_log s1
           (log s1 ++ [Jira_issue_update issue_key
                         (PDict [("description", PStr enhanced_description)])]))).
Proof.
  pose proof (no_update_key_and_issue E self issue s) as Hk.
  unfold update_issue_description. run_monad.
  destruct (key_and_issue E self issue s) as [[[issue_key issue']|e] s1];
    cbn [snd] in Hk; [|left; eauto].
  right. exists issue_key, s1. split; [exact Hk|].
  destruct (jira_issue_update E (log s1) issue_key _) as [[]|e]; reflexivity.
Qed.

Lemma updates_app (l1 l2 : list event) :
  updates (l1 ++ l2) = (updates l1 ++ updates l2)%list.
Proof. apply List.filter_app. Qed.

(** Apply, case by case: it raises before any write, or it reports a
    failed preview without a write, or it hands the description of a
    successful preview to the write-back. *)
Lemma enhance_and_update_issue_cases (self : JiraIssueEnhancer) (issue : pyval)
    (custom_instructions : string) (s : state) :
  (exists (e : exception) (s' : state),
      enhance_and_update_issue E self issue custom_instructions s = (Raise e, s') /\
      updates (log s') = updates (log s)) \/
  (exists (msg : string) (s' : state),
      enhance_and_update_issue E self issue custom_instructions s
        = (Ok (false, msg), s') /\
      updates (log s') = updates (log s)) \/
  (exists (issue' : pyval) (s1 : state) (d : string) (v original : pyval) (t : Z)
          (s2 : state),
      enhance_issue_description E self issue' custom_instructions s1
        = (Ok (EnhancementSuccess d v original t), s2) /\
      updates (log s2) = updates (log s) /\
      enhance_and_update_issue E self issue custom_instructions s =
        update_issue_description E self issue' d s2).
Proof.
  pose proof (no_update_key_and_issue E self issue s) as Hk.
  unfold enhance_and_update_issue. run_monad.
  destruct (key_and_issue E self issue s) as [[[issue_key issue']|e] s0];
    cbn [snd] in Hk; [|left; eauto].
  pose proof (no_update_to_string E self issue' s0) as Ht.
  destruct (to_string E self issue' s0) as [[text|e] s0'];
    cbn [snd] in Ht; [|left; exists e, s0'; split; [reflexivity|congruence]].
  cbn [log with_log].
  set (s1 := with_log s0' (log s0' ++ [Printed text])).
  assert (Hp : updates (log s1) = updates (log s)).
  { rewrite <- Hk, <- Ht. apply (no_update_print text s0'). }
  pose proof (no_update_preview E self issue' custom_instructions s1) as Hr.
  destruct (enhance_issue_description E self issue' custom_instructions s1)
    as [[r|e] s2] eqn:Hrun; cbn [snd] in Hr;
    [|left; exists e, s2; split; [reflexivity|congruence]].
  destruct r as [d v original t|error original t].
  - right. right. exists issue', s1, d, v, original, t, s2.
    split; [exact Hrun|]. split; [congruence|reflexivity].
  - right. left. eexists _, s2. split; [reflexivity|congruence].
Qed.

(** X12.  The write-back makes at most one call of the tracker's update.
    When it raises (the ticket reference could not be resolved) nothing
    has been written; when it returns, exactly one update has been sent,
    with the new description as the only field, and the flag it returns
    is true exactly when the tracker accepted that update. *)
Theorem write_back_sends_one_update (self : JiraIssueEnhancer) (issue : pyval)
    (enhanced_description : string) (s : state) :
  (exists (e : exception) (s' : state),
      update_issue_description E self issue enhanced_description s = (Raise e, s') /\
      updates (log s') = updates (log s)) \/
  (exists (done : bool) (message : string) (s' : state) (issue_key : pyval)
          (before : list event),
      update_issue_description E self issue enhanced_description s
        = (Ok (done, message), s') /\
      log s' = (before ++ [Jira_issue_update issue_key
                            (PDict [("description", PStr enhanced_description)])])%list /\
      updates (log s') =
        (updates (log s)
           ++ [Jira_issue_update issue_key
                 (PDict [("description", PStr enhanced_description)])])%list /\
      (done = true <->
       jira_issue_update E before issue_key
         (PDict [("description", PStr enhanced_description)]) = Ok tt)).
Proof.
  destruct (update_issue_description_cases self issue enhanced_description s)
    as [Hraise|(issue_key & s1 & Hk & Hrun)]; [left; exact Hraise|].
  right. rewrite Hrun.
  destruct (jira_issue_update E (log s1) issue_key _) as [[]|e] eqn:Hup;
    eexists _, _, _, issue_key, (log s1);
    (split; [reflexivity|]); (split; [reflexivity|]);
    cbn [log with_log]; rewrite updates_app, Hk; (split; [reflexivity|]).
  - split; intros _; [exact Hup|reflexivity].
  - split; intros H; [discriminate H|rewrite Hup in H; discriminate H].
Qed.

(** X13.  Apply writes at most once, and its success flag can be trusted:
    in every run the log gains at most one tracker update, and when apply
    returns [True] exactly one update was sent, the tracker accepted it,
    and the description it carries is the [enhanced_description] of a
    preview that succeeded. *)
Theorem apply_success_means_written (self : JiraIssueEnhancer) (issue : pyval)
    (custom_instructions : string) (s : state) :
  (exists sent : list event,
      updates (log (snd (enhance_and_update_issue E self issue custom_instructions s)))
        = (updates (log s) ++ sent)%list /\
      (length sent <= 1)%nat) /\
  (forall (message : string) (s' : state),
      enhance_and_update_issue E self issue custom_instructions s
        = (Ok (true, message), s') ->
      exists (issue' : pyval) (s1 : state) (d : string) (v original : pyval) (t : Z)
             (s2 : state) (issue_key : pyval) (before : list event),
        enhance_issue_description E self issue' custom_instructions s1
          = (Ok (EnhancementSuccess d v original t), s2) /\
        log s' = (before ++ [Jira_issue_update issue_key
                              (PDict [("description", PStr d)])])%list /\
        updates (log s') =
          (updates (log s)
             ++ [Jira_issue_update issue_key (PDict [("description", PStr d)])])%list /\
        jira_issue_update E before issue_key (PDict [("description", PStr d)])
          = Ok tt).
Proof.
  destruct (enhance_and_update_issue_cases self issue custom_instructions s)
    as [(e & s' & Hrun & Hu)|[(msg & s' & Hrun & Hu)|
        (issue' & s1 & d & v & original & t & s2 & Hprev & Hu & Hrun)]].
  - split.
    + exists []. rewrite Hrun, app_nil_r. split; [exact Hu|cbn; lia].
    + intros message s'' H. rewrite Hrun in H. discriminate H.
  - split.
    + exists []. rewrite Hrun, app_nil_r. split; [exact Hu|cbn; lia].
    + intros message s'' H. rewrite Hrun in H. discriminate H.
  - rewrite Hrun.
    destruct (update_issue_description_cases self issue' d s2)
      as [(e & s' & Hw & Hu')|(issue_key & s3 & Hk & Hw)]; rewrite Hw.
    + split.
      * exists []. rewrite app_nil_r. cbn [snd]. split; [congruence|cbn; lia].
      * intros message s'' H. discriminate H.
    + split.
      * eexists [_]. cbn [snd log with_log]. rewrite updates_app, Hk, Hu.
        split; [reflexivity|cbn; lia].
      * intros message s'' H.
        destruct (jira_issue_update E (log s3) issue_key _) as [[]|e] eqn:Hup;
          inversion H; subst.
        exists issue', s1, d, v, original, t, s2, issue_key, (log s3).
        split; [exact Hprev|]. split; [reflexivity|].
        cbn [log with_log]. rewrite updates_app, Hk, Hu.
        split; [reflexivity|exact Hup].
Qed.

End WriteBack.

(** ** What the generation answer does to preview and apply *)

Section Answers.

Variable E : env.

Lemma key_and_issue_object (self : JiraIssueEnhancer) (issue issue_key : pyval)
    (s : state) :
  Py.getitem issue "key" = Ok issue_key ->
  key_and_issue E self issue s = (Ok (issue_key, issue), s).
Proof.
  intros Hkey. unfold key_and_issue.
  destruct issue; try discriminate Hkey; run_monad; rewrite Hkey; reflexivity.
Qed.

(** The generation call when the endpoint's answer is [r], whatever the
    request. *)
Lemma call_model_answer (self : LlamaJiraEnhancer) (p : string) (s : state)
    (r : http_response) :
  (forall l target payload timeout, requests_post E l target payload timeout = Ok r) ->
  exists s1 : state,
    updates (log s1) = updates (log s) /\
    (exists ev, log s1 = (log s ++ [ev])%list) /\
    _call_model E self p s =
      (_ ← raise_for_status r; result ← json r; Py.get result "response" (PStr ""),
       s1).
Proof.
  intros Hpost. pose proof (call_model_run E self p s) as Hrun. cbv zeta in Hrun.
  rewrite Hpost in Hrun. cbn [mbind outcome_bind] in Hrun.
  eexists. split; [|split; [|exact Hrun]].
  - cbn [log with_log]. rewrite updates_app. cbn. apply app_nil_r.
  - eexists. reflexivity.
Qed.

(** The preview on an issue object when the answer's text is [answer]. *)
Lemma preview_on_answer (self : JiraIssueEnhancer) (issue : pyval)
    (custom_instructions p : string) (s : state) (r : http_response)
    (d : list (string * pyval)) (v : pyval) :
  _build_prompt (unicode_data E) (llama_enhancer self) issue custom_instructions = Ok p ->
  (forall l target payload timeout, requests_post E l target payload timeout = Ok r) ->
  ok r = true ->
  json r = Ok (PDict d) ->
  default (PStr "") (Py.assoc "response" d) = v ->
  exists (s2 : state) (t : Z),
    updates (log s2) = updates (log s) /\
    enhance_issue_description E self issue custom_instructions s =
      (Ok match _extract_description_from_output (unicode_data E) v with
          | Ok text => EnhancementSuccess text v issue t
          | Raise e => EnhancementFailure (exc_str e) issue t
          end, s2).
Proof.
  intros Hp Hpost Hok Hjson Hv.
  rewrite (preview_on_issue_object E self issue custom_instructions p s Hp).
  rewrite (enhance_ticket_run E _ issue custom_instructions p s Hp).
  destruct (call_model_answer (llama_enhancer self) p s r Hpost)
    as (s1 & Hu & _ & Hcall).
  rewrite Hcall. unfold ok in Hok.
  destruct (raise_for_status r) as [[]|e]; [|discriminate Hok].
  rewrite Hjson. cbn [mbind outcome_bind]. rewrite get_dict, Hv.
  eexists _, _. split.
  2: { destruct (_extract_description_from_output (unicode_data E) v); reflexivity. }
  cbn [log with_log]. rewrite updates_app, Hu. cbn. apply app_nil_r.
Qed.

(** X14.  Apply does not check what the extraction found.  When the
    endpoint's answer is a text without a marker line, or has no
    [response] field at all, the preview succeeds with the empty string
    as description, and apply sends the tracker an update that sets the
    ticket's description to the empty string. *)
Theorem apply_writes_empty_description (self : JiraIssueEnhancer)
    (issue issue_key : pyval) (custom_instructions p text answer : string)
    (s : state) (r : http_response) (d : list (string * pyval)) :
  Py.getitem issue "key" = Ok issue_key ->
  to_string E self issue s = (Ok text, s) ->
  _build_prompt (unicode_data E) (llama_enhancer self) issue custom_instructions = Ok p ->
  (forall l target payload timeout, requests_post E l target payload timeout = Ok r) ->
  ok r = true ->
  json r = Ok (PDict d) ->
  default (PStr "") (Py.assoc "response" d) = PStr answer ->
  Forall (fun line => is_marker_line (unicode_data E) line = false)
    (PyStr.split "010" answer) ->
  exists (done : bool) (message : string) (s' : state),
    enhance_and_update_issue E self issue custom_instructions s
      = (Ok (done, message), s') /\
    updates (log s') =
      (updates (log s)
         ++ [Jira_issue_update issue_key (PDict [("description", PStr "")])])%list.
Proof.
  intros Hkey Hto Hp Hpost Hok Hjson Hanswer Hlines.
  unfold enhance_and_update_issue.
  pose proof (key_and_issue_object self issue issue_key s Hkey) as Hki.
  run_monad. rewrite Hki, Hto. cbn [log with_log].
  set (s1 := with_log s (log s ++ [Printed text])).
  destruct (preview_on_answer self issue custom_instructions p s1 r d (PStr answer)
              Hp Hpost Hok Hjson Hanswer) as (s2 & t & Hu & Hprev).
  rewrite Hprev.
  assert (Hex : _extract_description_from_output (unicode_data E) (PStr answer) = Ok "").
  { cbn [_extract_description_from_output]. unfold extract_description.
    rewrite extract_loop_before_marker by exact Hlines. reflexivity. }
  rewrite Hex.
  rewrite (update_issue_description_run E self issue issue_key "" s2 Hkey).
  destruct (jira_issue_update E (log s2) issue_key _) as [[]|e];
    eexists _, _, _; (split; [reflexivity|]);
    cbn [log with_log]; rewrite updates_app, Hu;
    subst s1; cbn [log with_log]; rewrite updates_app; cbn;
    rewrite app_nil_r; reflexivity.
Qed.

(** X15.  A generation answer that is [ok] but not of the expected shape is
    a failed preview, not an exception and not a success: a body that is
    not a JSON object, and a [response] field that is not a text, each
    give a result with success false whose error names the missing
    method. *)
Theorem preview_fails_on_malformed_answer (self : JiraIssueEnhancer)
    (issue : pyval) (custom_instructions p : string) (s : state)
    (r : http_response) (answer : pyval) :
  _build_prompt (unicode_data E) (llama_enhancer self) issue custom_instructions = Ok p ->
  (forall l target payload timeout, requests_post E l target payload timeout = Ok r) ->
  ok r = true ->
  json r = Ok answer ->
  ((forall d, answer <> PDict d) ->
   exists (t : Z) (s' : state),
     enhance_issue_description E self issue custom_instructions s =
       (Ok (EnhancementFailure
              ("'" ++ Py.type_name answer ++ "' object has no attribute 'get'")
              issue t), s')) /\
  (forall (d : list (string * pyval)) (v : pyval),
      answer = PDict d ->
      Py.assoc "response" d = Some v ->
      (forall text, v <> PStr text) ->
      exists (t : Z) (s' : state),
        enhance_issue_description E self issue custom_instructions s =
          (Ok (EnhancementFailure
                 ("'" ++ Py.type_name v ++ "' object has no attribute 'split'")
                 issue t), s')).
Proof.
  intros Hp Hpost Hok Hjson. split.
  - intros Hnot.
    rewrite (preview_on_issue_object E self issue custom_instructions p s Hp).
    rewrite (enhance_ticket_run E _ issue custom_instructions p s Hp).
    destruct (call_model_answer (llama_enhancer self) p s r Hpost)
      as (s1 & Hu & _ & Hcall).
    rewrite Hcall. unfold ok in Hok.
    destruct (raise_for_status r) as [[]|e]; [|discriminate Hok].
    rewrite Hjson. cbn [mbind outcome_bind].
    destruct answer; try (eexists _, _; reflexivity).
    exfalso. eapply Hnot. reflexivity.
  - intros d v -> Hv Hnot.
    destruct (preview_on_answer self issue custom_instructions p s r d v
                Hp Hpost Hok Hjson) as (s2 & t & Hu & Hprev).
    { rewrite Hv. reflexivity. }
    rewrite Hprev.
    destruct v; try (eexists _, _; reflexivity).
    exfalso. eapply Hnot. reflexivity.
Qed.

End Answers.

(** ** Preview, batch and the entry points *)

(** Proves [no_update] of a computation built from the monad's operations
    and from computations already known not to update. *)
Ltac solve_no_update :=
  repeat first
    [ assumption
    | apply no_update_ret
    | apply no_update_lift
    | apply no_update_print
    | apply no_update_now
    | apply no_update_get_issue
    | apply no_update_to_string
    | apply no_update_preview
    | apply no_update_try; [|intros ?]
    | apply no_update_bind; [|intros ?]
    | match goal with
      | |- no_update (match ?x with _ => _ end) => destruct x
      | |- no_update (let '(_, _) := ?x in _) => destruct x
      | |- no_update (if ?b then _ else _) => destruct b
      end ].

Section PreviewOnly.

Variable E : env.

Lemma no_update_preview_enhancement (self : JiraIssueEnhancer) (issue : pyval)
    (custom_instructions : string) :
  no_update (preview_enhancement E self issue custom_instructions).
Proof. unfold preview_enhancement. solve_no_update. Qed.

Lemma no_update_serve_demo : no_update (serve_demo E).
Proof. unfold serve_demo. solve_no_update. Qed.

Lemma action_is_not_apply (req : request) :
  args req "action" <> Some "apply" ->
  String.eqb (default "preview" (args req "action")) "apply" = false.
Proof.
  intros H. destruct (args req "action") as [a|]; [|reflexivity].
  cbn [default from_option id]. apply String.eqb_neq. congruence.
Qed.

(** X16.  Preview is read-only for the tracker: the preview operation, the
    printing preview, the demo endpoint, and the enhancement endpoint
    under any action other than [apply] never call the tracker's update,
    whatever the tracker and the generation endpoint answer. *)
Theorem preview_never_writes (self : JiraIssueEnhancer) (issue : pyval)
    (custom_instructions : string) (req : request) (s : state) :
  updates (log (snd (enhance_issue_description E self issue custom_instructions s)))
    = updates (log s) /\
  updates (log (snd (preview_enhancement E self issue custom_instructions s)))
    = updates (log s) /\
  updates (log (snd (serve_demo E s))) = updates (log s) /\
  (args req "action" <> Some "apply" ->
   updates (log (snd (serve_enhance E req s))) = updates (log s)).
Proof.
  split; [apply no_update_preview|].
  split; [apply no_update_preview_enhancement|].
  split; [apply no_update_serve_demo|].
  intros Haction. apply action_is_not_apply in Haction.
  revert s. change (no_update (serve_enhance E req)).
  unfold serve_enhance. rewrite Haction. solve_no_update.
Qed.

End PreviewOnly.

Section Batch.

Variable E : env.
Variable jira_jql : list event -> string -> Z -> outcome pyval.

(** What one apply adds to the tracker writes. *)
Lemma apply_sent (self : JiraIssueEnhancer) (issue : pyval)
    (custom_instructions : string) (s : state) :
  exists sent : list event,
    updates (log (snd (enhance_and_update_issue E self issue custom_instructions s)))
      = (updates (log s) ++ sent)%list /\
    (length sent <= 1)%nat /\
    (forall (message : string) (s' : state),
        enhance_and_update_issue E self issue custom_instructions s
          = (Ok (true, message), s') ->
        length sent = 1%nat).
Proof.
  destruct (enhance_and_update_issue_cases E self issue custom_instructions s)
    as [(e & s' & Hrun & Hu)|[(msg & s' & Hrun & Hu)|
        (issue' & s1 & d & v & original & t & s2 & Hprev & Hu & Hrun)]].
  - exists []. rewrite Hrun, app_nil_r. cbn [snd length].
    repeat split; [exact Hu|lia|]. intros m s'' H. discriminate H.
  - exists []. rewrite Hrun, app_nil_r. cbn [snd length].
    repeat split; [exact Hu|lia|]. intros m s'' H. discriminate H.
  - rewrite Hrun.
    destruct (update_issue_description_cases E self issue' d s2)
      as [(e & s' & Hw & Hu')|(issue_key & s3 & Hk & Hw)]; rewrite Hw.
    + exists []. rewrite app_nil_r. cbn [snd length].
      repeat split; [congruence|lia|]. intros m s'' H. discriminate H.
    + eexists [_]. cbn [snd log with_log length]. rewrite updates_app, Hk, Hu.
      repeat split; lia.
Qed.

(** The loop of the batch: the results it adds follow the tickets one by
    one, and the tracker writes it adds are at most one per ticket and at
    least one per result that reports success. *)
Lemma batch_loop_results (enhancer : JiraIssueEnhancer) (issues : list pyval) :
  forall (results : list BatchResult) (s : state) (rs : list BatchResult)
         (s' : state),
    batch_loop E enhancer issues results s = (Ok rs, s') ->
    exists (new : list BatchResult) (sent : list event),
      rs = (results ++ new)%list /\
      Forall2 (fun issue r => Py.getitem issue "key" = Ok (batch_issue r)) issues new /\
      updates (log s') = (updates (log s) ++ sent)%list /\
      (length (List.filter batch_success new) <= length sent)%nat /\
      (length sent <= length issues)%nat.
Proof.
  induction issues as [|issue rest IH]; intros results s rs s' Hrun.
  - inversion Hrun; subst. exists [], [].
    rewrite !app_nil_r. repeat split; [constructor|cbn; lia|cbn; lia].
  - cbn [batch_loop] in Hrun. revert Hrun. run_monad.
    destruct (Py.getitem issue "key") as [issue_key|e] eqn:Hkey;
      [|intros H; discriminate H].
    cbn [log with_log].
    set (s1 := with_log s (log s ++ [Printed ("Processing " ++ Py.str (unicode_data E) issue_key
        ++ "...")])).
    assert (Hs1 : updates (log s1) = updates (log s)).
    { subst s1. cbn [log with_log]. rewrite updates_app. cbn. apply app_nil_r. }
    destruct (apply_sent enhancer issue "" s1) as (sent1 & Hsent & Hle & Htrue).
    destruct (enhance_and_update_issue E enhancer issue "" s1)
      as [[[done message]|e] s2] eqn:Happly; [|intros H; discriminate H].
    cbn [snd] in Hsent. intros Hrest.
    destruct (IH _ _ _ _ Hrest) as (new & sent & -> & Hall & Hu & Hsucc & Hlen).
    exists (mk_BatchResult issue_key done message :: new), (sent1 ++ sent)%list.
    split; [rewrite <- app_assoc; reflexivity|].
    split; [constructor; [exact Hkey|exact Hall]|].
    split; [rewrite Hu, Hsent, Hs1, app_assoc; reflexivity|].
    rewrite length_app. cbn [List.filter batch_success length].
    split; [|lia].
    destruct done; cbn [length]; [|lia].
    rewrite (Htrue message s2 eq_refl). lia.
Qed.

(** X17.  When the batch returns, its results follow the search: one
    result per ticket the tracker's search returned, in the same order,
    each under its ticket's key.  The batch sends at most one tracker
    update per ticket, and at least one for every result that reports
    success. *)
Theorem batch_results_follow_the_search (project_key : string) (max_issues : Z)
    (s : state) (rs : list BatchResult) (s' : state) :
  batch_enhance_project E jira_jql project_key max_issues s = (Ok rs, s') ->
  exists (answer issues : pyval) (items : list pyval) (sent : list event),
    jira_jql (log s) ("project = " ++ project_key ++ " ORDER BY created DESC")
      max_issues = Ok answer /\
    Py.getitem answer "issues" = Ok issues /\
    Py.iter issues = Ok items /\
    Forall2 (fun issue r => Py.getitem issue "key" = Ok (batch_issue r)) items rs /\
    updates (log s') = (updates (log s) ++ sent)%list /\
    (length (List.filter batch_success rs) <= length sent)%nat /\
    (length sent <= length items)%nat.
Proof.
  unfold batch_enhance_project, search_project_issues. run_monad.
  destruct (load_from_env E) as [enhancer|e]; [|intros H; discriminate H].
  destruct (jira_jql (log s) _ max_issues) as [answer|e] eqn:Hjql;
    [|intros H; discriminate H].
  destruct (Py.getitem answer "issues") as [issues|e] eqn:Hissues;
    [|intros H; discriminate H].
  destruct (Py.iter issues) as [items|e] eqn:Hiter; [|intros H; discriminate H].
  intros Hloop.
  destruct (batch_loop_results enhancer items [] s rs s' Hloop)
    as (new & sent & -> & Hall & Hu & Hsucc & Hlen).
  exists answer, issues, items, sent. cbn [app]. auto 10.
Qed.

(** X18.  The entry points check the configuration before anything else.
    With the three variables set, [load_from_env] gives the enhancer.
    With one of them unset or empty it raises a [ValueError] whose text
    lists the missing variables, that one among them, and
    [enhance_specific_issue], [preview_specific_issue] and
    [batch_enhance_project] raise it without any interaction with the
    tracker or the generation endpoint. *)
Theorem entry_points_need_configuration :
  (Forall (fun var => given (os_getenv E var) = true) required_vars ->
   load_from_env E = Ok JiraIssueEnhancer_init) /\
  (forall var : string,
      In var required_vars ->
      given (os_getenv E var) = false ->
      exists missing : list string,
        In var missing /\
        load_from_env E =
          raise ValueError
            ("Missing environment variables: " ++ PyStr.join ", " missing) /\
        forall (key : string) (max_issues : Z) (s : state),
          enhance_specific_issue E key s =
            (raise ValueError
               ("Missing environment variables: " ++ PyStr.join ", " missing), s) /\
          preview_specific_issue E key s =
            (raise ValueError
               ("Missing environment variables: " ++ PyStr.join ", " missing), s) /\
          batch_enhance_project E jira_jql key max_issues s =
            (raise ValueError
               ("Missing environment variables: " ++ PyStr.join ", " missing), s)).
Proof.
  split.
  - intros Hall. unfold load_from_env.
    assert (Hnone : List.filter (fun var => negb (given (os_getenv E var)))
                      required_vars = []).
    { induction Hall as [|v l Hv _ IH]; [reflexivity|].
      cbn [List.filter]. rewrite Hv. exact IH. }
    rewrite Hnone. reflexivity.
  - intros var Hin Hvar.
    set (missing := List.filter (fun v => negb (given (os_getenv E v))) required_vars).
    assert (Hmiss : In var missing).
    { apply List.filter_In. split; [exact Hin|]. rewrite Hvar. reflexivity. }
    assert (Hload : load_from_env E =
                      raise ValueError
                        ("Missing environment variables: " ++ PyStr.join ", " missing)).
    { unfold load_from_env. fold missing.
      destruct missing; [destruct Hmiss|reflexivity]. }
    exists missing. split; [exact Hmiss|]. split; [exact Hload|].
    intros key max_issues s.
    unfold enhance_specific_issue, preview_specific_issue, batch_enhance_project.
    run_monad. rewrite Hload. repeat split.
Qed.

End Batch.

(** ** Edge cases of the prompt and of the endpoints *)

Section NullText.

Variable U : PyStr.unicode.

(** X19.  The placeholders [No title] and [No description] stand for a key
    that is missing from [fields] only.  When the tracker shows the title
    and the description of a ticket as JSON null, the ticket block reads
    [Title: None] and [Description: None]: the prompt is the one of a
    ticket whose title and description are the text [None]. *)
Theorem null_text_fields_render_as_None (self : LlamaJiraEnhancer) (how : missing)
    (t : TicketSnapshot) (custom_instructions : string) :
  title t = None ->
  description t = None ->
  _build_prompt U self
    (PDict [("key", PStr (ticket_key t));
            ("fields",
             PDict (("summary", PNone) :: ("description", PNone)
                      :: snapshot_fields how t))])
    custom_instructions =
  Ok (prompt_layout (policy_rules self)
        (mk_TicketSnapshot (ticket_key t) (Some "None") (Some "None")
           (priority_name t) (issue_type_name t) (assignee_display_name t)
           (status_name t) (labels t) (components t))
        custom_instructions).
Proof.
  intros Htitle Hdesc.
  destruct (snapshot_fields_lookup how t)
    as (_ & _ & Hprio & Htype & Hasg & Hst & Hlab & Hcomp).
  cbv zeta in Hprio, Htype, Hasg, Hst, Hlab, Hcomp.
  set (d := (("summary", PNone) :: ("description", PNone) :: snapshot_fields how t)).
  assert (Hprio' : Py.assoc "priority" d = shown how (named "name" (priority_name t)))
    by exact Hprio.
  assert (Htype' : Py.assoc "issuetype" d = shown how (named "name" (issue_type_name t)))
    by exact Htype.
  assert (Hasg' : Py.assoc "assignee" d
                  = shown how (named "displayName" (assignee_display_name t)))
    by exact Hasg.
  assert (Hst' : Py.assoc "status" d = shown how (named "name" (status_name t)))
    by exact Hst.
  assert (Hlab' : Py.assoc "labels" d = shown_list how (str_list (labels t)))
    by exact Hlab.
  assert (Hcomp' : Py.assoc "components" d
                   = shown_list how (component_list (components t)))
    by exact Hcomp.
  assert (Hsum : Py.get (PDict d) "summary" (PStr "No title") = Ok PNone)
    by reflexivity.
  assert (Hde : Py.get (PDict d) "description" (PStr "No description") = Ok PNone)
    by reflexivity.
  unfold _build_prompt, issue_info.
  cbn [Py.getitem Py.assoc String.eqb Ascii.eqb Bool.eqb mbind outcome_bind].
  fold d. rewrite Hsum, Hde.
  cbn [mbind outcome_bind].
  rewrite (render_attr_named U _ how _ _ "Not set" _ Hprio').
  rewrite (render_attr_named U _ how _ _ "Not set" _ Htype').
  rewrite (render_attr_named U _ how _ _ "Unassigned" _ Hasg').
  rewrite (render_attr_named U _ how _ _ "Unknown" _ Hst').
  rewrite (render_labels_snapshot _ how _ Hlab').
  rewrite (render_components_snapshot _ how _ Hcomp').
  reflexivity.
Qed.

End NullText.

Section Credentials.

Variable E : env.

(** The credentials are missing exactly when one of the three values is
    unset or empty. *)
Lemma credentials_missing_iff (tenant_url : option string) :
  _create_enhancer_for_tenant E tenant_url
    = raise ValueError "Missing Jira credentials for tenant" <->
  (given tenant_url = false \/
   given (os_getenv E "JIRA_SERVICE_ACCOUNT_EMAIL") = false \/
   given (os_getenv E "JIRA_SERVICE_ACCOUNT_TOKEN") = false).
Proof.
  unfold _create_enhancer_for_tenant.
  destruct (given tenant_url); destruct (given (os_getenv E _));
    destruct (given (os_getenv E _)); cbn; split; intros H;
    try discriminate; try reflexivity; auto;
    destruct H as [H|[H|H]]; discriminate H.
Qed.

(** X20.  When the tracker's URL, the service account's email or its token
    is unset or empty in the environment, the demo endpoint and the
    enhancement endpoint (given an issue key) answer 500 with the text
    [Missing Jira credentials for tenant], and neither the tracker nor the
    generation endpoint is called: the log gains nothing but the
    enhancement endpoint's own two prints. *)
Theorem endpoints_need_credentials (req : request) (s : state) :
  (given (os_getenv E "JIRA_SERVER_URL") = false \/
   given (os_getenv E "JIRA_SERVICE_ACCOUNT_EMAIL") = false \/
   given (os_getenv E "JIRA_SERVICE_ACCOUNT_TOKEN") = false) ->
  serve_demo E s =
    (Ok (failure_response "Missing Jira credentials for tenant" 500), s) /\
  (given (args req "issueKey") = true ->
   serve_enhance E req s =
     (Ok (failure_response "Missing Jira credentials for tenant" 500),
      with_log s
        (log s ++ [Printed ("serve_enhance - action: "
                              ++ default "preview" (args req "action"));
                   Printed "serve_enhance - failed: Missing Jira credentials for tenant"]))).
Proof.
  intros Hcred. apply credentials_missing_iff in Hcred. split.
  - unfold serve_demo. run_monad. rewrite Hcred. reflexivity.
  - intros Hkey. unfold serve_enhance. run_monad. rewrite Hkey, Hcred.
    cbn [negb log with_log tenants_json installed_tenants jwt_payload exc_str raise].
    rewrite <- app_assoc. reflexivity.
Qed.

End Credentials.

(** ** The response headers *)

Section HeaderFacts.

Lemma same_name_eq (a b : string) :
  Headers.same_name a b = true <-> Headers.lower a = Headers.lower b.
Proof. apply String.eqb_eq. Qed.

Lemma same_name_sym (a b : string) :
  Headers.same_name a b = Headers.same_name b a.
Proof. apply String.eqb_sym. Qed.

Lemma same_name_trans_false (a b c : string) :
  Headers.same_name a b = true ->
  Headers.same_name c b = false ->
  Headers.same_name a c = false.
Proof.
  intros Hab Hcb. apply same_name_eq in Hab.
  unfold Headers.same_name in *. apply String.eqb_neq. apply String.eqb_neq in Hcb.
  congruence.
Qed.

Lemma same_name_trans (a b c : string) :
  Headers.same_name a b = true ->
  Headers.same_name c b = true ->
  Headers.same_name a c = true.
Proof.
  intros Hab Hcb. apply same_name_eq in Hab, Hcb. apply same_name_eq. congruence.
Qed.

#[local] Opaque Headers.same_name.

Lemma entries_remove (k n : string) (h : list (string * string)) :
  Headers.entries (Headers.remove k h) n =
    if Headers.same_name n k then [] else Headers.entries h n.
Proof.
  unfold Headers.entries, Headers.remove.
  induction h as [|[a b] h IH]; simpl.
  - destruct (Headers.same_name n k); reflexivity.
  - destruct (Headers.same_name a k) eqn:Hak; simpl.
    + rewrite IH. destruct (Headers.same_name n k) eqn:Hnk; [reflexivity|].
      rewrite (same_name_trans_false a k n Hak Hnk). reflexivity.
    + rewrite IH. destruct (Headers.same_name n k) eqn:Hnk.
      * destruct (Headers.same_name a n) eqn:Han; [|reflexivity].
        rewrite (same_name_trans a n k) in Hak; [discriminate|exact Han|].
        rewrite same_name_sym. exact Hnk.
      * reflexivity.
Qed.

Lemma entries_cons (a b n : string) (h : list (string * string)) :
  Headers.entries ((a, b) :: h) n =
    ((if Headers.same_name a n then [(a, b)] else []) ++ Headers.entries h n)%list.
Proof.
  unfold Headers.entries. simpl. destruct (Headers.same_name a n); reflexivity.
Qed.

Lemma entries_set (k v n : string) (h : list (string * string)) :
  Headers.entries (Headers.set k v h) n =
    if Headers.same_name n k then [(k, v)] else Headers.entries h n.
Proof.
  induction h as [|[a b] h IH]; cbn [Headers.set].
  - rewrite entries_cons, (same_name_sym k n).
    destruct (Headers.same_name n k); reflexivity.
  - destruct (Headers.same_name a k) eqn:Hak; rewrite !entries_cons.
    + rewrite entries_remove, (same_name_sym k n).
      destruct (Headers.same_name n k) eqn:Hnk; [reflexivity|].
      rewrite (same_name_trans_false a k n Hak Hnk). reflexivity.
    + rewrite IH. destruct (Headers.same_name n k) eqn:Hnk; [|reflexivity].
      destruct (Headers.same_name a n) eqn:Han; [|reflexivity].
      rewrite (same_name_trans a n k) in Hak; [discriminate|exact Han|].
      rewrite same_name_sym. exact Hnk.
Qed.

Lemma remove_absent (k : string) (h : list (string * string)) :
  Headers.entries h k = [] -> Headers.remove k h = h.
Proof.
  unfold Headers.entries, Headers.remove.
  induction h as [|[a b] h IH]; [reflexivity|]. simpl.
  destruct (Headers.same_name a k); [discriminate|].
  intros H. simpl. rewrite (IH H). reflexivity.
Qed.

Lemma set_present (k v : string) (h : list (string * string)) :
  Headers.entries h k = [(k, v)] -> Headers.set k v h = h.
Proof.
  induction h as [|[a b] h IH]; [discriminate|].
  unfold Headers.entries in *. simpl.
  destruct (Headers.same_name a k).
  - intros H. inversion H as [[Ha Hb Hrest]].
    rewrite (remove_absent k h Hrest). reflexivity.
  - intros H. rewrite (IH H). reflexivity.
Qed.

#[local] Transparent Headers.same_name.

(** The entries of a name after [after_request], operation by operation. *)
Lemma after_request_entries (r : flask_response) (n : string) :
  Headers.entries (headers (after_request r)) n =
    if Headers.same_name n "Referrer-Policy" then []
    else if Headers.same_name n "Strict-Transport-Security" then []
    else if Headers.same_name n "X-Content-Type-Options" then []
    else if Headers.same_name n "Content-Security-Policy"
         then [("Content-Security-Policy", content_security_policy)]
    else if Headers.same_name n "Access-Control-Allow-Credentials"
         then [("Access-Control-Allow-Credentials", "true")]
    else if Headers.same_name n "Access-Control-Expose-Headers"
         then [("Access-Control-Expose-Headers", "*")]
    else if Headers.same_name n "Access-Control-Allow-Headers"
         then [("Access-Control-Allow-Headers", "*")]
    else if Headers.same_name n "Access-Control-Allow-Methods"
         then [("Access-Control-Allow-Methods", "GET, POST, PUT, DELETE, OPTIONS")]
    else if Headers.same_name n "Access-Control-Allow-Origin"
         then [("Access-Control-Allow-Origin", "*")]
    else if Headers.same_name n "X-Frame-Options" then []
    else Headers.entries (headers r) n.
Proof.
  unfold after_request, Headers.pop. cbn [headers].
  rewrite !entries_remove, !entries_set, entries_remove. reflexivity.
Qed.

(** A name that is one of the ten, up to case, decides every test. *)
Ltac decide_names H :=
  apply same_name_eq in H; unfold Headers.same_name; rewrite H;
  vm_compute; reflexivity.

(** X21.  What [after_request] does to the headers of any response, names
    compared without regard to case: no entry is left under
    [X-Frame-Options], [X-Content-Type-Options],
    [Strict-Transport-Security] or [Referrer-Policy]; each of the five
    CORS headers and the content security policy has exactly one entry,
    with the fixed value; the entries of every other name are as they
    were; and the body and the status are not touched. *)
Theorem after_request_headers (r : flask_response) :
  content (after_request r) = content r /\
  (forall name n : string,
      In name removed_headers ->
      Headers.same_name n name = true ->
      Headers.entries (headers (after_request r)) n = []) /\
  (forall (name value n : string),
      In (name, value) fixed_headers ->
      Headers.same_name n name = true ->
      Headers.entries (headers (after_request r)) n = [(name, value)]) /\
  (forall n : string,
      (forall name, In name removed_headers -> Headers.same_name n name = false) ->
      (forall name value, In (name, value) fixed_headers ->
                          Headers.same_name n name = false) ->
      Headers.entries (headers (after_request r)) n = Headers.entries (headers r) n).
Proof.
  split; [reflexivity|]. split; [|split].
  - intros name n Hin Hn. rewrite after_request_entries.
    cbn in Hin. destruct Hin as [<-|[<-|[<-|[<-|[]]]]]; decide_names Hn.
  - intros name value n Hin Hn. rewrite after_request_entries.
    cbn in Hin.
    destruct Hin as [H|[H|[H|[H|[H|[H|[]]]]]]]; inversion H; subst;
      decide_names Hn.
  - intros n Hrem Hfix. rewrite after_request_entries.
    rewrite (Hrem "Referrer-Policy"), (Hrem "Strict-Transport-Security"),
      (Hrem "X-Content-Type-Options"), (Hrem "X-Frame-Options")
      by (cbn; auto).
    rewrite (Hfix "Content-Security-Policy" content_security_policy),
      (Hfix "Access-Control-Allow-Credentials" "true"),
      (Hfix "Access-Control-Expose-Headers" "*"),
      (Hfix "Access-Control-Allow-Headers" "*"),
      (Hfix "Access-Control-Allow-Methods" "GET, POST, PUT, DELETE, OPTIONS"),
      (Hfix "Access-Control-Allow-Origin" "*")
      by (cbn; auto 10).
    reflexivity.
Qed.

(** X22.  [after_request] is idempotent: run on its own result it changes
    nothing, not even the order or the spelling of the headers. *)
Theorem after_request_idempotent (r : flask_response) :
  after_request (after_request r) = after_request r.
Proof.
  pose proof (after_request_entries r) as He.
  destruct (after_request r) as [c h] eqn:Hr. cbn [headers] in He.
  unfold after_request, Headers.pop. cbn [headers content].
  rewrite (remove_absent "X-Frame-Options" h) by (rewrite He; vm_compute; reflexivity).
  rewrite (set_present "Access-Control-Allow-Origin" "*" h)
    by (rewrite He; vm_compute; reflexivity).
  rewrite (set_present "Access-Control-Allow-Methods" _ h)
    by (rewrite He; vm_compute; reflexivity).
  rewrite (set_present "Access-Control-Allow-Headers" "*" h)
    by (rewrite He; vm_compute; reflexivity).
  rewrite (set_present "Access-Control-Expose-Headers" "*" h)
    by (rewrite He; vm_compute; reflexivity).
  rewrite (set_present "Access-Control-Allow-Credentials" "true" h)
    by (rewrite He; vm_compute; reflexivity).
  rewrite (set_present "Content-Security-Policy" content_security_policy h)
    by (rewrite He; vm_compute; reflexivity).
  rewrite (remove_absent "X-Content-Type-Options" h) by (rewrite He; vm_compute; reflexivity).
  rewrite (remove_absent "Strict-Transport-Security" h) by (rewrite He; vm_compute; reflexivity).
  rewrite (remove_absent "Referrer-Policy" h) by (rewrite He; vm_compute; reflexivity).
  reflexivity.
Qed.

(** X23.  The answer to a preflight request.  [handle_options] leaves the
    body and the status of the made response alone, gives the origin,
    methods, headers and maximum-age headers one entry each with its
    fixed value, and leaves the entries of every other name as they
    were; after [after_request] has run on its result, the maximum age
    still has its one entry, 3600. *)
Theorem preflight_headers (made : flask_response) :
  content (handle_options made) = content made /\
  (forall (name value n : string),
      In (name, value)
        [("Access-Control-Allow-Origin", "*");
         ("Access-Control-Allow-Methods", "GET, POST, PUT, DELETE, OPTIONS");
         ("Access-Control-Allow-Headers", "*");
         ("Access-Control-Max-Age", "3600")] ->
      Headers.same_name n name = true ->
      Headers.entries (headers (handle_options made)) n = [(name, value)]) /\
  (forall n : string,
      Headers.same_name n "Access-Control-Allow-Origin" = false ->
      Headers.same_name n "Access-Control-Allow-Methods" = false ->
      Headers.same_name n "Access-Control-Allow-Headers" = false ->
      Headers.same_name n "Access-Control-Max-Age" = false ->
      Headers.entries (headers (handle_options made)) n
        = Headers.entries (headers made) n) /\
  (forall n : string,
      Headers.same_name n "Access-Control-Max-Age" = true ->
      Headers.entries (headers (after_request (handle_options made))) n
        = [("Access-Control-Max-Age", "3600")]).
Proof.
  split; [reflexivity|]. split; [|split].
  - intros name value n Hin Hn. unfold handle_options. cbn [headers].
    rewrite !entries_set. cbn in Hin.
    destruct Hin as [H|[H|[H|[H|[]]]]]; inversion H; subst; decide_names Hn.
  - intros n H1 H2 H3 H4. unfold handle_options. cbn [headers].
    rewrite !entries_set, H1, H2, H3, H4. reflexivity.
  - intros n Hn. rewrite after_request_entries. unfold handle_options.
    cbn [headers]. rewrite !entries_set. decide_names Hn.
Qed.

End HeaderFacts.

(** ** Concrete runs *)

Lemma reinstall_overwrites_one_tenant_witness :
  exists s1 s2 : state,
    snd (serve_installed (token_world PNone) install_request fresh) = s1 /\
    snd (serve_installed (token_world PNone) reinstall_request s1) = s2 /\
    installed_tenants s2 !! KStr "tenant-1" =
      Some (mk_TenantRecord (PStr "n3w") (PStr "https://one.atlassian.net")
              (time_time (token_world PNone) (log s1))) /\
    (forall k' : pykey, k' <> KStr "tenant-1" ->
       installed_tenants s2 !! k' = installed_tenants fresh !! k') /\
    size (installed_tenants s2) = size (installed_tenants s1) /\
    (write_tenants (token_world PNone) (log s1 ++ [Time_time]) = Written ->
     tenants_json s2 = Holds (json_roundtrip (installed_tenants s2))).
Proof.
  apply (reinstall_overwrites_one_tenant (token_world PNone)
           install_request reinstall_request
           [("clientKey", PStr "tenant-1");
            ("sharedSecret", PStr "s3cret");
            ("baseUrl", PStr "https://one.atlassian.net")]
           [("clientKey", PStr "tenant-1");
            ("sharedSecret", PStr "n3w");
            ("baseUrl", PStr "https://one.atlassian.net")]
           (KStr "tenant-1") fresh);
    reflexivity.
Defined.

Lemma health_count_follows_callbacks_witness :
  exists (t : Z) (s' : state),
    serve_health (token_world PNone)
      (snd (serve_installed (token_world PNone) install_request fresh)) =
      (Ok (mk_response
             (PDict [("status", PStr "healthy");
                     ("installed_tenants", PInt 1);
                     ("timestamp", PInt t)])
             200), s').
Proof.
  exact (proj1 (health_count_follows_callbacks (token_world PNone)
                  install_request
                  [("clientKey", PStr "tenant-1");
                   ("sharedSecret", PStr "s3cret");
                   ("baseUrl", PStr "https://one.atlassian.net")]
                  (KStr "tenant-1") fresh eq_refl eq_refl)).
Defined.

Lemma apply_writes_empty_description_witness :
  exists (done : bool) (message : string) (s' : state),
    enhance_and_update_issue
      (world (Ok sample_issue)
         (Ok (generated (PDict [("response", PStr "Sorry, I cannot help with that.")]))))
      JiraIssueEnhancer_init sample_issue "" fresh
      = (Ok (done, message), s') /\
    updates (log s') =
      (updates (log fresh)
         ++ [Jira_issue_update (PStr "DIGI-894")
               (PDict [("description", PStr "")])])%list.
Proof.
  apply (apply_writes_empty_description
           (world (Ok sample_issue)
              (Ok (generated
                     (PDict [("response", PStr "Sorry, I cannot help with that.")]))))
           JiraIssueEnhancer_init sample_issue (PStr "DIGI-894") ""
           (prompt_layout _load_default_policy
              (mk_TicketSnapshot "DIGI-894" (Some "Login page fails")
                 (Some "It fails.") (Some "High") (Some "Bug") None
                 (Some "Open") ["web"; "login"] []) "")
           (match fst (to_string
                         (world (Ok sample_issue) (Ok server_error))
                         JiraIssueEnhancer_init sample_issue fresh) with
            | Ok text => text
            | Raise _ => ""
            end)
           "Sorry, I cannot help with that." fresh
           (generated (PDict [("response", PStr "Sorry, I cannot help with that.")]))
           [("response", PStr "Sorry, I cannot help with that.")]);
    try reflexivity.
  vm_compute. repeat constructor.
Defined.

Lemma preview_fails_on_malformed_answer_witness :
  exists (t : Z) (s' : state),
    enhance_issue_description
      (world (Ok sample_issue) (Ok (generated (PDict [("response", PInt 42)]))))
      JiraIssueEnhancer_init sample_issue "" fresh =
      (Ok (EnhancementFailure "'int' object has no attribute 'split'"
             sample_issue t), s').
Proof.
  apply (proj2 (preview_fails_on_malformed_answer
                  (world (Ok sample_issue)
                     (Ok (generated (PDict [("response", PInt 42)]))))
                  JiraIssueEnhancer_init sample_issue ""
                  (prompt_layout _load_default_policy
                     (mk_TicketSnapshot "DIGI-894" (Some "Login page fails")
                        (Some "It fails.") (Some "High") (Some "Bug") None
                        (Some "Open") ["web"; "login"] []) "")
                  fresh (generated (PDict [("response", PInt 42)]))
                  (PDict [("response", PInt 42)])
                  eq_refl (fun _ _ _ _ => eq_refl) eq_refl eq_refl)
           [("response", PInt 42)] (PInt 42) eq_refl eq_refl).
  intros text H. discriminate H.
Defined.

Lemma batch_results_follow_the_search_witness :
  exists (answer issues : pyval) (items : list pyval) (sent : list event),
    sample_search (log fresh) ("project = " ++ "DIGI" ++ " ORDER BY created DESC") 10
      = Ok answer /\
    Py.getitem answer "issues" = Ok issues /\
    Py.iter issues = Ok items /\
    Forall2 (fun issue r => Py.getitem issue "key" = Ok (batch_issue r)) items
      [mk_BatchResult (PStr "DIGI-894") false
         "❌ Enhancement failed for DIGI-894: 500 Server Error: Internal Server Error for url: http://localhost:11434/api/generate"] /\
    updates
      (log (snd (batch_enhance_project (world (Ok sample_issue) (Ok server_error))
                   sample_search "DIGI" 10 fresh)))
      = (updates (log fresh) ++ sent)%list /\
    (length (List.filter batch_success
               [mk_BatchResult (PStr "DIGI-894") false
                  "❌ Enhancement failed for DIGI-894: 500 Server Error: Internal Server Error for url: http://localhost:11434/api/generate"])
     <= length sent)%nat /\
    (length sent <= length items)%nat.
Proof.
  apply (batch_results_follow_the_search
           (world (Ok sample_issue) (Ok server_error)) sample_search "DIGI" 10 fresh).
  vm_compute. reflexivity.
Defined.

Lemma null_text_fields_render_as_None_witness :
  _build_prompt sample_unicode LlamaJiraEnhancer_default
    (PDict [("key", PStr "DIGI-7");
            ("fields",
             PDict (("summary", PNone) :: ("description", PNone)
                      :: snapshot_fields Null bare_ticket))])
    "" =
  Ok (prompt_layout _load_default_policy
        (mk_TicketSnapshot "DIGI-7" (Some "None") (Some "None") (Some "Low")
           None None None [] [])
        "").
Proof.
  apply (null_text_fields_render_as_None sample_unicode LlamaJiraEnhancer_default Null
           bare_ticket ""); reflexivity.
Defined.

Lemma endpoints_need_credentials_witness :
  serve_demo unconfigured fresh =
    (Ok (failure_response "Missing Jira credentials for tenant" 500), fresh).
Proof.
  apply (proj1 (endpoints_need_credentials unconfigured
                  (mk_request (Raise issue_not_found) None (fun _ => None)) fresh
                  (or_introl eq_refl))).
Defined.
